(** * AIos: the orchestrator / responder pipeline of [src/App.js]

    A shallow embedding of the three pieces of [src/App.js] that carry
    control flow: [callGeminiOrchestrator] (lines 75-132),
    [callGeminiResponseGenerator] (lines 137-205) and the [handleSend]
    callback of the [App] component (lines 304-379).

    The code is asynchronous JavaScript talking to two outside parties, the
    model endpoint (through [fetch]) and the Firestore collection (through a
    write batch).  Both are modelled as oracles of an environment [Env]: the
    n-th call of [fetch] receives the n-th outcome of [net], [JSON.parse]
    is the function [JSON_parse], and the batch commit settles the way
    [commit] says.  Effects are recorded in a [World] that is threaded
    through the code: the trace of requests, waits and console reports, the
    collection, and the React state of the component.  Strings are the
    JavaScript strings over the code units below 256, and the values of a
    JSON payload are untyped ([Js]), with the conversions to string and
    their TypeErrors that the code applies to them.

    The development then covers what the component shows (the snapshot
    listener, the [ChatMessage] bubble, the authentication callback) and
    the [invokeAI] / [handleSubmit] pair of the GenUI shell, the second
    component of the repository. *)

From Stdlib Require Import String Ascii List ZArith NArith Lia Bool.
From Stdlib Require Import Decimal DecimalString.
From Stdlib Require Import Sorting.Sorted Sorting.Permutation.
Import ListNotations.
Open Scope string_scope.

(** ** Strings

    A [string] stands for the JavaScript string that has the same code
    units, one [ascii] per code unit: the strings of the model are the
    JavaScript strings whose code units are all below 256 (U+0000 to
    U+00FF), and every function of this module is the JavaScript method on
    such strings.  The no-break space U+00A0, for one, is the character
    ["160"%char]; a character above U+00FF has no counterpart here. *)

Module Str.

(** The double quote and the line feed, which the templates of
    [handleSend] contain. *)
Definition dq : string := String "034"%char EmptyString.
Definition nl : string := String "010"%char EmptyString.

(** [String.prototype.includes]. *)
Fixpoint includes (s sub : string) : bool :=
  if String.prefix sub s then true
  else match s with
       | EmptyString => false
       | String _ s' => includes s' sub
       end.

(** [Array.prototype.join] on strings. *)
Fixpoint join (sep : string) (l : list string) : string :=
  match l with
  | [] => ""
  | [x] => x
  | x :: r => x ++ sep ++ join sep r
  end.

(** Decimal rendering of a number, as a template literal prints an
    integer. *)
Definition of_N (n : N) : string := NilEmpty.string_of_uint (N.to_uint n).
Definition of_nat (n : nat) : string := of_N (N.of_nat n).
Definition of_Z (z : Z) : string := NilZero.string_of_int (Z.to_int z).

(** The white space and the line terminators of the language among the
    code units below 256: U+0009 to U+000D, the space and the no-break
    space U+00A0. *)
Definition is_space (c : ascii) : bool :=
  let n := nat_of_ascii c in
  ((9 <=? n) && (n <=? 13) || (n =? 32) || (n =? 160))%nat.

Fixpoint trim_start (s : string) : string :=
  match s with
  | String c s' => if is_space c then trim_start s' else s
  | EmptyString => EmptyString
  end.

Fixpoint rev (s : string) : string :=
  match s with
  | EmptyString => EmptyString
  | String c s' => rev s' ++ String c EmptyString
  end.

(** [String.prototype.trim]: white space and line terminators are
    removed at both ends. *)
Definition trim (s : string) : string := rev (trim_start (rev (trim_start s))).

Definition is_empty (s : string) : bool :=
  match s with EmptyString => true | _ => false end.

Fixpoint chars (s : string) : list ascii :=
  match s with
  | EmptyString => []
  | String c s' => c :: chars s'
  end.

End Str.

(** ** JavaScript values

    What [response.json()] and [JSON.parse] produce, plus [undefined], which
    property access adds.  The code does no arithmetic on the numbers of a
    payload: it converts them to strings and tests them for truth, so a
    number is carried by the text that [Number.prototype.toString] prints
    for it ([JNum "42"], [JNum "1e+21"], [JNum "0.5"]; both zeros print
    ["0"]).  An object is the list of its own properties, first binding of
    a key first. *)

#[warnings="-register-all"]
Inductive Js : Type :=
| JUndef
| JNull
| JBool (b : bool)
| JNum (text : string)
| JStr (s : string)
| JArr (items : list Js)
| JObj (props : list (string * Js)).

Module JsVal.

Definition nullish (v : Js) : bool :=
  match v with JUndef | JNull => true | _ => false end.

(** ToBoolean: the test of [if (v)], [v || w] and [filter(Boolean)]. *)
Definition truthy (v : Js) : bool :=
  match v with
  | JUndef | JNull => false
  | JBool b => b
  | JNum text => negb (String.eqb text "0" || String.eqb text "NaN")
  | JStr s => negb (Str.is_empty s)
  | JArr _ | JObj _ => true
  end.

(** [a || b]. *)
Definition or (a b : Js) : Js := if truthy a then a else b.

(** ToString, which a template literal, string [+], [join], [JSON.parse]
    and [new Error] apply, is partial.  An object is converted by the
    [toString] it has: the inherited method, which prints
    ["[object Object]"], unless the object has an own key [toString]; the
    value of an own key is no function in a JSON value, the inherited
    [valueOf] gives the object back, and the conversion throws a TypeError.
    An array is converted by joining the conversions of its items, and
    throws when one of them does.  [converts v] says that ToString gives a
    string for [v]; [toStr v] is that string. *)
Fixpoint converts (v : Js) : bool :=
  match v with
  | JArr items => forallb converts items
  | JObj props => negb (existsb (fun p => String.eqb (fst p) "toString") props)
  | _ => true
  end.

(** An array prints its items separated by commas, [null] and
    [undefined] items as nothing. *)
Fixpoint toStr (v : Js) : string :=
  match v with
  | JUndef => "undefined"
  | JNull => "null"
  | JBool true => "true"
  | JBool false => "false"
  | JNum text => text
  | JStr s => s
  | JArr items =>
      let item x := match x with JUndef | JNull => "" | _ => toStr x end in
      (fix go (l : list Js) : string :=
         match l with
         | [] => ""
         | [x] => item x
         | x :: r => item x ++ "," ++ go r
         end) items
  | JObj _ => "[object Object]"
  end.

(** The message of the TypeError of a conversion (the wording of V8). *)
Definition cannot_convert : string := "Cannot convert object to primitive value".

(** ToString with its error: the message on the left, the string on the
    right. *)
Definition ToString (v : Js) : string + string :=
  if converts v then inr (toStr v) else inl cannot_convert.

(** [items.join(sep)]: every item that is neither [null] nor [undefined]
    is converted. *)
Definition join (sep : string) (items : list Js) : string + string :=
  if forallb converts items then
    inr (Str.join sep (map (fun x => if nullish x then "" else toStr x) items))
  else inl cannot_convert.

Fixpoint lookup (k : string) (props : list (string * Js)) : Js :=
  match props with
  | [] => JUndef
  | (k', v) :: r => if String.eqb k k' then v else lookup k r
  end.

(** [v.k] for a named property [k] and a [v] that is neither [null] nor
    [undefined]: only objects have the names the code reads. *)
Definition prop (k : string) (v : Js) : Js :=
  match v with
  | JObj props => lookup k props
  | _ => JUndef
  end.

(** [v[0]] for a [v] that is neither [null] nor [undefined]. *)
Definition index0 (v : Js) : Js :=
  match v with
  | JArr (x :: _) => x
  | JStr (String c _) => JStr (String c EmptyString)
  | JObj props => lookup "0" props
  | _ => JUndef
  end.

(** [v?.k] and [v?.[0]]: a nullish base makes the rest of the chain
    [undefined]. *)
Definition opt_prop (k : string) (v : Js) : Js :=
  if nullish v then JUndef else prop k v.
Definition opt_index0 (v : Js) : Js :=
  if nullish v then JUndef else index0 v.

(** [v === 'literal']. *)
Definition is_string (lit : string) (v : Js) : bool :=
  match v with
  | JStr s => String.eqb s lit
  | _ => false
  end.

(** The message of the TypeError raised by reading property [k] of
    [null] or [undefined] (the wording of V8). *)
Definition cannot_read (v : Js) (k : string) : string :=
  "Cannot read properties of " ++ toStr v ++ " (reading '" ++ k ++ "')".

End JsVal.
Import JsVal.

(** ** Requests, outcomes, effects *)

(** A response schema, as the [responseSchema] object literal spells it. *)
#[warnings="-register-all"]
Inductive Schema : Type :=
| SString (description : string)
| SObject (description : option string)
          (properties : list (string * Schema))
          (required : list string).

Record GenerationConfig := mkGenerationConfig {
  responseMimeType : string;
  responseSchema : Schema
}.

(** The body of a POST to [API_URL].  URL, method and headers are the same
    constants in every call and are left out.  A key whose value is
    [undefined] is dropped by [JSON.stringify]: [None] here. *)
Record Request := mkRequest {
  contents : string;
  systemInstruction : string;
  generationConfig : option GenerationConfig;
  tools : option (list string)
}.

(** What [await response.json()] gives. *)
Inductive BodyOutcome : Type :=
| BodyRejected (message : string)
| BodyJson (result : Js).

(** What [await fetch(...)] gives: a rejection with an error message, or a
    response with its status and its body still unread. *)
Inductive FetchOutcome : Type :=
| FetchRejected (message : string)
| Response (status : N) (body : BodyOutcome).

Inductive ParseOutcome : Type :=
| ParseOk (value : Js)
| ParseError (message : string).

Inductive CommitOutcome : Type :=
| CommitOk
| CommitRejected (message : string).

(** A document of the messages collection.  [timestamp] is the
    [serverTimestamp()] sentinel in both documents and is left out;
    [msg_isSystem] is [None] where the literal has no such key. *)
Record ChatRecord := mkChatRecord {
  msg_text : string;
  msg_userId : string;
  msg_type : Js;
  msg_isSystem : option bool;
  msg_userDisplayId : string
}.

Inductive Event : Type :=
| EvFetch (request : Request)
| EvSleep (ms : Z)
| EvConsoleError (label : string)
| EvCallResponder (userQuery : string) (intent : Js)
| EvCommit (batch : list ChatRecord).

Record Env := mkEnv {
  net : nat -> FetchOutcome;
  JSON_parse : string -> ParseOutcome;
  commit : CommitOutcome
}.

(** The state the code reads and writes: what it did so far, the
    collection, and the [useState] cells of [App] that [handleSend] uses. *)
Record World := mkWorld {
  fetched : nat;
  trace : list Event;
  collection : list ChatRecord;
  db : bool;
  userId : option string;
  newMessage : string;
  error : option string;
  isSending : bool
}.

Module Effect.

Definition emit (e : Event) (w : World) : World :=
  mkWorld (fetched w) (trace w ++ [e]) (collection w) (db w) (userId w)
          (newMessage w) (error w) (isSending w).

(** [await fetch(API_URL, ...)]. *)
Definition fetch (env : Env) (rq : Request) (w : World) : FetchOutcome * World :=
  (net env (fetched w),
   mkWorld (S (fetched w)) (trace w ++ [EvFetch rq]) (collection w) (db w)
           (userId w) (newMessage w) (error w) (isSending w)).

(** [await new Promise(r => setTimeout(r, delay))]. *)
Definition sleep (ms : Z) (w : World) : World := emit (EvSleep ms) w.

Definition console_error (label : string) (w : World) : World :=
  emit (EvConsoleError label) w.

Definition setIsSending (b : bool) (w : World) : World :=
  mkWorld (fetched w) (trace w) (collection w) (db w) (userId w)
          (newMessage w) (error w) b.

Definition setError (e : option string) (w : World) : World :=
  mkWorld (fetched w) (trace w) (collection w) (db w) (userId w)
          (newMessage w) e (isSending w).

Definition setNewMessage (s : string) (w : World) : World :=
  mkWorld (fetched w) (trace w) (collection w) (db w) (userId w)
          s (error w) (isSending w).

(** A committed batch adds its documents to the collection, all of
    them at once. *)
Definition append (batch : list ChatRecord) (w : World) : World :=
  mkWorld (fetched w) (trace w) (collection w ++ batch) (db w) (userId w)
          (newMessage w) (error w) (isSending w).

End Effect.
Import Effect.

(** The result of an [async] function: its promise is fulfilled with a
    value or rejected with an [Error] of some message. *)
Inductive Outcome (A : Type) : Type :=
| Ret (a : A)
| Throw (message : string).
Arguments Ret {A} a.
Arguments Throw {A} message.

Definition M (A : Type) : Type := World -> Outcome A * World.

Definition ret {A} (a : A) : M A := fun w => (Ret a, w).
Definition throw {A} (m : string) : M A := fun w => (Throw m, w).
Definition bind {A B} (c : M A) (k : A -> M B) : M B :=
  fun w => match c w with
           | (Ret a, w1) => k a w1
           | (Throw m, w1) => (Throw m, w1)
           end.
Definition try_catch {A} (c : M A) (handler : string -> M A) : M A :=
  fun w => match c w with
           | (Ret a, w1) => (Ret a, w1)
           | (Throw m, w1) => handler m w1
           end.
Definition lift (f : World -> World) : M unit := fun w => (Ret tt, f w).

Notation "x <- c ;; k" := (bind c (fun x => k))
  (at level 61, c at next level, right associativity).
Notation "c ;;; k" := (bind c (fun _ => k))
  (at level 61, right associativity).

(** ** Constants of the module *)

Definition MAX_RETRIES : nat := 3.

Definition ORCHESTRATION_SCHEMA : Schema :=
  SObject None
    [ ("intent",
       SString "The primary intent or tool required: 'calendar_tool', 'communication_tool', 'image_generation', 'gemini_response', or 'general_chat'.");
      ("tool_triggered",
       SString "A friendly name for the tool that was triggered (e.g., 'Calendar API', 'Email Draft', 'Imagen Tool', 'Gemini Responder').");
      ("arguments",
       SObject (Some "Key-value pairs representing the arguments for the selected tool.")
         [ ("query", SString "The original user query or a brief summary of the task.") ]
         []) ]
    ["intent"; "tool_triggered"; "arguments"].

(** ** The retry loop

    [callGeminiOrchestrator] and [callGeminiResponseGenerator] contain the
    same [for] loop, line for line: a [try] block that fetches and branches
    on the status, and a [catch] block that retries connectivity failures.
    The two texts differ in the name printed in the messages ([api]), in the
    code of the [response.ok] branch ([on_ok], which only returns or
    throws), in the label of the console report ([fatal_label]) and in the
    message of the error that the [catch] block throws ([rethrow]).  These
    are the variables of the section, and each function below instantiates
    them with its own text. *)

(** How one pass through the loop body ends. *)
Inductive Completion (A : Type) : Type :=
| CReturn (a : A)
| CContinue (delay : Z)
| CThrow (message : string).
Arguments CReturn {A} a.
Arguments CContinue {A} delay.
Arguments CThrow {A} message.

(** How the [for] statement is left: by a [return] or a [throw] in its
    body, or because [i < MAX_RETRIES] became false. *)
Inductive LoopExit (A : Type) : Type :=
| Returned (a : A)
| Thrown (message : string)
| Fallthrough.
Arguments Returned {A} a.
Arguments Thrown {A} message.
Arguments Fallthrough {A}.

Definition response_ok (status : N) : bool :=
  ((200 <=? status) && (status <=? 299))%N.

Definition retryable_status (status : N) : bool :=
  ((status =? 429) || (500 <=? status))%N.

Definition connectivity_message (m : string) : bool :=
  Str.includes m "Failed to fetch" || Str.includes m "NetworkError".

Section RetryLoop.

Variable env : Env.
Variable A : Type.
Variable maxRetries : nat.
Variable api : string.
Variable payload : Request.
Variable on_ok : Js -> M A.
Variable fatal_label : string.
Variable rethrow : string -> string.

(** The [try] block of iteration [i]. *)
Definition try_block (i : nat) (delay : Z) (w : World) : Completion A * World :=
  let (outcome, w1) := fetch env payload w in
  match outcome with
  | FetchRejected m => (CThrow m, w1)
  | Response status body =>
      if response_ok status then
        match body with
        | BodyRejected m => (CThrow m, w1)
        | BodyJson result =>
            match on_ok result w1 with
            | (Ret a, w2) => (CReturn a, w2)
            | (Throw m, w2) => (CThrow m, w2)
            end
        end
      else if retryable_status status then
        if (i <? maxRetries - 1)%nat then
          (CContinue (delay * 2), sleep delay w1)
        else
          (CThrow (api ++ " API returned status " ++ Str.of_N status
                   ++ " after " ++ Str.of_nat maxRetries ++ " attempts."), w1)
      else
        (CThrow (api ++ " API returned status " ++ Str.of_N status), w1)
  end.

(** The [try] block followed by the [catch] block, which sees every
    error thrown in the [try] block, those of the status branches too. *)
Definition iteration (i : nat) (delay : Z) (w : World) : Completion A * World :=
  match try_block i delay w with
  | (CThrow m, w1) =>
      if (i <? maxRetries - 1)%nat && connectivity_message m then
        (CContinue (delay * 2), sleep delay w1)
      else
        (CThrow (rethrow m), console_error fatal_label w1)
  | other => other
  end.

(** [for (let i = 0; i < MAX_RETRIES; i++)], entered at index [i] with
    [remaining = MAX_RETRIES - i] passes left. *)
Fixpoint loop (remaining i : nat) (delay : Z) (w : World) : LoopExit A * World :=
  match remaining with
  | O => (Fallthrough, w)
  | S remaining' =>
      match iteration i delay w with
      | (CReturn a, w1) => (Returned a, w1)
      | (CThrow m, w1) => (Thrown m, w1)
      | (CContinue delay', w1) => loop remaining' (S i) delay' w1
      end
  end.

(** [let delay = 1000; for (...) {...}]. *)
Definition retry_loop (w : World) : LoopExit A * World :=
  loop maxRetries 0 1000%Z w.

(** The function body: the loop, then the statement after it. *)
Definition with_fallback (after_loop : A) : M A :=
  fun w => match retry_loop w with
           | (Returned a, w1) => (Ret a, w1)
           | (Thrown m, w1) => (Throw m, w1)
           | (Fallthrough, w1) => (Ret after_loop, w1)
           end.

End RetryLoop.

(** [result.candidates?.[0]]: [result] itself is read without [?.]. *)
Definition first_candidate (result : Js) : string + Js :=
  if nullish result then inl (cannot_read result "candidates")
  else inr (opt_index0 (prop "candidates" result)).

(** [result.candidates?.[0]?.content?.parts?.[0]?.text]. *)
Definition candidate_text (result : Js) : string + Js :=
  match first_candidate result with
  | inl m => inl m
  | inr c => inr (opt_prop "text" (opt_index0 (opt_prop "parts" (opt_prop "content" c))))
  end.

(** ** callGeminiOrchestrator *)

Module Orchestrator.

Definition systemPrompt : string :=
  "You are the AIos Orchestration Agent (gNode). Your sole purpose is to analyze the user's request and categorize it into one of the following high-level intents: 'calendar_tool' (for scheduling, meetings, or time-related tasks), 'communication_tool' (for drafting emails, messages, or reports), 'image_generation' (for creating visual assets), 'gemini_response' (for queries requiring up-to-date web information or complex, multi-paragraph answers), or 'general_chat' (for all other simple conversational queries). Do not generate any text outside of the JSON structure.".

Definition payload (userQuery : string) : Request :=
  {| contents := userQuery;
     systemInstruction := systemPrompt;
     generationConfig :=
       Some {| responseMimeType := "application/json";
               responseSchema := ORCHESTRATION_SCHEMA |};
     tools := None |}.

(** An object literal [{ intent, tool_triggered, arguments: { query } }]. *)
Definition result_literal (intent tool_triggered query : string) : Js :=
  JObj [ ("intent", JStr intent);
         ("tool_triggered", JStr tool_triggered);
         ("arguments", JObj [("query", JStr query)]) ].

(** Line 106. *)
Definition lacked_content : Js :=
  result_literal "error" "System Error" "Failed to parse LLM response.".

(** Line 131, the statement after the loop. *)
Definition timed_out : Js :=
  result_literal "error" "API Timeout" "API call timed out after multiple retries.".

(** Lines 99-107. *)
Definition on_ok (env : Env) (result : Js) : M Js :=
  match candidate_text result with
  | inl m => throw m
  | inr jsonText =>
      if truthy jsonText then
        match ToString jsonText with
        | inl m => throw m
        | inr text =>
            match JSON_parse env text with
            | ParseOk v => ret v
            | ParseError m => throw m
            end
        end
      else
        lift (console_error "Gemini orchestration response lacked structured content:") ;;;
        ret lacked_content
  end.

Definition fatal_label : string := "Fatal Error calling Gemini Orchestrator API:".

(** [error.message || "Unknown API error."]. *)
Definition rethrow (m : string) : string :=
  if Str.is_empty m then "Unknown API error." else m.

Definition run_loop (env : Env) (userQuery : string) : World -> LoopExit Js * World :=
  retry_loop env Js MAX_RETRIES "Orchestrator" (payload userQuery)
             (on_ok env) fatal_label rethrow.

End Orchestrator.

Definition callGeminiOrchestrator (env : Env) (userQuery : string) : M Js :=
  with_fallback env Js MAX_RETRIES "Orchestrator" (Orchestrator.payload userQuery)
                (Orchestrator.on_ok env) Orchestrator.fatal_label
                Orchestrator.rethrow Orchestrator.timed_out.

(** ** callGeminiResponseGenerator *)

Module Responder.

Definition groundedPrompt : string :=
  "Act as a helpful, grounded assistant. Use Google Search to find current, factual information to answer the user's query concisely and accurately. Include citation links if they are returned by the API.".

Definition plainPrompt : string :=
  "Act as a helpful assistant, providing a concise, conversational answer.".

(** Lines 138-147. *)
Definition payload (userQuery : string) (intent : Js) : Request :=
  {| contents := userQuery;
     systemInstruction :=
       if is_string "gemini_response" intent then groundedPrompt else plainPrompt;
     generationConfig := None;
     tools :=
       if is_string "gemini_response" intent then Some ["google_search"] else None |}.

(** [attr => attr.web?.title || attr.web?.uri]. *)
Definition pick (attr : Js) : string + Js :=
  if nullish attr then inl (cannot_read attr "web")
  else let web := prop "web" attr in
       inr (or (opt_prop "title" web) (opt_prop "uri" web)).

(** [Array.prototype.map] with a callback that may throw: the first
    error ends the call. *)
Fixpoint map_pick (attrs : list Js) : string + list Js :=
  match attrs with
  | [] => inr []
  | a :: r =>
      match pick a with
      | inl m => inl m
      | inr v => match map_pick r with
                 | inl m => inl m
                 | inr vs => inr (v :: vs)
                 end
      end
  end.

(** [groundingAttributions.map(...).filter(Boolean).slice(0, 3)]; a value
    that is not an array has no [map] method. *)
Definition sources_of (groundingAttributions : Js) : string + list Js :=
  match groundingAttributions with
  | JArr attrs =>
      match map_pick attrs with
      | inl m => inl m
      | inr picked => inr (firstn 3 (filter truthy picked))
      end
  | _ => inl "groundingMetadata.groundingAttributions.map is not a function"
  end.

(** Lines 164-175: the value of [citations] when the [if] is left. *)
Definition citations_of (groundingMetadata : Js) : string + string :=
  if truthy groundingMetadata
     && truthy (prop "groundingAttributions" groundingMetadata)
  then
    match sources_of (prop "groundingAttributions" groundingMetadata) with
    | inl m => inl m
    | inr sources =>
        if (0 <? List.length sources)%nat then
          match JsVal.join ", " sources with
          | inl m => inl m
          | inr joined => inr (Str.nl ++ Str.nl ++ "**Sources:** " ++ joined)
          end
        else inr ""
    end
  else inr "".

Definition no_text : string :=
  "Gemini failed to generate a response (no text returned).".

(** Line 204, the statement after the loop. *)
Definition timed_out : string :=
  "API call to the Response Generator timed out.".

(** Lines 159-180. *)
Definition on_ok (result : Js) : M string :=
  match candidate_text result with
  | inl m => throw m
  | inr text =>
      if truthy text then
        match first_candidate result with
        | inl m => throw m
        | inr candidate =>
            match citations_of (opt_prop "groundingMetadata" candidate) with
            | inl m => throw m
            | inr citations =>
                match ToString text with
                | inl m => throw m
                | inr body => ret (body ++ citations)
                end
            end
        end
      else ret no_text
  end.

Definition fatal_label : string := "Fatal Error calling Response Generator API:".

Definition rethrow (m : string) : string := "Response Generator failed: " ++ m.

Definition run_loop (env : Env) (userQuery : string) (intent : Js)
  : World -> LoopExit string * World :=
  retry_loop env string MAX_RETRIES "Response Generator" (payload userQuery intent)
             on_ok fatal_label rethrow.

End Responder.

(** The function notes its own invocation in the trace before it does
    anything else; the note has no counterpart in the source and serves to
    count calls. *)
Definition callGeminiResponseGenerator (env : Env) (userQuery : string) (intent : Js)
  : M string :=
  lift (emit (EvCallResponder userQuery intent)) ;;;
  with_fallback env string MAX_RETRIES "Response Generator"
                (Responder.payload userQuery intent)
                Responder.on_ok Responder.fatal_label Responder.rethrow
                Responder.timed_out.

(** ** handleSend *)

Module Send.

(** [!db || !userId || !textToSend || isSending]. *)
Definition rejected (w : World) (textToSend : string) : bool :=
  negb (db w)
  || match userId w with
     | None => true
     | Some u => Str.is_empty u
     end
  || Str.is_empty textToSend
  || isSending w.

(** Lines 312-318. *)
Definition userMessageData (textToSend uid : string) : ChatRecord :=
  {| msg_text := textToSend;
     msg_userId := uid;
     msg_type := JStr "user_query";
     msg_isSystem := None;
     msg_userDisplayId := substring 0 8 uid |}.

(** Lines 321-327. *)
Definition orchestrate (env : Env) (textToSend : string) : M Js :=
  try_catch (callGeminiOrchestrator env textToSend)
            (fun m => ret (Orchestrator.result_literal "error" "API Failure" m)).

(** Line 329,
    [const { intent, tool_triggered, arguments: { query: querySummary } } = orchestrationResult].
    Destructuring [null] or [undefined] is a TypeError, at the outer
    pattern and at the inner one. *)
Definition destructure (orchestrationResult : Js) : M (Js * Js * Js) :=
  if nullish orchestrationResult then
    throw ("Cannot destructure property 'intent' of 'orchestrationResult' as it is "
           ++ toStr orchestrationResult ++ ".")
  else
    let intent := prop "intent" orchestrationResult in
    let tool_triggered := prop "tool_triggered" orchestrationResult in
    let arguments := prop "arguments" orchestrationResult in
    if nullish arguments then
      throw ("Cannot read properties of " ++ toStr arguments ++ " (reading 'query')")
    else ret (intent, tool_triggered, prop "query" arguments).

(** The three values of line 329 convert to strings: the template of
    line 333 gives a string. *)
Definition summarizable (intent tool_triggered querySummary : Js) : bool :=
  converts intent && converts tool_triggered && converts querySummary.

(** Line 333, for values that convert. *)
Definition orchestrationSummary (intent tool_triggered querySummary : Js) : string :=
  "Intent Classified: **" ++ toStr intent ++ "**. Tool: " ++ toStr tool_triggered
  ++ ". Summary: " ++ Str.dq ++ toStr querySummary ++ Str.dq ++ ".".

Definition mock_continuation (tool_triggered : Js) : string :=
  Str.nl ++ Str.nl
  ++ "**Tool Execution Mock:** The UI would now transition to the generated application form for "
  ++ toStr tool_triggered ++ ".".

(** Lines 332-349: the value of [finalResponse].  The template of line
    333 converts the three values before any branch is taken, outside
    every [try]: a value that does not convert ends [handleSend] there. *)
Definition compose (env : Env) (textToSend : string)
           (intent tool_triggered querySummary : Js) : M string :=
  if summarizable intent tool_triggered querySummary then
    let summary := orchestrationSummary intent tool_triggered querySummary in
    if is_string "error" intent then
      ret ("Orchestration Failure: " ++ toStr tool_triggered
           ++ ". Details: " ++ toStr querySummary)
    else if is_string "general_chat" intent || is_string "gemini_response" intent then
      try_catch
        (answer <- callGeminiResponseGenerator env textToSend intent ;;
         ret (summary ++ Str.nl ++ Str.nl ++ "--- AIos Response ---" ++ Str.nl ++ answer))
        (fun m =>
           ret (summary ++ Str.nl ++ Str.nl ++ "--- Response Generation Failed ---"
                ++ Str.nl ++ "Error: " ++ m))
    else
      ret (summary ++ mock_continuation tool_triggered)
  else throw cannot_convert.

(** Lines 351-358. *)
Definition aiResponseData (finalResponse : string) (intent : Js) : ChatRecord :=
  {| msg_text := finalResponse;
     msg_userId := "AIos_gNode";
     msg_type := intent;
     msg_isSystem := Some true;
     msg_userDisplayId := "AIos Core" |}.

(** Lines 370-375: how the promise of [batch.commit()] settles, with its
    [catch] and [finally] handlers.  A write batch is applied as a
    whole or not at all. *)
Definition settle (env : Env) (batch : list ChatRecord) (w : World) : World :=
  match commit env with
  | CommitOk => setIsSending false (append batch w)
  | CommitRejected m =>
      setIsSending false
        (setError (Some ("Failed to send message: " ++ m))
           (console_error "Firestore Batch Write Error:" w))
  end.

End Send.

(** Lines 304-379.  The promise of [batch.commit()] is not awaited:
    [setNewMessage('')] runs first and the handlers of the promise after
    it; the world returned is the one after the handlers ran. *)
Definition handleSend (env : Env) : M unit :=
  fun w =>
    let textToSend := Str.trim (newMessage w) in
    if Send.rejected w textToSend then (Ret tt, w)
    else
      (lift (setIsSending true) ;;;
       lift (setError None) ;;;
       let userMessageData :=
         Send.userMessageData textToSend
           (match userId w with Some u => u | None => "" end) in
       orchestrationResult <- Send.orchestrate env textToSend ;;
       parts <- Send.destructure orchestrationResult ;;
       let '(intent, tool_triggered, querySummary) := parts in
       finalResponse <- Send.compose env textToSend intent tool_triggered querySummary ;;
       let aiResponseData := Send.aiResponseData finalResponse intent in
       let batch := [userMessageData; aiResponseData] in
       lift (emit (EvCommit batch)) ;;;
       lift (setNewMessage "") ;;;
       lift (Send.settle env batch)) w.

(** ** Vocabulary of the statements *)

(** How many invocations of [callGeminiResponseGenerator] a trace notes. *)
Fixpoint responder_calls (t : list Event) : nat :=
  match t with
  | [] => 0
  | EvCallResponder _ _ :: r => S (responder_calls r)
  | _ :: r => responder_calls r
  end.

(** The requests found in a trace, oldest first. *)
Fixpoint requests (t : list Event) : list Request :=
  match t with
  | [] => []
  | EvFetch rq :: r => rq :: requests r
  | _ :: r => requests r
  end.

(** The events a retry loop sending [payload] can add to the trace. *)
Definition loop_event (payload : Request) (e : Event) : Prop :=
  e = EvFetch payload \/ (exists ms, e = EvSleep ms) \/ (exists l, e = EvConsoleError l).

(** The events [callGeminiResponseGenerator] can add. *)
Definition responder_event (userQuery : string) (intent : Js) (e : Event) : Prop :=
  e = EvCallResponder userQuery intent
  \/ loop_event (Responder.payload userQuery intent) e.

Definition same_app_state (w w' : World) : Prop :=
  collection w' = collection w /\ db w' = db w /\ userId w' = userId w
  /\ newMessage w' = newMessage w /\ error w' = error w
  /\ isSending w' = isSending w.

(** [w'] is [w] after some more events, all of them in [P], and nothing
    else changed. *)
Definition extends_by (P : Event -> Prop) (w w' : World) : Prop :=
  (exists evs, trace w' = (trace w ++ evs)%list /\ Forall P evs)
  /\ same_app_state w w' /\ fetched w <= fetched w'.

(** An attempt outcome after which the loop tries again (when attempts are
    left): status 429 or 5xx, or a rejected [fetch] whose message names a
    connectivity failure. *)
Definition retryable_failure (o : FetchOutcome) : bool :=
  match o with
  | FetchRejected m => connectivity_message m
  | Response status _ => retryable_status status
  end.


(** The two documents [handleSend] puts into its write batch, in the order
    of the two [batch.set] calls. *)
Definition submitted_batch (w : World) (finalResponse : string) (intent : Js)
  : list ChatRecord :=
  [ Send.userMessageData (Str.trim (newMessage w))
      (match userId w with Some u => u | None => "" end);
    Send.aiResponseData finalResponse intent ].

(** Lines 361-377 on a world [w]: the commit is issued, the input box is
    emptied, the commit settles. *)
Definition persisted (env : Env) (batch : list ChatRecord) (w : World) : World :=
  Send.settle env batch (setNewMessage "" (emit (EvCommit batch) w)).

(** The world in which the classifier is called: lines 308-309 done. *)
Definition sending (w : World) : World := setError None (setIsSending true w).

Definition is_commit (e : Event) : bool :=
  match e with EvCommit _ => true | _ => false end.

(** The intent tags of the data model.  The specification calls
    [knowledge_response] the tag that the code spells ['gemini_response'];
    the list holds both spellings. *)
Definition enumerated_intents : list string :=
  ["calendar_tool"; "communication_tool"; "image_generation";
   "gemini_response"; "knowledge_response"; "general_chat"; "error"].

(** The loop of [callGeminiOrchestrator], entered at iteration [i] with
    [remaining] passes left and the wait [delay]; the function enters it
    as [classifier_loop env userQuery MAX_RETRIES 0 1000], and every later
    attempt is the loop entered again at the next iteration. *)
Definition classifier_loop (env : Env) (userQuery : string)
  : nat -> nat -> Z -> World -> LoopExit Js * World :=
  loop env Js MAX_RETRIES "Orchestrator" (Orchestrator.payload userQuery)
       (Orchestrator.on_ok env) Orchestrator.fatal_label Orchestrator.rethrow.

(** The loop of [callGeminiResponseGenerator], likewise. *)
Definition responder_loop (env : Env) (userQuery : string) (intent : Js)
  : nat -> nat -> Z -> World -> LoopExit string * World :=
  loop env string MAX_RETRIES "Response Generator" (Responder.payload userQuery intent)
       Responder.on_ok Responder.fatal_label Responder.rethrow.

(** The errors an attempt of the classifier call can raise apart from
    those of the status branches: [raised_in_attempt env o m] says that
    the attempt whose request ends as [o] raises an error of message [m]
    inside the [try] block. *)
Inductive raised_in_attempt (env : Env) : FetchOutcome -> string -> Prop :=
| raised_by_fetch (m : string) :
    raised_in_attempt env (FetchRejected m) m
| raised_by_body (status : N) (m : string) :
    response_ok status = true ->
    raised_in_attempt env (Response status (BodyRejected m)) m
| raised_by_null_result (status : N) (result : Js) (m : string) :
    response_ok status = true ->
    candidate_text result = inl m ->
    raised_in_attempt env (Response status (BodyJson result)) m
| raised_by_conversion (status : N) (result jsonText : Js) (m : string) :
    response_ok status = true ->
    candidate_text result = inr jsonText ->
    truthy jsonText = true ->
    ToString jsonText = inl m ->
    raised_in_attempt env (Response status (BodyJson result)) m
| raised_by_parse (status : N) (result jsonText : Js) (text m : string) :
    response_ok status = true ->
    candidate_text result = inr jsonText ->
    truthy jsonText = true ->
    ToString jsonText = inr text ->
    JSON_parse env text = ParseError m ->
    raised_in_attempt env (Response status (BodyJson result)) m.

(** The world after three requests of a retry loop, with the two waits
    between them and the console report of the last iteration. *)
Definition after_three_attempts (env : Env) (payload : Request) (fatal_label : string)
           (w : World) : World :=
  console_error fatal_label
    (snd (fetch env payload
       (sleep 2000 (snd (fetch env payload
          (sleep 1000 (snd (fetch env payload w)))))))).

(** *** Citations, as typed data

    A grounding attribution is an object [{ web: { title, uri } }] in which
    either key may be missing.  [cited] says in terms of such records what
    the code computes on the untyped reply; [spec_cited] is the same list
    with duplicates removed first, which is what the word "deduplicated"
    of the specification asks for. *)

Module Citations.

Record Attribution := mkAttribution {
  title : option string;
  uri : option string
}.

Definition field (k : string) (v : option string) : list (string * Js) :=
  match v with
  | Some s => [(k, JStr s)]
  | None => []
  end.

Definition encode (a : Attribution) : Js :=
  JObj [("web", JObj (field "title" (title a) ++ field "uri" (uri a)))].

(** A key that is missing or holds the empty string gives nothing. *)
Definition present (v : option string) : option string :=
  match v with
  | Some s => if Str.is_empty s then None else Some s
  | None => None
  end.

(** The reference of one attribution: the title, else the URI. *)
Definition reference (a : Attribution) : option string :=
  match present (title a) with
  | Some t => Some t
  | None => present (uri a)
  end.

Fixpoint references (attrs : list Attribution) : list string :=
  match attrs with
  | [] => []
  | a :: r =>
      match reference a with
      | Some s => s :: references r
      | None => references r
      end
  end.

(** The first three references, in the order of the attributions. *)
Definition cited (attrs : list Attribution) : list string :=
  firstn 3 (references attrs).

Definition sources_line (refs : list string) : string :=
  match refs with
  | [] => ""
  | _ => Str.nl ++ Str.nl ++ "**Sources:** " ++ Str.join ", " refs
  end.

(** Keeps the first occurrence of every string. *)
Fixpoint dedup (l : list string) : list string :=
  match l with
  | [] => []
  | x :: r => x :: filter (fun y => negb (String.eqb x y)) (dedup r)
  end.

Definition spec_cited (attrs : list Attribution) : list string :=
  firstn 3 (dedup (references attrs)).

End Citations.

(** *** Sample inputs *)

Module Sample.

(** The component at rest, signed in, with [text] in the input box. *)
Definition idle (text : string) : World :=
  mkWorld 0 [] [] true (Some "user-0123456789") text None false.

(** The no-break space U+00A0 and the tabulator. *)
Definition nbsp : string := String "160"%char EmptyString.
Definition tab : string := String "009"%char EmptyString.

(** Nothing but white space, and "hello" between white space. *)
Definition blank : string := " " ++ nbsp ++ tab ++ Str.nl ++ nbsp.
Definition padded : string := nbsp ++ " hello" ++ tab ++ nbsp ++ " ".

(** A response body whose first candidate carries [text] as the text of
    its first part, next to the keys of [extra]. *)
Definition reply (text : Js) (extra : list (string * Js)) : Js :=
  JObj [("candidates",
         JArr [JObj (("content", JObj [("parts", JArr [JObj [("text", text)]])])
                     :: extra)])].

Definition grounding (attributions : Js) : list (string * Js) :=
  [("groundingMetadata", JObj [("groundingAttributions", attributions)])].

(** Every [fetch] ends the same way; [JSON.parse] gives [parsed] for
    every text; the commit succeeds. *)
Definition always (o : FetchOutcome) (parsed : ParseOutcome) : Env :=
  mkEnv (fun _ => o) (fun _ => parsed) CommitOk.

Definition status_only (status : N) : Env :=
  always (Response status (BodyRejected "Unexpected end of JSON input"))
         (ParseError "Unexpected end of JSON input").

(** The JSON text of a value whose strings need no escapes. *)
Fixpoint stringify (v : Js) : string :=
  match v with
  | JUndef => "undefined"
  | JNull => "null"
  | JBool true => "true"
  | JBool false => "false"
  | JNum text => text
  | JStr s => Str.dq ++ s ++ Str.dq
  | JArr items =>
      "[" ++ (fix go (l : list Js) : string :=
                match l with
                | [] => ""
                | [x] => stringify x
                | x :: r => stringify x ++ "," ++ go r
                end) items ++ "]"
  | JObj props =>
      "{" ++ (fix go (l : list (string * Js)) : string :=
                match l with
                | [] => ""
                | [(k, x)] => Str.dq ++ k ++ Str.dq ++ ":" ++ stringify x
                | (k, x) :: r => Str.dq ++ k ++ Str.dq ++ ":" ++ stringify x ++ "," ++ go r
                end) props ++ "}"
  end.

(** The model answers every request with the JSON text of
    [classification], which [JSON.parse] turns back into
    [classification]; any other text is not JSON.  As the answer of the
    responder the same text is the body. *)
Definition answering (classification : Js) (c : CommitOutcome) : Env :=
  mkEnv (fun _ => Response 200 (BodyJson (reply (JStr (stringify classification)) [])))
        (fun text =>
           if String.eqb text (stringify classification) then ParseOk classification
           else ParseError "Unexpected token in JSON")
        c.

(** Every response is OK and carries no model text. *)
Definition silent : Env :=
  always (Response 200 (BodyJson (reply JNull []))) (ParseError "unused").

(** A reply with an intent and a tool name but no [arguments] key. *)
Definition no_arguments : Js :=
  JObj [("intent", JStr "general_chat"); ("tool_triggered", JStr "Gemini Responder")].

(** The same for a calendar task. *)
Definition calendar_without_arguments : Js :=
  JObj [("intent", JStr "calendar_tool"); ("tool_triggered", JStr "Calendar API")].

Definition chat : Js :=
  Orchestrator.result_literal "general_chat" "Gemini Responder" "hello".

Definition weather : Js :=
  JObj [("intent", JStr "weather_tool")].

Definition lunch : Js :=
  Orchestrator.result_literal "calendar_tool" "Calendar API" "lunch Friday".

Definition A_ : Citations.Attribution := Citations.mkAttribution (Some "A") None.
Definition b_ : Citations.Attribution := Citations.mkAttribution None (Some "http://b").
Definition C_ : Citations.Attribution := Citations.mkAttribution (Some "C") None.
Definition D_ : Citations.Attribution := Citations.mkAttribution (Some "D") None.

(** The responder's reply is [T] grounded on [attrs]. *)
Definition grounded_on (attrs : list Citations.Attribution) : Env :=
  always (Response 200
            (BodyJson (reply (JStr "T")
                             (grounding (JArr (map Citations.encode attrs))))))
         (ParseError "unused").

End Sample.

(** ** The rest of [src/App.js]: what the component shows *)

(** *** The snapshot listener (lines 280-288) *)

Module Snapshot.

(** A document of the snapshot, [{ id: doc.id, ...doc.data() }]:
    [seconds] is [timestamp.seconds], and [None] while the document has no
    timestamp yet. *)
Record Doc := mkDoc {
  doc_id : string;
  seconds : option Z;
  doc_data : ChatRecord
}.

(** [d.timestamp?.seconds || 0]. *)
Definition seconds_or_0 (d : Doc) : Z :=
  match seconds d with
  | Some s => s
  | None => 0
  end.

(** The comparator [(a, b) => (a.timestamp?.seconds || 0) -
    (b.timestamp?.seconds || 0)]. *)
Definition comparator (a b : Doc) : Z := seconds_or_0 a - seconds_or_0 b.

(** [Array.prototype.sort] is stable, and for a comparator that is a
    difference of keys the stable sort of a list is one list only;
    inserting from the right, each document before the first one that it
    does not follow, computes it. *)
Fixpoint insert (a : Doc) (sorted : list Doc) : list Doc :=
  match sorted with
  | [] => [a]
  | b :: r => if (comparator a b <=? 0)%Z then a :: b :: r else b :: insert a r
  end.

Fixpoint sort (docs : list Doc) : list Doc :=
  match docs with
  | [] => []
  | a :: r => insert a (sort r)
  end.

(** The success callback of [onSnapshot]: the value given to
    [setMessages]. *)
Definition onSnapshot (docs : list Doc) : list Doc := sort docs.

(** [a] may stand before [b]: the comparator is not positive. *)
Definition in_order (a b : Doc) : Prop := (seconds_or_0 a <= seconds_or_0 b)%Z.

(** [a] stands before [b] in [l]. *)
Definition before (a b : Doc) (l : list Doc) : Prop :=
  exists l1 l2 l3, l = (l1 ++ a :: l2 ++ b :: l3)%list.

End Snapshot.

(** *** The ChatMessage component (lines 381-428) *)

Module Bubble.

(** [s.split(sep)] for a separator that is not empty: [cur] is the part
    being read, [skip] the number of characters of a separator still to
    pass over. *)
Fixpoint split_from (sep : string) (skip : nat) (cur s : string) : list string :=
  match s with
  | EmptyString => [cur]
  | String c r =>
      match skip with
      | S k => split_from sep k cur r
      | O =>
          if String.prefix sep s then
            cur :: split_from sep (String.length sep - 1) EmptyString r
          else
            split_from sep 0 (cur ++ String c EmptyString) r
      end
  end.

Definition split (sep s : string) : list string := split_from sep 0 EmptyString s.

(** A piece of [renderedText]: a string, inside [<strong>] or not. *)
Definition Piece : Type := (bool * string)%type.

(** Lines 405-408: the parts at odd indices are bold. *)
Definition renderedText (text : string) : list Piece :=
  let parts := split "**" text in
  map (fun p : nat * string => (Nat.odd (fst p), snd p))
      (combine (seq 0 (List.length parts)) parts).

(** [a && b]. *)
Definition and (a b : Js) : Js := if truthy a then b else a.

Definition isSystem (m : ChatRecord) : Js :=
  match msg_isSystem m with
  | Some b => JBool b
  | None => JUndef
  end.

(** Lines 382-383. *)
Definition isIntent (m : ChatRecord) : Js :=
  and (and (and (isSystem m) (msg_type m))
           (JBool (negb (is_string "general_chat" (msg_type m)))))
      (JBool (negb (is_string "user_query" (msg_type m)))).

(** [{isIntent && <span>INTENT</span>}] shows the badge when [isIntent]
    is truthy. *)
Definition badge (m : ChatRecord) : bool := truthy (isIntent m).

(** Lines 389-402: the header of the bubble. *)
Definition headerText (m : ChatRecord) (isCurrentUser : bool) : string :=
  if truthy (isSystem m) then "AIos Core (gNode)"
  else if isCurrentUser then "You"
  else "User ID: "
       ++ (if Str.is_empty (msg_userDisplayId m) then "Guest" else msg_userDisplayId m).

Definition no_star (s : string) : Prop :=
  existsb (Ascii.eqb "*") (Str.chars s) = false.

End Bubble.

(** *** The authentication callback (lines 242-258) *)

Module Auth.

(** How [signInAnonymously] settles. *)
Inductive SignInOutcome : Type :=
| SignedIn (uid : string)
| SignInRejected (message : string).

Definition setUserId (u : string) (w : World) : World :=
  mkWorld (fetched w) (trace w) (collection w) (db w) (Some u)
          (newMessage w) (error w) (isSending w).

(** The component state the callback writes: the cells of [World] and
    [isAuthReady]. *)
Record State := mkState {
  world : World;
  isAuthReady : bool
}.

(** The callback given to [onAuthStateChanged], with the handlers of the
    sign-in promise run. *)
Definition onAuthStateChanged (user : option string) (signIn : SignInOutcome)
           (s : State) : State :=
  match user with
  | Some uid => mkState (setUserId uid (world s)) true
  | None =>
      match signIn with
      | SignedIn uid => mkState (setUserId uid (world s)) true
      | SignInRejected m =>
          mkState
            (setError
               (Some "Failed to authenticate anonymously. Check console for details.")
               (console_error "Authentication Error:" (world s)))
            true
      end
  end.

End Auth.

(** ** The GenUI shell ([invokeAI] and [handleSubmit] of the second
    component) *)

Module GenUI.

Definition SYSTEM_PROMPT : string :=
  "You are the GenUI Orchestrator. " ++ Str.nl
  ++ "Your primary goal is to turn user requests into functional, beautiful UI components." ++ Str.nl
  ++ "1. ALWAYS respond with a self-contained HTML/Tailwind/JS code block." ++ Str.nl
  ++ "2. Use Tailwind CSS for styling." ++ Str.nl
  ++ "3. Wrap your code in ```html markdown blocks." ++ Str.nl
  ++ "4. For interactivity, define functions on 'window' or use script tags." ++ Str.nl
  ++ "5. LISTEN for 'gen-ui-command' event on window for main input bar updates." ++ Str.nl
  ++ "6. Make designs look premium: Dark mode, glassmorphism." ++ Str.nl
  ++ "7. DO NOT include conversational text outside the code block.".

(** The regular expression [/```html\n([\s\S]*?)```/i].  Its match is the
    leftmost one: it begins at the first place where three backticks, the
    letters h t m l in either case and a line feed stand, and its group is
    the shortest text after them that three backticks follow.  (Where the
    first such place has no three backticks after it, no later place has
    either, a later place beginning with three backticks itself.) *)
Definition opening : string := "```html" ++ Str.nl.
Definition closing : string := "```".

Definition lower (c : ascii) : ascii :=
  let n := nat_of_ascii c in
  if ((65 <=? n) && (n <=? 90))%nat then ascii_of_nat (n + 32) else c.

Fixpoint prefix_ci (p s : string) : bool :=
  match p, s with
  | EmptyString, _ => true
  | String a p', String b s' => Ascii.eqb (lower a) (lower b) && prefix_ci p' s'
  | String _ _, EmptyString => false
  end.

Fixpoint drop (n : nat) (s : string) : string :=
  match n, s with
  | S k, String _ r => drop k r
  | _, _ => s
  end.

(** The text after the first opening. *)
Fixpoint after_opening (s : string) : option string :=
  if prefix_ci opening s then Some (drop (String.length opening) s)
  else match s with
       | EmptyString => None
       | String _ r => after_opening r
       end.

(** The text before the first closing. *)
Fixpoint before_closing (s : string) : option string :=
  if String.prefix closing s then Some EmptyString
  else match s with
       | EmptyString => None
       | String c r =>
           match before_closing r with
           | Some h => Some (String c h)
           | None => None
           end
       end.

(** [text.match(...)]: the group of the match, [htmlMatch[1]]. *)
Definition match_html (text : string) : option string :=
  match after_opening text with
  | Some rest => before_closing rest
  | None => None
  end.

(** A message of the chat log; its [timestamp], a [new Date()], is left
    out. *)
Record Msg := mkMsg {
  id : string;
  text : string;
  sender : string;
  type : string
}.

(** The outside of the shell: how the one [fetch] of [invokeAI] ends, what
    the n-th call of [Date.now()] gives (a whole number of milliseconds,
    which like its successor prints in plain decimal), and the module
    constant [API_KEY], taken as a parameter. *)
Record Env := mkEnv {
  response : FetchOutcome;
  Date_now : nat -> Z;
  API_KEY : string
}.

(** The [useState] cells of the component, the requests sent, the details
    of the [gen-ui-command] events dispatched, the console reports, and
    the number of times the clock was read. *)
Record Shell := mkShell {
  messages : list Msg;
  input : string;
  loading : bool;
  activeUI : option Msg;
  sent : list Request;
  dispatched : list string;
  reported : list string;
  clock : nat
}.

Definition payload (userQuery : string) : Request :=
  {| contents := userQuery;
     systemInstruction := SYSTEM_PROMPT;
     generationConfig := None;
     tools := None |}.

(** Lines 50-68 of the component: the [try] block, after the request
    left. *)
Definition try_block (env : Env) : Outcome string :=
  match response env with
  | FetchRejected m => Throw m
  | Response _ (BodyRejected m) => Throw m
  | Response _ (BodyJson result) =>
      if nullish result then Throw (cannot_read result "error")
      else if truthy (prop "error" result) then
        match ToString (or (prop "message" (prop "error" result)) (JStr "API Error")) with
        | inl m => Throw m
        | inr message => Throw message
        end
      else
        match candidate_text result with
        | inl m => Throw m
        | inr chained =>
            match or chained (JStr "") with
            | JStr text =>
                match match_html text with
                | Some html => Ret html
                | None => Ret text
                end
            | _ => Throw "text.match is not a function"
            end
        end
  end.

(** [invokeAI]. *)
Definition invokeAI (env : Env) (userQuery : string) (sh : Shell)
  : Outcome string * Shell :=
  if Str.is_empty (API_KEY env) then (Ret "Error: API Key is missing.", sh)
  else
    let sh1 := mkShell (messages sh) (input sh) (loading sh) (activeUI sh)
                       (sent sh ++ [payload userQuery]) (dispatched sh)
                       (reported sh) (clock sh) in
    match try_block env with
    | Ret s => (Ret s, sh1)
    | Throw m => (Ret ("Error: " ++ m), sh1)
    end.

(** [(aiResponse.includes('<') || aiResponse.includes('class=')) ? 'code'
    : 'text']. *)
Definition type_of (aiResponse : string) : string :=
  if Str.includes aiResponse "<" || Str.includes aiResponse "class=" then "code"
  else "text".

(** [handleSubmit], with its [finally] block run. *)
Definition handleSubmit (env : Env) (sh : Shell) : Shell :=
  if Str.is_empty (Str.trim (input sh)) || loading sh then sh
  else
    let userText := input sh in
    let dispatched1 :=
      match activeUI sh with
      | Some _ => (dispatched sh ++ [userText])%list
      | None => dispatched sh
      end in
    let userMsg :=
      {| id := Str.of_Z (Date_now env (clock sh));
         text := userText; sender := "user"; type := "text" |} in
    let sh1 := mkShell (messages sh ++ [userMsg]) "" true (activeUI sh)
                       (sent sh) dispatched1 (reported sh) (S (clock sh)) in
    match invokeAI env userText sh1 with
    | (Ret aiResponse, sh2) =>
        let aiMsg :=
          {| id := Str.of_Z (Date_now env (clock sh2) + 1);
             text := aiResponse; sender := "aios-core";
             type := type_of aiResponse |} in
        mkShell (messages sh2 ++ [aiMsg]) (input sh2) false
                (if String.eqb (type aiMsg) "code" then Some aiMsg else activeUI sh2)
                (sent sh2) (dispatched sh2) (reported sh2) (S (clock sh2))
    | (Throw m, sh2) =>
        mkShell (messages sh2) (input sh2) false (activeUI sh2)
                (sent sh2) (dispatched sh2) (reported sh2 ++ ["AI Error:"]) (clock sh2)
    end.

Definition no_backtick (s : string) : Prop :=
  existsb (Ascii.eqb "`") (Str.chars s) = false.

End GenUI.

(** ** More vocabulary *)

(** The waits found in a trace, oldest first. *)
Fixpoint sleeps (t : list Event) : list Z :=
  match t with
  | [] => []
  | EvSleep ms :: r => ms :: sleeps r
  | _ :: r => sleeps r
  end.

(** The first [k] waits of a backoff that starts at [delay] and doubles. *)
Fixpoint backoff (delay : Z) (k : nat) : list Z :=
  match k with
  | O => []
  | S k' => delay :: backoff (delay * 2) k'
  end.

(** Nothing was requested and nobody waited between [w] and [w']. *)
Definition quiet (w w' : World) : Prop :=
  fetched w' = fetched w /\ sleeps (trace w') = sleeps (trace w).

(** A request or a wait, the two things a retry loop spends time on. *)
Inductive Beat : Type :=
| Sent
| Waited (ms : Z).

(** The requests and waits of a trace in the order in which they
    happened, everything else left out. *)
Fixpoint timeline (t : list Event) : list Beat :=
  match t with
  | [] => []
  | EvFetch _ :: r => Sent :: timeline r
  | EvSleep ms :: r => Waited ms :: timeline r
  | _ :: r => timeline r
  end.

(** The timeline of a loop that makes [n] more attempts after the one it
    is in, waiting [delay] first and twice as long each time. *)
Fixpoint retries (delay : Z) (n : nat) : list Beat :=
  match n with
  | O => []
  | S n' => Waited delay :: Sent :: retries (delay * 2) n'
  end.

(** One request; or a request, a wait of 1000 ms and a request; or these
    followed by a wait of 2000 ms and a third request. *)
Definition three_attempt_timeline (l : list Beat) : Prop :=
  l = [Sent]
  \/ l = [Sent; Waited 1000; Sent]
  \/ l = [Sent; Waited 1000; Sent; Waited 2000; Sent].

(** From [w] to [w'] one, two or three requests were sent, with waits of
    1000 ms and then 2000 ms between them. *)
Definition three_attempt_schedule (w w' : World) : Prop :=
  (fetched w' = fetched w + 1 /\ sleeps (trace w') = sleeps (trace w))
  \/ (fetched w' = fetched w + 2
      /\ sleeps (trace w') = (sleeps (trace w) ++ [1000%Z])%list)
  \/ (fetched w' = fetched w + 3
      /\ sleeps (trace w') = (sleeps (trace w) ++ [1000%Z; 2000%Z])%list).

Definition count_commits (t : list Event) : nat := List.length (filter is_commit t).

(** A classification with an intent that the code does not know. *)
Definition unlisted : Js :=
  Orchestrator.result_literal "weather_tool" "Weather API" "rain tomorrow".

(** A classification whose tool name is the object [{"toString": 1}],
    and a reply whose text is that object. *)
Definition shadowing : Js := JObj [("toString", JNum "1")].

Definition tool_object : Js :=
  JObj [ ("intent", JStr "calendar_tool");
         ("tool_triggered", shadowing);
         ("arguments", JObj [("query", JStr "lunch Friday")]) ].

(** An event that is no request, or a request whose [contents] is
    [text]. *)
Definition carries (text : string) (e : Event) : Prop :=
  forall rq, e = EvFetch rq -> contents rq = text.

(** Sample inputs of the shell. *)
Module ShellSample.

Definition fresh (typed : string) : GenUI.Shell :=
  GenUI.mkShell [] typed false None [] [] [] 0.

Definition replying (o : FetchOutcome) : GenUI.Env :=
  GenUI.mkEnv o (fun n => 1700000000000 + Z.of_nat n)%Z "key".

Definition card : string := "<div class='card'>Hi</div>".

Definition fenced : string :=
  "Here you go:" ++ Str.nl ++ "```HTML" ++ Str.nl ++ card ++ "```" ++ Str.nl ++ "Enjoy.".

End ShellSample.

(** Sample documents of a snapshot. *)
Module SnapshotSample.

Definition record : ChatRecord := Send.userMessageData "hi" "user-0123456789".

Definition older : Snapshot.Doc := Snapshot.mkDoc "d1" (Some 100%Z) record.
Definition first_of_200 : Snapshot.Doc := Snapshot.mkDoc "d2" (Some 200%Z) record.
Definition second_of_200 : Snapshot.Doc := Snapshot.mkDoc "d3" (Some 200%Z) record.
Definition pending : Snapshot.Doc := Snapshot.mkDoc "d4" None record.

End SnapshotSample.

(** ** Facts about strings *)

Module StrFacts.

Lemma chars_append (a b : string) :
  Str.chars (a ++ b) = (Str.chars a ++ Str.chars b)%list.
Proof. induction a as [|c a IH]; simpl; [reflexivity | now rewrite IH]. Qed.

(** A string without the first character of [sub] does not include
    [sub]. *)
Lemma includes_needs_first_char (s : string) (c : ascii) (sub : string) :
  existsb (Ascii.eqb c) (Str.chars s) = false ->
  Str.includes s (String c sub) = false.
Proof.
  induction s as [|c' s IH]; simpl; intros H; [reflexivity|].
  apply orb_false_elim in H as [Hc Hs].
  apply Ascii.eqb_neq in Hc.
  destruct (ascii_dec c c') as [->|_]; [congruence | now apply IH].
Qed.

Lemma digits_have_no (c : ascii) (u : uint) :
  (nat_of_ascii c <? 48)%nat || (57 <? nat_of_ascii c)%nat = true ->
  existsb (Ascii.eqb c) (Str.chars (NilEmpty.string_of_uint u)) = false.
Proof.
  intros Hc.
  assert (D : forall d, (48 <=? nat_of_ascii d)%nat && (nat_of_ascii d <=? 57)%nat = true ->
                        Ascii.eqb c d = false).
  { intros d Hd. apply Ascii.eqb_neq. intros ->.
    apply andb_prop in Hd as [H1 H2].
    apply Nat.leb_le in H1. apply Nat.leb_le in H2.
    apply orb_prop in Hc as [H|H]; apply Nat.ltb_lt in H; lia. }
  induction u; simpl; try reflexivity;
    (rewrite D by reflexivity); exact IHu.
Qed.

(** A message without the letters F and N names no connectivity
    failure. *)
Lemma not_connectivity (m : string) :
  existsb (Ascii.eqb "F") (Str.chars m) = false ->
  existsb (Ascii.eqb "N") (Str.chars m) = false ->
  connectivity_message m = false.
Proof.
  intros HF HN. unfold connectivity_message.
  now rewrite !includes_needs_first_char.
Qed.

(** The status messages of both calls are such messages, whatever the
    status. *)
Lemma status_message_not_connectivity (api : string) (status : N) :
  existsb (Ascii.eqb "F") (Str.chars api) = false ->
  existsb (Ascii.eqb "N") (Str.chars api) = false ->
  connectivity_message (api ++ " API returned status " ++ Str.of_N status) = false.
Proof.
  intros HF HN. apply not_connectivity;
    rewrite !chars_append, !existsb_app;
    unfold Str.of_N; rewrite digits_have_no by reflexivity;
    rewrite ?HF, ?HN; reflexivity.
Qed.

Lemma append_assoc (a b c : string) : (a ++ b) ++ c = a ++ b ++ c.
Proof. induction a as [|x a IH]; simpl; [reflexivity | now rewrite IH]. Qed.

Lemma append_empty_r (a : string) : a ++ "" = a.
Proof. induction a as [|c a IH]; simpl; [reflexivity | now rewrite IH]. Qed.

Lemma append_nonempty (a b : string) :
  Str.is_empty a = false -> Str.is_empty (a ++ b) = false.
Proof. destruct a; simpl; [discriminate | reflexivity]. Qed.

End StrFacts.

(** ** Facts about worlds *)

Module Frame.

Lemma refl (P : Event -> Prop) (w : World) : extends_by P w w.
Proof.
  split; [|split; [repeat split|lia]].
  exists []. now rewrite app_nil_r.
Qed.

Lemma trans (P : Event -> Prop) (w1 w2 w3 : World) :
  extends_by P w1 w2 -> extends_by P w2 w3 -> extends_by P w1 w3.
Proof.
  intros [[e1 [T1 F1]] [S1 N1]] [[e2 [T2 F2]] [S2 N2]].
  unfold same_app_state in *.
  destruct S1 as (A1 & B1 & C1 & D1 & E1 & G1).
  destruct S2 as (A2 & B2 & C2 & D2 & E2 & G2).
  split; [|split; [repeat split; etransitivity; eassumption|lia]].
  exists (e1 ++ e2)%list. split.
  - now rewrite T2, T1, app_assoc.
  - now apply Forall_app.
Qed.

Lemma emit (P : Event -> Prop) (e : Event) (w : World) :
  P e -> extends_by P w (emit e w).
Proof.
  intros H. split; [|split; [repeat split|simpl; lia]].
  exists [e]. split; [reflexivity | now constructor].
Qed.

Lemma fetch (P : Event -> Prop) (env : Env) (rq : Request) (w : World) :
  P (EvFetch rq) -> extends_by P w (snd (fetch env rq w)).
Proof.
  intros H. split; [|split; [repeat split|simpl; lia]].
  exists [EvFetch rq]. split; [reflexivity | now constructor].
Qed.

Lemma weaken (P Q : Event -> Prop) (w w' : World) :
  (forall e, P e -> Q e) -> extends_by P w w' -> extends_by Q w w'.
Proof.
  intros PQ [[evs [T F]] R]. split; [|exact R].
  exists evs. split; [exact T|]. eapply Forall_impl; eauto.
Qed.

Lemma responder_calls_app (t u : list Event) :
  responder_calls (t ++ u) = responder_calls t + responder_calls u.
Proof.
  induction t as [|e t IH]; simpl; [reflexivity|].
  destruct e; simpl; rewrite IH; reflexivity.
Qed.

Lemma loop_events_no_call (payload : Request) (evs : list Event) :
  Forall (loop_event payload) evs -> responder_calls evs = 0.
Proof.
  induction 1 as [|e evs He _ IH]; simpl; [reflexivity|].
  destruct He as [->|[[ms ->]|[l ->]]]; exact IH.
Qed.

Lemma requests_app (t u : list Event) :
  requests (t ++ u) = (requests t ++ requests u)%list.
Proof.
  induction t as [|e t IH]; simpl; [reflexivity|].
  destruct e; simpl; rewrite IH; reflexivity.
Qed.

Lemma loop_requests (payload : Request) (evs : list Event) :
  Forall (loop_event payload) evs ->
  forall rq, In rq (requests evs) -> rq = payload.
Proof.
  induction 1 as [|e evs He _ IH]; simpl; intros rq Hin; [contradiction|].
  destruct He as [->|[[ms ->]|[l ->]]]; simpl in Hin; auto.
  destruct Hin as [<-|Hin]; auto.
Qed.

Lemma is_string_eq (lit : string) (v : Js) :
  is_string lit v = true <-> v = JStr lit.
Proof.
  destruct v; simpl; split; intros H; try discriminate H.
  - apply String.eqb_eq in H. now subst.
  - inversion H. apply String.eqb_refl.
Qed.

Lemma persisted_calls (env : Env) (batch : list ChatRecord) (w : World) :
  responder_calls (trace (persisted env batch w)) = responder_calls (trace w).
Proof.
  unfold persisted, Send.settle.
  destruct (commit env); simpl; rewrite !responder_calls_app; simpl; lia.
Qed.

End Frame.

(** ** Facts about the retry loop *)

Section RetryLoopFacts.

Variable env : Env.
Variable A : Type.
Variable maxRetries : nat.
Variable api : string.
Variable payload : Request.
Variable on_ok : Js -> M A.
Variable fatal_label : string.
Variable rethrow : string -> string.

(** Only an iteration that is not the last one ends in [continue]. *)
Lemma continue_not_last (i : nat) (delay delay' : Z) (w w' : World) :
  iteration env A maxRetries api payload on_ok fatal_label rethrow i delay w = (CContinue delay', w') ->
  (i <? maxRetries - 1)%nat = true.
Proof.
  unfold iteration, try_block, Effect.fetch.
  destruct (net env (fetched w)) as [m|status body].
  - destruct (i <? maxRetries - 1)%nat; [reflexivity|]. simpl. congruence.
  - destruct (i <? maxRetries - 1)%nat; [reflexivity|].
    destruct (response_ok status).
    + destruct body as [m|result]; [simpl; congruence|].
      match goal with
      | |- context [on_ok result ?w1] => destruct (on_ok result w1) as [[a|m] w2]
      end; simpl; congruence.
    + destruct (retryable_status status); simpl; congruence.
Qed.

(** The loop is never left through its condition. *)
Lemma loop_no_fallthrough (remaining i : nat) (delay : Z) (w : World) :
  remaining + i = maxRetries -> 0 < remaining ->
  fst (loop env A maxRetries api payload on_ok fatal_label rethrow remaining i delay w) <> Fallthrough.
Proof.
  revert i delay w.
  induction remaining as [|r IH]; intros i delay w Hsum Hpos; [lia|].
  simpl. destruct (iteration env A maxRetries api payload on_ok fatal_label rethrow i delay w) as [[a|delay'|m] w1] eqn:E;
    simpl; try discriminate.
  apply continue_not_last in E. apply Nat.ltb_lt in E.
  apply IH; lia.
Qed.

(** A status that is neither a success nor retryable ends the loop in
    the iteration that receives it, whichever one it is. *)
Lemma terminal_status_throws (r i : nat) (delay : Z) (w : World)
      (status : N) (body : BodyOutcome) :
  net env (fetched w) = Response status body ->
  response_ok status = false ->
  retryable_status status = false ->
  connectivity_message (api ++ " API returned status " ++ Str.of_N status) = false ->
  loop env A maxRetries api payload on_ok fatal_label rethrow (S r) i delay w =
  (Thrown (rethrow (api ++ " API returned status " ++ Str.of_N status)),
   console_error fatal_label (snd (fetch env payload w))).
Proof.
  intros Hnet Hok Hretry Hmsg.
  simpl. unfold iteration, try_block, Effect.fetch.
  rewrite Hnet, Hok, Hretry, Hmsg, andb_false_r. reflexivity.
Qed.

(** An attempt that fails in a retryable way: when it is not the last
    one, the loop waits [delay] and goes on with the doubled delay. *)
Lemma retryable_not_last (r i : nat) (delay : Z) (w : World) :
  retryable_failure (net env (fetched w)) = true ->
  (i <? maxRetries - 1)%nat = true ->
  loop env A maxRetries api payload on_ok fatal_label rethrow (S r) i delay w =
  loop env A maxRetries api payload on_ok fatal_label rethrow r (S i) (delay * 2) (sleep delay (snd (fetch env payload w))).
Proof.
  intros Hfail Hi.
  simpl. unfold iteration, try_block, Effect.fetch.
  destruct (net env (fetched w)) as [m|status body]; simpl in Hfail.
  - rewrite Hi, Hfail. reflexivity.
  - assert (Hok : response_ok status = false).
    { unfold retryable_status in Hfail. unfold response_ok.
      apply orb_prop in Hfail as [H|H].
      - apply N.eqb_eq in H. subst. reflexivity.
      - apply N.leb_le in H. apply andb_false_iff. right.
        apply N.leb_gt. lia. }
    rewrite Hok, Hfail, Hi. reflexivity.
Qed.

(** When it is the last one, the loop throws. *)
Lemma retryable_last (r i : nat) (delay : Z) (w : World) :
  retryable_failure (net env (fetched w)) = true ->
  (i <? maxRetries - 1)%nat = false ->
  exists m,
    loop env A maxRetries api payload on_ok fatal_label rethrow (S r) i delay w =
    (Thrown (rethrow m), console_error fatal_label (snd (fetch env payload w))).
Proof.
  intros Hfail Hi.
  simpl. unfold iteration, try_block, Effect.fetch.
  destruct (net env (fetched w)) as [m|status body]; simpl in Hfail.
  - rewrite Hi. simpl. eexists. reflexivity.
  - assert (Hok : response_ok status = false).
    { unfold retryable_status in Hfail. unfold response_ok.
      apply orb_prop in Hfail as [H|H].
      - apply N.eqb_eq in H. subst. reflexivity.
      - apply N.leb_le in H. apply andb_false_iff. right.
        apply N.leb_gt. lia. }
    rewrite Hok, Hfail, Hi. simpl. eexists. reflexivity.
Qed.

(** A retryable status in the last iteration: the error names the
    status and the number of attempts. *)
Lemma retryable_status_last (r i : nat) (delay : Z) (w : World)
      (status : N) (body : BodyOutcome) :
  net env (fetched w) = Response status body ->
  retryable_status status = true ->
  (i <? maxRetries - 1)%nat = false ->
  loop env A maxRetries api payload on_ok fatal_label rethrow (S r) i delay w =
  (Thrown (rethrow (api ++ " API returned status " ++ Str.of_N status
                    ++ " after " ++ Str.of_nat maxRetries ++ " attempts.")),
   console_error fatal_label (snd (fetch env payload w))).
Proof.
  intros Hnet Hfail Hi.
  simpl. unfold iteration, try_block, Effect.fetch. rewrite Hnet.
  assert (Hok : response_ok status = false).
  { unfold retryable_status in Hfail. unfold response_ok.
    apply orb_prop in Hfail as [H|H].
    - apply N.eqb_eq in H. subst. reflexivity.
    - apply N.leb_le in H. apply andb_false_iff. right.
      apply N.leb_gt. lia. }
  rewrite Hok, Hfail, Hi. reflexivity.
Qed.

(** An OK response: the loop ends the way the [response.ok] branch
    does, unless that branch throws a retryable message before the last
    iteration. *)
Lemma ok_response_returns (r i : nat) (delay : Z) (w : World)
      (status : N) (result : Js) (a : A) (w2 : World) :
  net env (fetched w) = Response status (BodyJson result) ->
  response_ok status = true ->
  on_ok result (snd (fetch env payload w)) = (Ret a, w2) ->
  loop env A maxRetries api payload on_ok fatal_label rethrow (S r) i delay w = (Returned a, w2).
Proof.
  intros Hnet Hok Hon.
  simpl. unfold iteration, try_block.
  destruct (fetch env payload w) as [outcome w1] eqn:Ef.
  assert (outcome = Response status (BodyJson result)) as ->.
  { unfold Effect.fetch in Ef. inversion Ef. exact Hnet. }
  simpl in Hon. rewrite Hok, Hon. reflexivity.
Qed.

Lemma ok_response_throws (r i : nat) (delay : Z) (w : World)
      (status : N) (result : Js) (m : string) (w2 : World) :
  net env (fetched w) = Response status (BodyJson result) ->
  response_ok status = true ->
  on_ok result (snd (fetch env payload w)) = (Throw m, w2) ->
  connectivity_message m = false ->
  loop env A maxRetries api payload on_ok fatal_label rethrow (S r) i delay w = (Thrown (rethrow m), console_error fatal_label w2).
Proof.
  intros Hnet Hok Hon Hm.
  simpl. unfold iteration, try_block.
  destruct (fetch env payload w) as [outcome w1] eqn:Ef.
  assert (outcome = Response status (BodyJson result)) as ->.
  { unfold Effect.fetch in Ef. inversion Ef. exact Hnet. }
  simpl in Hon. rewrite Hok, Hon, Hm, andb_false_r. reflexivity.
Qed.

(** A retryable status, in whichever iteration. *)
Lemma retryable_status_attempt (r i : nat) (delay : Z) (w : World)
      (status : N) (body : BodyOutcome) :
  net env (fetched w) = Response status body ->
  retryable_status status = true ->
  loop env A maxRetries api payload on_ok fatal_label rethrow (S r) i delay w =
  if (i <? maxRetries - 1)%nat then
    loop env A maxRetries api payload on_ok fatal_label rethrow r (S i) (delay * 2) (sleep delay (snd (fetch env payload w)))
  else
    (Thrown (rethrow (api ++ " API returned status " ++ Str.of_N status
                      ++ " after " ++ Str.of_nat maxRetries ++ " attempts.")),
     console_error fatal_label (snd (fetch env payload w))).
Proof.
  intros Hnet Hfail.
  destruct (i <? maxRetries - 1)%nat eqn:Hi.
  - apply retryable_not_last; [now rewrite Hnet | exact Hi].
  - now apply (retryable_status_last r i delay w status body).
Qed.

(** An error raised in the [try] block reaches the [catch] block, which
    retries it or throws. *)
Lemma fetch_rejected_attempt (r i : nat) (delay : Z) (w : World) (m : string) :
  net env (fetched w) = FetchRejected m ->
  loop env A maxRetries api payload on_ok fatal_label rethrow (S r) i delay w =
  if (i <? maxRetries - 1)%nat && connectivity_message m then
    loop env A maxRetries api payload on_ok fatal_label rethrow r (S i) (delay * 2) (sleep delay (snd (fetch env payload w)))
  else
    (Thrown (rethrow m), console_error fatal_label (snd (fetch env payload w))).
Proof.
  intros Hnet. simpl. unfold iteration, try_block, Effect.fetch. rewrite Hnet.
  destruct ((i <? maxRetries - 1)%nat && connectivity_message m); reflexivity.
Qed.

Lemma body_rejected_attempt (r i : nat) (delay : Z) (w : World)
      (status : N) (m : string) :
  net env (fetched w) = Response status (BodyRejected m) ->
  response_ok status = true ->
  loop env A maxRetries api payload on_ok fatal_label rethrow (S r) i delay w =
  if (i <? maxRetries - 1)%nat && connectivity_message m then
    loop env A maxRetries api payload on_ok fatal_label rethrow r (S i) (delay * 2) (sleep delay (snd (fetch env payload w)))
  else
    (Thrown (rethrow m), console_error fatal_label (snd (fetch env payload w))).
Proof.
  intros Hnet Hok. simpl. unfold iteration, try_block, Effect.fetch.
  rewrite Hnet, Hok.
  destruct ((i <? maxRetries - 1)%nat && connectivity_message m); reflexivity.
Qed.

Lemma ok_response_raises (r i : nat) (delay : Z) (w : World)
      (status : N) (result : Js) (m : string) (w2 : World) :
  net env (fetched w) = Response status (BodyJson result) ->
  response_ok status = true ->
  on_ok result (snd (fetch env payload w)) = (Throw m, w2) ->
  loop env A maxRetries api payload on_ok fatal_label rethrow (S r) i delay w =
  if (i <? maxRetries - 1)%nat && connectivity_message m then
    loop env A maxRetries api payload on_ok fatal_label rethrow r (S i) (delay * 2) (sleep delay w2)
  else
    (Thrown (rethrow m), console_error fatal_label w2).
Proof.
  intros Hnet Hok Hon.
  simpl. unfold iteration, try_block.
  destruct (fetch env payload w) as [outcome w1] eqn:Ef.
  assert (outcome = Response status (BodyJson result)) as ->.
  { unfold Effect.fetch in Ef. inversion Ef. exact Hnet. }
  simpl in Hon. rewrite Hok, Hon.
  destruct ((i <? maxRetries - 1)%nat && connectivity_message m); reflexivity.
Qed.

(** A value the loop returns is a value the [response.ok] branch
    returned. *)
Lemma loop_returned (Q : A -> Prop) :
  (forall result w a w', on_ok result w = (Ret a, w') -> Q a) ->
  forall remaining i delay w a w',
    loop env A maxRetries api payload on_ok fatal_label rethrow remaining i delay w = (Returned a, w') -> Q a.
Proof.
  intros Hok. induction remaining as [|r IH]; intros i delay w a w' H; simpl in H.
  - discriminate.
  - destruct (iteration env A maxRetries api payload on_ok fatal_label rethrow i delay w) as [[a0|delay'|m] w1] eqn:E.
    + inversion H; subst a0 w1. clear H.
      unfold iteration, try_block in E.
      destruct (fetch env payload w) as [outcome wf].
      destruct outcome as [m|status body].
      * destruct ((i <? maxRetries - 1)%nat && connectivity_message m); discriminate.
      * destruct (response_ok status).
        -- destruct body as [m|result].
           ++ destruct ((i <? maxRetries - 1)%nat && connectivity_message m);
                discriminate.
           ++ destruct (on_ok result wf) as [[a1|m] w2] eqn:O.
              ** inversion E; subst. eapply Hok; eauto.
              ** destruct ((i <? maxRetries - 1)%nat && connectivity_message m);
                   discriminate.
        -- destruct (retryable_status status).
           ++ destruct (i <? maxRetries - 1)%nat; simpl in E; discriminate.
           ++ match type of E with
              | context [if ?b then _ else _] => destruct b
              end; discriminate.
    + eapply IH; eauto.
    + discriminate.
Qed.

(** What the loop does to the world, when the [response.ok] branch adds
    nothing but events of the loop. *)
Hypothesis on_ok_frame :
  forall result w, extends_by (loop_event payload) w (snd (on_ok result w)).

Lemma iteration_after_fetch (i : nat) (delay : Z) (w : World) :
  extends_by (loop_event payload) (snd (fetch env payload w))
             (snd (iteration env A maxRetries api payload on_ok fatal_label rethrow i delay w)).
Proof.
  assert (E : forall e w0 w1,
             (exists ms, e = EvSleep ms) \/ (exists l, e = EvConsoleError l) ->
             extends_by (loop_event payload) w0 w1 ->
             extends_by (loop_event payload) w0 (Effect.emit e w1)).
  { intros e w0 w1 He Hw. eapply Frame.trans; [exact Hw|].
    apply Frame.emit. now right. }
  pose proof (Frame.refl (loop_event payload)) as R.
  unfold iteration, try_block.
  destruct (fetch env payload w) as [outcome w1]. simpl.
  destruct outcome as [m|status body].
  - destruct ((i <? maxRetries - 1)%nat && connectivity_message m); simpl;
      apply E; eauto.
  - destruct (response_ok status).
    + destruct body as [m|result].
      * destruct ((i <? maxRetries - 1)%nat && connectivity_message m); simpl;
          apply E; eauto.
      * specialize (on_ok_frame result w1).
        destruct (on_ok result w1) as [[a|m] w2]; simpl in *.
        -- exact on_ok_frame.
        -- destruct ((i <? maxRetries - 1)%nat && connectivity_message m); simpl;
             apply E; eauto.
    + destruct (retryable_status status).
      * destruct (i <? maxRetries - 1)%nat; simpl; apply E; eauto.
      * match goal with
        | |- context [if ?b then _ else _] => destruct b
        end; simpl; apply E; eauto.
Qed.

Lemma iteration_frame (i : nat) (delay : Z) (w : World) :
  extends_by (loop_event payload) w (snd (iteration env A maxRetries api payload on_ok fatal_label rethrow i delay w)).
Proof.
  eapply Frame.trans; [|apply iteration_after_fetch].
  apply Frame.fetch. now left.
Qed.

Lemma loop_frame (remaining i : nat) (delay : Z) (w : World) :
  extends_by (loop_event payload) w (snd (loop env A maxRetries api payload on_ok fatal_label rethrow remaining i delay w)).
Proof.
  revert i delay w.
  induction remaining as [|r IH]; intros i delay w; simpl; [apply Frame.refl|].
  pose proof (iteration_frame i delay w) as Hi.
  destruct (iteration env A maxRetries api payload on_ok fatal_label rethrow i delay w) as [[a|delay'|m] w1]; simpl in *; try exact Hi.
  eapply Frame.trans; [exact Hi | apply IH].
Qed.

(** A loop that is entered at all begins with a request. *)
Lemma loop_after_fetch (r i : nat) (delay : Z) (w : World) :
  extends_by (loop_event payload) (snd (fetch env payload w))
             (snd (loop env A maxRetries api payload on_ok fatal_label rethrow (S r) i delay w)).
Proof.
  simpl. pose proof (iteration_after_fetch i delay w) as Hi.
  destruct (iteration env A maxRetries api payload on_ok fatal_label rethrow i delay w) as [[a|delay'|m] w1]; simpl in *; try exact Hi.
  eapply Frame.trans; [exact Hi | apply loop_frame].
Qed.

(** When the [response.ok] branch sends nothing itself, a value the loop
    returns was returned on the response to the last request sent, and
    that response was OK. *)
Hypothesis on_ok_fetched :
  forall result w, fetched (snd (on_ok result w)) = fetched w.

Lemma loop_returned_last (remaining i : nat) (delay : Z) (w w' : World) (a : A) :
  loop env A maxRetries api payload on_ok fatal_label rethrow remaining i delay w = (Returned a, w') ->
  fetched w < fetched w'
  /\ exists status result w0,
      net env (fetched w' - 1) = Response status (BodyJson result)
      /\ response_ok status = true
      /\ on_ok result w0 = (Ret a, w').
Proof.
  revert i delay w.
  induction remaining as [|r IH]; intros i delay w H; simpl in H; [discriminate H|].
  pose proof (iteration_frame i delay w) as Hframe.
  destruct (iteration env A maxRetries api payload on_ok fatal_label rethrow i delay w) as [[a0|delay'|m] w1] eqn:E.
  - inversion H; subst a0 w1. clear H Hframe.
    unfold iteration, try_block, Effect.fetch in E.
    destruct (net env (fetched w)) as [m|status body] eqn:Hnet.
    + destruct ((i <? maxRetries - 1)%nat && connectivity_message m); discriminate.
    + destruct (response_ok status) eqn:Hok.
      * destruct body as [m|result].
        -- destruct ((i <? maxRetries - 1)%nat && connectivity_message m);
             discriminate.
        -- match type of E with
           | context [on_ok result ?w1] =>
               pose proof (on_ok_fetched result w1) as Hf;
               destruct (on_ok result w1) as [[a1|m] w2] eqn:O
           end.
           ++ inversion E; subst a1 w2. simpl in Hf.
              split; [lia|].
              exists status, result. eexists. split; [|split; [exact Hok | exact O]].
              rewrite Hf. simpl. now rewrite Nat.sub_0_r.
           ++ destruct ((i <? maxRetries - 1)%nat && connectivity_message m);
                discriminate.
      * destruct (retryable_status status).
        -- destruct (i <? maxRetries - 1)%nat; simpl in E; discriminate.
        -- match type of E with
           | context [if ?b then _ else _] => destruct b
           end; discriminate.
  - destruct (IH _ _ _ H) as [Hlt Hrest].
    split; [|exact Hrest].
    destruct Hframe as [_ [_ Hle]]. simpl in Hle. lia.
  - discriminate H.
Qed.

End RetryLoopFacts.

(** ** Facts about the two calls *)

Module CallFacts.

Lemma orchestrator_on_ok_frame (env : Env) (userQuery : string) (result : Js) (w : World) :
  extends_by (loop_event (Orchestrator.payload userQuery)) w
             (snd (Orchestrator.on_ok env result w)).
Proof.
  unfold Orchestrator.on_ok.
  destruct (candidate_text result) as [m|jsonText]; [apply Frame.refl|].
  destruct (truthy jsonText).
  - destruct (ToString jsonText) as [m|text]; [apply Frame.refl|].
    destruct (JSON_parse env text); apply Frame.refl.
  - apply Frame.emit. right. right. eauto.
Qed.

Lemma responder_on_ok_world (result : Js) (w : World) :
  snd (Responder.on_ok result w) = w.
Proof.
  unfold Responder.on_ok.
  destruct (candidate_text result) as [m|text]; [reflexivity|].
  destruct (truthy text); [|reflexivity].
  destruct (first_candidate result) as [m|candidate]; [reflexivity|].
  destruct (Responder.citations_of _); [reflexivity|].
  destruct (ToString text); reflexivity.
Qed.

Lemma with_fallback_world (env : Env) (A : Type) (n : nat) (api : string)
      (payload : Request) (on_ok : Js -> M A) (label : string)
      (rethrow : string -> string) (after : A) (w : World) :
  snd (with_fallback env A n api payload on_ok label rethrow after w)
  = snd (retry_loop env A n api payload on_ok label rethrow w).
Proof.
  unfold with_fallback. destruct (retry_loop _ _ _ _ _ _ _ _ w) as [[a|m|] w1];
    reflexivity.
Qed.

(** The classifier call only adds requests, waits and console reports. *)
Lemma orchestrator_frame (env : Env) (userQuery : string) (w : World) :
  extends_by (loop_event (Orchestrator.payload userQuery)) w
             (snd (callGeminiOrchestrator env userQuery w)).
Proof.
  unfold callGeminiOrchestrator. rewrite with_fallback_world.
  apply loop_frame. intros. apply orchestrator_on_ok_frame.
Qed.

(** The responder call notes itself, sends its first request, and then
    only adds requests, waits and console reports. *)
Lemma responder_frame (env : Env) (userQuery : string) (intent : Js) (w : World) :
  extends_by (loop_event (Responder.payload userQuery intent))
             (snd (fetch env (Responder.payload userQuery intent)
                         (emit (EvCallResponder userQuery intent) w)))
             (snd (callGeminiResponseGenerator env userQuery intent w)).
Proof.
  unfold callGeminiResponseGenerator, bind, lift.
  rewrite with_fallback_world.
  apply loop_after_fetch. intros result w1.
  rewrite responder_on_ok_world. apply Frame.refl.
Qed.

Lemma orchestrator_on_ok_fetched (env : Env) (result : Js) (w : World) :
  fetched (snd (Orchestrator.on_ok env result w)) = fetched w.
Proof.
  unfold Orchestrator.on_ok.
  destruct (candidate_text result) as [m|jsonText]; [reflexivity|].
  destruct (truthy jsonText); [|reflexivity].
  destruct (ToString jsonText) as [m|text]; [reflexivity|].
  destruct (JSON_parse env text); reflexivity.
Qed.

(** What a value returned by the [response.ok] branch of the classifier
    call is. *)
Lemma orchestrator_on_ok_returned (env : Env) (result v : Js) (w w' : World) :
  Orchestrator.on_ok env result w = (Ret v, w') ->
  exists jsonText,
    candidate_text result = inr jsonText
    /\ ((truthy jsonText = true
         /\ exists text, ToString jsonText = inr text /\ JSON_parse env text = ParseOk v)
        \/ (truthy jsonText = false /\ v = Orchestrator.lacked_content)).
Proof.
  unfold Orchestrator.on_ok. intros H.
  destruct (candidate_text result) as [m|jsonText]; [discriminate H|].
  exists jsonText. split; [reflexivity|].
  destruct (truthy jsonText).
  - left. split; [reflexivity|].
    destruct (ToString jsonText) as [m|text]; [discriminate H|].
    destruct (JSON_parse env text) as [v0|m] eqn:P; [|discriminate H].
    inversion H; subst. exists text. split; [reflexivity | exact P].
  - right. split; [reflexivity|]. now inversion H.
Qed.

(** The [response.ok] branch of the classifier call on the errors of
    [raised_in_attempt]. *)
Lemma classifier_attempt_raised (env : Env) (userQuery : string)
      (r i : nat) (delay : Z) (w : World) (m : string) :
  raised_in_attempt env (net env (fetched w)) m ->
  classifier_loop env userQuery (S r) i delay w
  = if (i <? MAX_RETRIES - 1)%nat && connectivity_message m then
      classifier_loop env userQuery r (S i) (delay * 2)
        (sleep delay (snd (fetch env (Orchestrator.payload userQuery) w)))
    else
      (Thrown (Orchestrator.rethrow m),
       console_error Orchestrator.fatal_label
         (snd (fetch env (Orchestrator.payload userQuery) w))).
Proof.
  intros H. unfold classifier_loop.
  remember (net env (fetched w)) as o eqn:Hnet. symmetry in Hnet.
  destruct H as [m|status m Hok|status result m Hok Hc
                |status result jsonText m Hok Hc Ht Hs
                |status result jsonText text m Hok Hc Ht Hs Hp].
  - now apply fetch_rejected_attempt.
  - now apply (body_rejected_attempt _ _ _ _ _ _ _ _ r i delay w status m).
  - apply (ok_response_raises _ _ _ _ _ _ _ _ r i delay w status result m);
      [exact Hnet | exact Hok |].
    unfold Orchestrator.on_ok. now rewrite Hc.
  - apply (ok_response_raises _ _ _ _ _ _ _ _ r i delay w status result m);
      [exact Hnet | exact Hok |].
    unfold Orchestrator.on_ok. now rewrite Hc, Ht, Hs.
  - apply (ok_response_raises _ _ _ _ _ _ _ _ r i delay w status result m);
      [exact Hnet | exact Hok |].
    unfold Orchestrator.on_ok. now rewrite Hc, Ht, Hs, Hp.
Qed.

(** Each call is its loop, entered at the first iteration, and gives
    what the loop returned or threw. *)
Lemma classifier_call_is_loop (env : Env) (userQuery : string) (w : World) :
  exists w',
    (exists v,
        classifier_loop env userQuery MAX_RETRIES 0 1000 w = (Returned v, w')
        /\ callGeminiOrchestrator env userQuery w = (Ret v, w'))
    \/ (exists m,
           classifier_loop env userQuery MAX_RETRIES 0 1000 w = (Thrown m, w')
           /\ callGeminiOrchestrator env userQuery w = (Throw m, w')).
Proof.
  pose proof (loop_no_fallthrough env Js MAX_RETRIES "Orchestrator"
                (Orchestrator.payload userQuery) (Orchestrator.on_ok env)
                Orchestrator.fatal_label Orchestrator.rethrow
                MAX_RETRIES 0 1000%Z w eq_refl ltac:(unfold MAX_RETRIES; lia)) as N.
  unfold callGeminiOrchestrator, with_fallback, retry_loop, classifier_loop.
  destruct (loop env Js MAX_RETRIES "Orchestrator" (Orchestrator.payload userQuery)
              (Orchestrator.on_ok env) Orchestrator.fatal_label Orchestrator.rethrow
              MAX_RETRIES 0 1000%Z w) as [[a|m|] w1]; simpl in N.
  - exists w1. left. eauto.
  - exists w1. right. eauto.
  - congruence.
Qed.

Lemma responder_call_is_loop (env : Env) (userQuery : string) (intent : Js) (w : World) :
  exists w',
    (exists answer,
        responder_loop env userQuery intent MAX_RETRIES 0 1000
                       (emit (EvCallResponder userQuery intent) w)
        = (Returned answer, w')
        /\ callGeminiResponseGenerator env userQuery intent w = (Ret answer, w'))
    \/ (exists m,
           responder_loop env userQuery intent MAX_RETRIES 0 1000
                          (emit (EvCallResponder userQuery intent) w)
           = (Thrown m, w')
           /\ callGeminiResponseGenerator env userQuery intent w = (Throw m, w')).
Proof.
  pose proof (loop_no_fallthrough env string MAX_RETRIES "Response Generator"
                (Responder.payload userQuery intent) Responder.on_ok
                Responder.fatal_label Responder.rethrow
                MAX_RETRIES 0 1000%Z (emit (EvCallResponder userQuery intent) w)
                eq_refl ltac:(unfold MAX_RETRIES; lia)) as N.
  unfold callGeminiResponseGenerator, bind, lift, with_fallback, retry_loop,
    responder_loop.
  destruct (loop env string MAX_RETRIES "Response Generator"
              (Responder.payload userQuery intent) Responder.on_ok
              Responder.fatal_label Responder.rethrow
              MAX_RETRIES 0 1000%Z (emit (EvCallResponder userQuery intent) w))
    as [[a|m|] w1]; simpl in N.
  - exists w1. left. eauto.
  - exists w1. right. eauto.
  - congruence.
Qed.

Lemma responder_counts_once (env : Env) (userQuery : string) (intent : Js) (w : World) :
  responder_calls (trace (snd (callGeminiResponseGenerator env userQuery intent w)))
  = responder_calls (trace w) + 1.
Proof.
  destruct (responder_frame env userQuery intent w) as [[evs [T F]] _].
  rewrite T. simpl. rewrite !Frame.responder_calls_app. simpl.
  rewrite (Frame.loop_events_no_call _ _ F). lia.
Qed.

End CallFacts.

(** ** Facts about handleSend *)

Module SendFacts.

(** The [try]/[catch] around the classifier call leaves no error
    behind. *)
Lemma orchestrate_returns (env : Env) (text : string) (w : World) :
  exists r,
    Send.orchestrate env text w = (Ret r, snd (callGeminiOrchestrator env text w)).
Proof.
  unfold Send.orchestrate, try_catch, ret.
  destruct (callGeminiOrchestrator env text w) as [[r|m] w1]; simpl; eauto.
Qed.

Lemma orchestrate_of_throw (env : Env) (text : string) (w w1 : World) (m : string) :
  callGeminiOrchestrator env text w = (Throw m, w1) ->
  Send.orchestrate env text w
  = (Ret (Orchestrator.result_literal "error" "API Failure" m), w1).
Proof. unfold Send.orchestrate, try_catch. now intros ->. Qed.

Lemma orchestrate_of_return (env : Env) (text : string) (w w1 : World) (r : Js) :
  callGeminiOrchestrator env text w = (Ret r, w1) ->
  Send.orchestrate env text w = (Ret r, w1).
Proof. unfold Send.orchestrate, try_catch. now intros ->. Qed.

Lemma destructure_world (r : Js) (w : World) : snd (Send.destructure r w) = w.
Proof.
  unfold Send.destructure.
  destruct (nullish r); [reflexivity|].
  destruct (nullish (prop "arguments" r)); reflexivity.
Qed.

(** The three ways [finalResponse] is made. *)
Lemma compose_error (env : Env) (text : string) (intent tool q : Js) (w : World) :
  Send.summarizable intent tool q = true ->
  is_string "error" intent = true ->
  Send.compose env text intent tool q w
  = (Ret ("Orchestration Failure: " ++ toStr tool ++ ". Details: " ++ toStr q), w).
Proof. unfold Send.compose. now intros -> ->. Qed.

Lemma compose_chat (env : Env) (text : string) (intent tool q : Js) (w : World) :
  Send.summarizable intent tool q = true ->
  is_string "error" intent = false ->
  is_string "general_chat" intent || is_string "gemini_response" intent = true ->
  Send.compose env text intent tool q w
  = match callGeminiResponseGenerator env text intent w with
    | (Ret answer, w1) =>
        (Ret (Send.orchestrationSummary intent tool q ++ Str.nl ++ Str.nl
              ++ "--- AIos Response ---" ++ Str.nl ++ answer), w1)
    | (Throw m, w1) =>
        (Ret (Send.orchestrationSummary intent tool q ++ Str.nl ++ Str.nl
              ++ "--- Response Generation Failed ---" ++ Str.nl ++ "Error: " ++ m), w1)
    end.
Proof.
  unfold Send.compose. intros -> -> ->. unfold try_catch, bind, ret.
  destruct (callGeminiResponseGenerator env text intent w) as [[a|m] w1]; reflexivity.
Qed.

Lemma compose_tool (env : Env) (text : string) (intent tool q : Js) (w : World) :
  Send.summarizable intent tool q = true ->
  is_string "error" intent = false ->
  is_string "general_chat" intent || is_string "gemini_response" intent = false ->
  Send.compose env text intent tool q w
  = (Ret (Send.orchestrationSummary intent tool q ++ Send.mock_continuation tool), w).
Proof. unfold Send.compose. now intros -> -> ->. Qed.

(** A value that does not convert ends the composition at line 333. *)
Lemma compose_throws (env : Env) (text : string) (intent tool q : Js) (w : World) :
  Send.summarizable intent tool q = false ->
  Send.compose env text intent tool q w = (Throw cannot_convert, w).
Proof. unfold Send.compose. now intros ->. Qed.

Lemma compose_returns (env : Env) (text : string) (intent tool q : Js) (w : World) :
  Send.summarizable intent tool q = true ->
  exists fr,
    Send.compose env text intent tool q w
    = (Ret fr, snd (Send.compose env text intent tool q w)).
Proof.
  intros S.
  destruct (is_string "error" intent) eqn:E.
  - rewrite compose_error by assumption. eauto.
  - destruct (is_string "general_chat" intent || is_string "gemini_response" intent) eqn:C.
    + rewrite compose_chat by assumption.
      destruct (callGeminiResponseGenerator env text intent w) as [[a|m] w1]; eauto.
    + rewrite compose_tool by assumption. eauto.
Qed.

(** How a submission that passes the guard runs: the classifier stage
    yields a value; either line 329 throws on it, or line 333 does, and
    nothing else happens, or [finalResponse] is composed and the batch of
    two is committed. *)
Lemma handleSend_run (env : Env) (w : World) :
  Send.rejected w (Str.trim (newMessage w)) = false ->
  exists r w2,
    Send.orchestrate env (Str.trim (newMessage w)) (sending w) = (Ret r, w2)
    /\ ((exists m,
            Send.destructure r w2 = (Throw m, w2)
            /\ handleSend env w = (Throw m, w2))
        \/ (exists intent tool q,
               Send.destructure r w2 = (Ret (intent, tool, q), w2)
               /\ Send.summarizable intent tool q = false
               /\ handleSend env w = (Throw cannot_convert, w2))
        \/ (exists intent tool q fr w3,
               Send.destructure r w2 = (Ret (intent, tool, q), w2)
               /\ Send.summarizable intent tool q = true
               /\ Send.compose env (Str.trim (newMessage w)) intent tool q w2
                  = (Ret fr, w3)
               /\ handleSend env w
                  = (Ret tt, persisted env (submitted_batch w fr intent) w3))).
Proof.
  intros Hguard.
  destruct (orchestrate_returns env (Str.trim (newMessage w)) (sending w)) as [r Hr].
  exists r, (snd (callGeminiOrchestrator env (Str.trim (newMessage w)) (sending w))).
  split; [exact Hr|].
  set (w2 := snd (callGeminiOrchestrator env (Str.trim (newMessage w)) (sending w))) in *.
  pose proof (destructure_world r w2) as Hw.
  destruct (Send.destructure r w2) as [[[[intent tool] q]|m] wd] eqn:Hd;
    simpl in Hw; subst wd.
  - right. destruct (Send.summarizable intent tool q) eqn:S.
    + right.
      destruct (compose_returns env (Str.trim (newMessage w)) intent tool q w2 S)
        as [fr Hc].
      exists intent, tool, q, fr,
        (snd (Send.compose env (Str.trim (newMessage w)) intent tool q w2)).
      split; [reflexivity|]. split; [exact S|]. split; [exact Hc|].
      unfold handleSend. rewrite Hguard.
      unfold bind at 1. unfold lift at 1. unfold bind at 1. unfold lift at 1.
      unfold bind at 1. fold (sending w). rewrite Hr.
      unfold bind at 1. rewrite Hd.
      unfold bind at 1. rewrite Hc.
      reflexivity.
    + left. exists intent, tool, q.
      split; [reflexivity|]. split; [exact S|].
      unfold handleSend. rewrite Hguard.
      unfold bind at 1. unfold lift at 1. unfold bind at 1. unfold lift at 1.
      unfold bind at 1. fold (sending w). rewrite Hr.
      unfold bind at 1. rewrite Hd.
      unfold bind at 1. rewrite (compose_throws _ _ _ _ _ _ S).
      reflexivity.
  - left. exists m. split; [reflexivity|].
    unfold handleSend. rewrite Hguard.
    unfold bind at 1. unfold lift at 1. unfold bind at 1. unfold lift at 1.
    unfold bind at 1. fold (sending w). rewrite Hr.
    unfold bind at 1. rewrite Hd. reflexivity.
Qed.

(** The same, told from the classification. *)
Lemma handleSend_completes (env : Env) (w w2 : World) (r intent tool q : Js) :
  Send.rejected w (Str.trim (newMessage w)) = false ->
  Send.orchestrate env (Str.trim (newMessage w)) (sending w) = (Ret r, w2) ->
  Send.destructure r w2 = (Ret (intent, tool, q), w2) ->
  Send.summarizable intent tool q = true ->
  exists fr w3,
    Send.compose env (Str.trim (newMessage w)) intent tool q w2 = (Ret fr, w3)
    /\ handleSend env w = (Ret tt, persisted env (submitted_batch w fr intent) w3).
Proof.
  intros Hguard Horch Hd S.
  destruct (handleSend_run env w Hguard) as (r' & w2' & Horch' & Hcases).
  rewrite Horch in Horch'. inversion Horch'; subst r' w2'. clear Horch'.
  destruct Hcases as [(m & Hd' & _)
                     |[(i' & t' & q' & Hd' & S' & _)
                      |(i' & t' & q' & fr & w3 & Hd' & _ & Hc & Hs)]];
    rewrite Hd in Hd'; [discriminate Hd'| |].
  - inversion Hd'; subst i' t' q'. congruence.
  - inversion Hd'; subst i' t' q'. eauto.
Qed.

(** Line 333 throws outside every [try]: [handleSend] ends there. *)
Lemma handleSend_unconverted (env : Env) (w w2 : World) (r intent tool q : Js) :
  Send.rejected w (Str.trim (newMessage w)) = false ->
  Send.orchestrate env (Str.trim (newMessage w)) (sending w) = (Ret r, w2) ->
  Send.destructure r w2 = (Ret (intent, tool, q), w2) ->
  Send.summarizable intent tool q = false ->
  handleSend env w = (Throw cannot_convert, w2).
Proof.
  intros Hguard Horch Hd S.
  destruct (handleSend_run env w Hguard) as (r' & w2' & Horch' & Hcases).
  rewrite Horch in Horch'. inversion Horch'; subst r' w2'. clear Horch'.
  destruct Hcases as [(m & Hd' & _)
                     |[(i' & t' & q' & Hd' & _ & Hs)
                      |(i' & t' & q' & fr & w3 & Hd' & S' & _)]];
    rewrite Hd in Hd'; [discriminate Hd'| |].
  - inversion Hd'; subst i' t' q'. exact Hs.
  - inversion Hd'; subst i' t' q'. congruence.
Qed.

Lemma handleSend_crashes (env : Env) (w w2 : World) (r : Js) (m : string) :
  Send.rejected w (Str.trim (newMessage w)) = false ->
  Send.orchestrate env (Str.trim (newMessage w)) (sending w) = (Ret r, w2) ->
  Send.destructure r w2 = (Throw m, w2) ->
  handleSend env w = (Throw m, w2).
Proof.
  intros Hguard Horch Hd.
  destruct (handleSend_run env w Hguard) as (r' & w2' & Horch' & Hcases).
  rewrite Horch in Horch'. inversion Horch'; subst r' w2'. clear Horch'.
  destruct Hcases as [(m' & Hd' & Hs)
                     |[(i' & t' & q' & Hd' & _)
                      |(i' & t' & q' & fr & w3 & Hd' & _)]];
    rewrite Hd in Hd'; try discriminate Hd'.
  inversion Hd'; subst m'. exact Hs.
Qed.

(** Composing the answer leaves the application state alone. *)
Lemma compose_frame (env : Env) (text : string) (intent tool q : Js) (w : World) :
  extends_by (responder_event text intent) w
             (snd (Send.compose env text intent tool q w)).
Proof.
  destruct (Send.summarizable intent tool q) eqn:S;
    [|rewrite compose_throws by exact S; apply Frame.refl].
  destruct (is_string "error" intent) eqn:E.
  - rewrite compose_error by assumption. apply Frame.refl.
  - destruct (is_string "general_chat" intent || is_string "gemini_response" intent) eqn:C.
    + rewrite compose_chat by assumption.
      assert (F : extends_by (responder_event text intent) w
                    (snd (callGeminiResponseGenerator env text intent w))).
      { eapply Frame.trans; [|eapply Frame.weaken;
                               [|apply CallFacts.responder_frame]].
        - eapply Frame.trans; [apply Frame.emit; now left|].
          apply Frame.fetch. right. now left.
        - intros e He. now right. }
      destruct (callGeminiResponseGenerator env text intent w) as [[a|m] w1];
        exact F.
    + rewrite compose_tool by assumption. apply Frame.refl.
Qed.

End SendFacts.

(** ** Facts about exhausted retries *)

Section Exhaustion.

Variable env : Env.
Variable A : Type.
Variable api : string.
Variable payload : Request.
Variable on_ok : Js -> M A.
Variable fatal_label : string.
Variable rethrow : string -> string.

Lemma three_retryable_failures_throw (w : World) :
  (forall k, k < MAX_RETRIES -> retryable_failure (net env (fetched w + k)) = true) ->
  exists m,
    retry_loop env A MAX_RETRIES api payload on_ok fatal_label rethrow w
    = (Thrown (rethrow m), after_three_attempts env payload fatal_label w).
Proof.
  intros H. unfold retry_loop, MAX_RETRIES in *.
  pose proof (H 0 ltac:(lia)) as H0.
  pose proof (H 1 ltac:(lia)) as H1.
  pose proof (H 2 ltac:(lia)) as H2.
  rewrite Nat.add_0_r in H0.
  replace (fetched w + 1) with (S (fetched w)) in H1 by lia.
  replace (fetched w + 2) with (S (S (fetched w))) in H2 by lia.
  rewrite retryable_not_last by (exact H0 || reflexivity).
  rewrite retryable_not_last by (exact H1 || reflexivity).
  change (1000 * 2)%Z with 2000%Z. change (2000 * 2)%Z with 4000%Z.
  apply retryable_last; [exact H2 | reflexivity].
Qed.

(** The same for three retryable statuses: the error names the last
    one. *)
Lemma three_retryable_statuses_throw (w : World) (s0 s1 s2 : N)
      (b0 b1 b2 : BodyOutcome) :
  net env (fetched w) = Response s0 b0 ->
  net env (fetched w + 1) = Response s1 b1 ->
  net env (fetched w + 2) = Response s2 b2 ->
  retryable_status s0 = true ->
  retryable_status s1 = true ->
  retryable_status s2 = true ->
  retry_loop env A MAX_RETRIES api payload on_ok fatal_label rethrow w
  = (Thrown (rethrow (api ++ " API returned status " ++ Str.of_N s2
                      ++ " after " ++ Str.of_nat MAX_RETRIES ++ " attempts.")),
     after_three_attempts env payload fatal_label w).
Proof.
  intros N0 N1 N2 R0 R1 R2. unfold retry_loop, MAX_RETRIES.
  replace (fetched w + 1) with (S (fetched w)) in N1 by lia.
  replace (fetched w + 2) with (S (S (fetched w))) in N2 by lia.
  rewrite retryable_not_last by (rewrite ?N0; simpl; assumption || reflexivity).
  rewrite retryable_not_last by (simpl; rewrite ?N1; simpl; assumption || reflexivity).
  change (1000 * 2)%Z with 2000%Z. change (2000 * 2)%Z with 4000%Z.
  apply (retryable_status_last env A 3 api payload on_ok fatal_label rethrow
           0 2 4000%Z _ s2 b2); [exact N2 | exact R2 | reflexivity].
Qed.

End Exhaustion.

(** ** Citations: the code against the typed account *)

Module CitationFacts.
Import Citations.

(** What the callback of [map] makes of one attribution: the reference
    as a string, or a falsy value where there is none. *)
Lemma pick_encode (a : Attribution) :
  exists v,
    Responder.pick (encode a) = inr v
    /\ match reference a with
       | Some s => v = JStr s /\ truthy v = true
       | None => truthy v = false
       end.
Proof.
  destruct a as [[t|] [u|]]; unfold Responder.pick, encode, reference; simpl;
    unfold or; simpl.
  - destruct t as [|c t]; simpl.
    + destruct u as [|c u]; simpl; eauto.
    + eauto.
  - destruct t as [|c t]; simpl; eauto.
  - destruct u as [|c u]; simpl; eauto.
  - eauto.
Qed.

Lemma map_pick_encode (attrs : list Attribution) :
  exists vs,
    Responder.map_pick (map encode attrs) = inr vs
    /\ filter truthy vs = map JStr (references attrs).
Proof.
  induction attrs as [|a attrs (vs & Hvs & Hf)];
    cbn [map Responder.map_pick references].
  - exists []. split; reflexivity.
  - destruct (pick_encode a) as (v & Hv & Hr).
    rewrite Hv, Hvs. exists (v :: vs). split; [reflexivity|].
    cbn [filter]. destruct (reference a) as [s|].
    + destruct Hr as [-> Ht]. rewrite Ht, Hf. reflexivity.
    + rewrite Hr. exact Hf.
Qed.

Lemma sources_of_encode (attrs : list Attribution) :
  Responder.sources_of (JArr (map encode attrs)) = inr (map JStr (cited attrs)).
Proof.
  unfold Responder.sources_of, cited.
  destruct (map_pick_encode attrs) as (vs & -> & Hf).
  now rewrite Hf, firstn_map.
Qed.

Lemma join_strings (l : list string) :
  JsVal.join ", " (map JStr l) = inr (Str.join ", " l).
Proof.
  unfold JsVal.join.
  assert (C : forallb converts (map JStr l) = true)
    by (induction l; simpl; auto).
  rewrite C, map_map. simpl. now rewrite map_id.
Qed.

(** The value of [citations] for grounding metadata that carries the
    attributions [attrs]. *)
Lemma citations_of_encode (groundingMetadata : Js) (attrs : list Attribution) :
  prop "groundingAttributions" groundingMetadata = JArr (map encode attrs) ->
  Responder.citations_of groundingMetadata = inr (sources_line (cited attrs)).
Proof.
  intros H. unfold Responder.citations_of.
  assert (T : truthy groundingMetadata = true).
  { destruct groundingMetadata; simpl in H; try discriminate H; reflexivity. }
  rewrite T, H, sources_of_encode. simpl.
  rewrite join_strings, length_map.
  destruct (cited attrs); reflexivity.
Qed.

End CitationFacts.

(** ** The two ends of a submission *)

(** A submission that gets past lines 329 and 333 completes: the flag is released,
    the input box is emptied, and exactly one batch was committed, holding
    the user message and the system message; the collection has received
    both documents or, when the commit was rejected, neither. *)
Lemma completed_submission_settles
      (env : Env) (w w2 : World) (r intent tool q : Js) :
  Send.rejected w (Str.trim (newMessage w)) = false ->
  Send.orchestrate env (Str.trim (newMessage w)) (sending w) = (Ret r, w2) ->
  Send.destructure r w2 = (Ret (intent, tool, q), w2) ->
  Send.summarizable intent tool q = true ->
  exists finalResponse w3,
    handleSend env w
    = (Ret tt, persisted env (submitted_batch w finalResponse intent) w3)
    /\ map msg_type (submitted_batch w finalResponse intent)
       = [JStr "user_query"; intent]
    /\ map msg_isSystem (submitted_batch w finalResponse intent) = [None; Some true]
    /\ isSending (snd (handleSend env w)) = false
    /\ newMessage (snd (handleSend env w)) = ""
    /\ match commit env with
       | CommitOk =>
           collection (snd (handleSend env w))
           = (collection w ++ submitted_batch w finalResponse intent)%list
           /\ error (snd (handleSend env w)) = None
       | CommitRejected m =>
           collection (snd (handleSend env w)) = collection w
           /\ error (snd (handleSend env w)) = Some ("Failed to send message: " ++ m)
       end.
Proof.
  intros Hguard Horch Hd S.
  destruct (SendFacts.handleSend_completes env w w2 r intent tool q Hguard Horch Hd S)
    as (fr & w3 & Hc & Hs).
  exists fr, w3. split; [exact Hs|]. split; [reflexivity|]. split; [reflexivity|].
  assert (Hw2 : same_app_state (sending w) w2).
  { destruct (SendFacts.orchestrate_returns env (Str.trim (newMessage w)) (sending w))
      as [r' Hr'].
    rewrite Horch in Hr'. inversion Hr' as [[Er Ew]].
    apply (CallFacts.orchestrator_frame env (Str.trim (newMessage w)) (sending w)). }
  assert (Hw3 : same_app_state w2 w3).
  { pose proof (SendFacts.compose_frame env (Str.trim (newMessage w)) intent tool q w2)
      as F.
    rewrite Hc in F. apply F. }
  destruct Hw2 as (A2 & _ & _ & _ & E2 & _).
  destruct Hw3 as (A3 & _ & _ & _ & E3 & _).
  rewrite Hs. unfold persisted, Send.settle. simpl.
  destruct (commit env) as [|m]; simpl.
  - rewrite A3, A2, E3, E2. simpl. repeat split.
  - rewrite A3, A2. simpl. repeat split.
Qed.

(** A submission on which line 329 throws ends there: [handleSend] is
    rejected with the TypeError, no batch exists, the collection and the
    input box are as before, and the flag is still set, so that the guard
    turns away whatever is submitted next. *)
Lemma crashed_submission_stuck
      (env : Env) (w w2 : World) (r : Js) (m : string) :
  Send.rejected w (Str.trim (newMessage w)) = false ->
  Send.orchestrate env (Str.trim (newMessage w)) (sending w) = (Ret r, w2) ->
  Send.destructure r w2 = (Throw m, w2) ->
  handleSend env w = (Throw m, w2)
  /\ isSending w2 = true
  /\ collection w2 = collection w
  /\ newMessage w2 = newMessage w
  /\ forall text, Send.rejected w2 text = true.
Proof.
  intros Hguard Horch Hd.
  split; [now apply (SendFacts.handleSend_crashes env w w2 r m)|].
  assert (Hw2 : same_app_state (sending w) w2).
  { destruct (SendFacts.orchestrate_returns env (Str.trim (newMessage w)) (sending w))
      as [r' Hr'].
    rewrite Horch in Hr'. inversion Hr' as [[Er Ew]].
    apply (CallFacts.orchestrator_frame env (Str.trim (newMessage w)) (sending w)). }
  destruct Hw2 as (A2 & _ & _ & N2 & _ & S2). simpl in *.
  repeat split; try assumption.
  intros text. unfold Send.rejected. rewrite S2. now rewrite !orb_true_r.
Qed.

(** ** The claims *)

(** C1 fails on the code at a classifier reply without [arguments].  The
    submission "hello" passes the guard; the model text parses to an
    object with an intent and a tool name and no [arguments] key; line 329
    throws; no batch is created or committed and the collection receives
    neither the user message nor a system message. *)
Theorem C1_no_record_when_arguments_missing :
  Send.rejected (Sample.idle "hello") (Str.trim (newMessage (Sample.idle "hello")))
  = false
  /\ fst (handleSend (Sample.answering Sample.no_arguments CommitOk)
                     (Sample.idle "hello"))
     = Throw "Cannot read properties of undefined (reading 'query')"
  /\ collection (snd (handleSend (Sample.answering Sample.no_arguments CommitOk)
                                 (Sample.idle "hello")))
     = []
  /\ existsb is_commit
       (trace (snd (handleSend (Sample.answering Sample.no_arguments CommitOk)
                               (Sample.idle "hello"))))
     = false.
Proof. repeat split. Qed.

(** C2, as stated, fails: the classifier call raises.  With three
    responses of status 503, [callGeminiOrchestrator] throws the error
    "Orchestrator API returned status 503 after 3 attempts." and returns
    nothing. *)
Lemma C2_counterexample :
  fst (callGeminiOrchestrator (Sample.status_only 503) "hi" (Sample.idle "hi"))
  = Throw "Orchestrator API returned status 503 after 3 attempts."
  /\ ~ (exists r,
           fst (callGeminiOrchestrator (Sample.status_only 503) "hi" (Sample.idle "hi"))
           = Ret r).
Proof.
  split; [reflexivity|].
  intros [r H]. vm_compute in H. discriminate H.
Qed.

(** C2, amended.  [callGeminiOrchestrator] returns a value or throws: it
    gives what its loop returned or threw.  In whichever attempt it
    happens, an OK response without model text makes the call return the
    synthesized error-intent result ("System Error", "Failed to parse LLM
    response."), and an OK response whose text parses makes it return
    the parsed value.  A terminal status makes it throw "Orchestrator API
    returned status <status>".  A retryable status is retried after a
    wait in the first and second attempt and makes the third attempt
    throw "Orchestrator API returned status <status> after 3 attempts.",
    so that three retryable statuses in a row end in that error.  Any
    other error of an attempt (a rejected fetch, a body that is not JSON,
    a body that is [null], a text that does not convert or does not
    parse) is retried after a wait when its message names a connectivity
    failure and the attempt is the first or second, and is thrown
    otherwise, with its own message or "Unknown API error." for an empty
    one.  The [try]/[catch] of [handleSend] around the call is the
    boundary past which nothing is raised: it always yields a value, the
    returned one or, for an error thrown with message [m], the
    synthesized result with intent "error", tool "API Failure" and query
    [m]. *)
Theorem C2_classifier_errors_absorbed_by_caller
        (env : Env) (userQuery : string) (w : World) :
  (exists r, fst (Send.orchestrate env userQuery w) = Ret r)
  /\ (forall m,
         fst (callGeminiOrchestrator env userQuery w) = Throw m ->
         fst (Send.orchestrate env userQuery w)
         = Ret (Orchestrator.result_literal "error" "API Failure" m))
  /\ (forall v,
         fst (callGeminiOrchestrator env userQuery w) = Ret v ->
         fst (Send.orchestrate env userQuery w) = Ret v)
  /\ (exists w',
         (exists v,
             classifier_loop env userQuery MAX_RETRIES 0 1000 w = (Returned v, w')
             /\ callGeminiOrchestrator env userQuery w = (Ret v, w'))
         \/ (exists m,
                classifier_loop env userQuery MAX_RETRIES 0 1000 w = (Thrown m, w')
                /\ callGeminiOrchestrator env userQuery w = (Throw m, w')))
  /\ (forall r i delay w0 status result jsonText,
         net env (fetched w0) = Response status (BodyJson result) ->
         response_ok status = true ->
         candidate_text result = inr jsonText ->
         truthy jsonText = false ->
         classifier_loop env userQuery (S r) i delay w0
         = (Returned Orchestrator.lacked_content,
            console_error "Gemini orchestration response lacked structured content:"
              (snd (fetch env (Orchestrator.payload userQuery) w0))))
  /\ (forall r i delay w0 status result jsonText text v,
         net env (fetched w0) = Response status (BodyJson result) ->
         response_ok status = true ->
         candidate_text result = inr jsonText ->
         truthy jsonText = true ->
         ToString jsonText = inr text ->
         JSON_parse env text = ParseOk v ->
         classifier_loop env userQuery (S r) i delay w0
         = (Returned v, snd (fetch env (Orchestrator.payload userQuery) w0)))
  /\ (forall r i delay w0 status body,
         net env (fetched w0) = Response status body ->
         response_ok status = false ->
         retryable_status status = false ->
         classifier_loop env userQuery (S r) i delay w0
         = (Thrown ("Orchestrator API returned status " ++ Str.of_N status),
            console_error Orchestrator.fatal_label
              (snd (fetch env (Orchestrator.payload userQuery) w0))))
  /\ (forall r i delay w0 status body,
         net env (fetched w0) = Response status body ->
         retryable_status status = true ->
         classifier_loop env userQuery (S r) i delay w0
         = if (i <? 2)%nat then
             classifier_loop env userQuery r (S i) (delay * 2)
               (sleep delay (snd (fetch env (Orchestrator.payload userQuery) w0)))
           else
             (Thrown ("Orchestrator API returned status " ++ Str.of_N status
                      ++ " after 3 attempts."),
              console_error Orchestrator.fatal_label
                (snd (fetch env (Orchestrator.payload userQuery) w0))))
  /\ (forall r i delay w0 m,
         raised_in_attempt env (net env (fetched w0)) m ->
         classifier_loop env userQuery (S r) i delay w0
         = if (i <? 2)%nat && connectivity_message m then
             classifier_loop env userQuery r (S i) (delay * 2)
               (sleep delay (snd (fetch env (Orchestrator.payload userQuery) w0)))
           else
             (Thrown (if Str.is_empty m then "Unknown API error." else m),
              console_error Orchestrator.fatal_label
                (snd (fetch env (Orchestrator.payload userQuery) w0))))
  /\ (forall s0 b0 s1 b1 s2 b2,
         net env (fetched w) = Response s0 b0 ->
         net env (fetched w + 1) = Response s1 b1 ->
         net env (fetched w + 2) = Response s2 b2 ->
         retryable_status s0 = true ->
         retryable_status s1 = true ->
         retryable_status s2 = true ->
         fst (callGeminiOrchestrator env userQuery w)
         = Throw ("Orchestrator API returned status " ++ Str.of_N s2
                  ++ " after 3 attempts.")).
Proof.
  split; [|split; [|split; [|split; [|split; [|split; [|split; [|split; [|split]]]]]]]].
  - destruct (SendFacts.orchestrate_returns env userQuery w) as [r Hr].
    exists r. now rewrite Hr.
  - intros m H.
    destruct (callGeminiOrchestrator env userQuery w) as [o w1] eqn:E.
    simpl in H. subst o.
    now rewrite (SendFacts.orchestrate_of_throw _ _ _ _ _ E).
  - intros v H.
    destruct (callGeminiOrchestrator env userQuery w) as [o w1] eqn:E.
    simpl in H. subst o.
    now rewrite (SendFacts.orchestrate_of_return _ _ _ _ _ E).
  - apply CallFacts.classifier_call_is_loop.
  - intros r i delay w0 status result jsonText Hnet Hok Htext Hfalsy.
    unfold classifier_loop.
    erewrite ok_response_returns; [reflexivity | exact Hnet | exact Hok |].
    unfold Orchestrator.on_ok. rewrite Htext, Hfalsy. reflexivity.
  - intros r i delay w0 status result jsonText text v Hnet Hok Htext Htruthy Hs Hp.
    unfold classifier_loop.
    erewrite ok_response_returns; [reflexivity | exact Hnet | exact Hok |].
    unfold Orchestrator.on_ok. rewrite Htext, Htruthy, Hs, Hp. reflexivity.
  - intros r i delay w0 status body Hnet Hok Hretry.
    unfold classifier_loop.
    rewrite (terminal_status_throws env Js MAX_RETRIES "Orchestrator"
               (Orchestrator.payload userQuery) (Orchestrator.on_ok env)
               Orchestrator.fatal_label Orchestrator.rethrow
               r i delay w0 status body Hnet Hok Hretry
               (StrFacts.status_message_not_connectivity "Orchestrator" status
                  eq_refl eq_refl)).
    reflexivity.
  - intros r i delay w0 status body Hnet Hretry.
    unfold classifier_loop.
    rewrite (retryable_status_attempt env Js MAX_RETRIES "Orchestrator"
               (Orchestrator.payload userQuery) (Orchestrator.on_ok env)
               Orchestrator.fatal_label Orchestrator.rethrow
               r i delay w0 status body Hnet Hretry).
    reflexivity.
  - intros r i delay w0 m H.
    now rewrite (CallFacts.classifier_attempt_raised env userQuery r i delay w0 m H).
  - intros s0 b0 s1 b1 s2 b2 N0 N1 N2 R0 R1 R2.
    unfold callGeminiOrchestrator, with_fallback.
    rewrite (three_retryable_statuses_throw env Js "Orchestrator"
               (Orchestrator.payload userQuery) (Orchestrator.on_ok env)
               Orchestrator.fatal_label Orchestrator.rethrow
               w s0 s1 s2 b0 b1 b2 N0 N1 N2 R0 R1 R2).
    reflexivity.
Qed.

(** Three responses of status 503, seen from [handleSend]; and a reply
    whose text parses, received in the second attempt. *)
Lemma C2_witness :
  fst (Send.orchestrate (Sample.status_only 503) "hi" (Sample.idle "hi"))
  = Ret (Orchestrator.result_literal "error" "API Failure"
           "Orchestrator API returned status 503 after 3 attempts.")
  /\ classifier_loop (Sample.answering Sample.chat CommitOk) "hi" 2 1 2000
                     (Sample.idle "hi")
     = (Returned Sample.chat,
        snd (fetch (Sample.answering Sample.chat CommitOk) (Orchestrator.payload "hi")
                   (Sample.idle "hi"))).
Proof.
  split.
  - destruct (C2_classifier_errors_absorbed_by_caller
                (Sample.status_only 503) "hi" (Sample.idle "hi"))
      as (_ & Habsorbed & _ & _ & _ & _ & _ & _ & _ & Hthree).
    apply Habsorbed.
    apply (Hthree 503%N (BodyRejected "Unexpected end of JSON input")
                  503%N (BodyRejected "Unexpected end of JSON input")
                  503%N (BodyRejected "Unexpected end of JSON input"));
      reflexivity.
  - destruct (C2_classifier_errors_absorbed_by_caller
                (Sample.answering Sample.chat CommitOk) "hi" (Sample.idle "hi"))
      as (_ & _ & _ & _ & _ & Hparsed & _).
    apply (Hparsed 1 1 2000%Z (Sample.idle "hi") 200%N
                   (Sample.reply (JStr (Sample.stringify Sample.chat)) [])
                   (JStr (Sample.stringify Sample.chat))
                   (Sample.stringify Sample.chat));
      reflexivity.
Defined.

(** C3, as stated, fails: the classifier call returns what the model
    text parses to, as it is.  A reply that parses to [{intent:
    "weather_tool"}] is returned unchanged; its intent is none of the
    enumerated ones, it was not forced to "error", and it has no
    [tool_triggered] and no [arguments]. *)
Lemma C3_counterexample :
  fst (callGeminiOrchestrator (Sample.answering Sample.weather CommitOk) "hi"
                              (Sample.idle "hi"))
  = Ret Sample.weather
  /\ prop "intent" Sample.weather = JStr "weather_tool"
  /\ ~ In "weather_tool" enumerated_intents
  /\ prop "tool_triggered" Sample.weather = JUndef
  /\ prop "arguments" Sample.weather = JUndef.
Proof.
  repeat split.
  simpl. intros H. repeat (destruct H as [H|H]; [discriminate H|]). exact H.
Qed.

(** C3, amended.  A value that [callGeminiOrchestrator] returns comes
    from the response to the last request the call sent, which is an OK
    response: the value is what [JSON.parse] made of the model text of
    that response, unvalidated (so its intent may be any value, or
    missing), or, that response carrying no model text, the synthesized
    result of line 106, whose intent is "error" and whose tool and query
    are the diagnostic texts "System Error" and "Failed to parse LLM
    response.".  A text that does not parse gives no value in its
    attempt: the error is retried after a wait when its message names a
    connectivity failure and the attempt is the first or second, and is
    thrown otherwise.  The value [handleSend] goes on with is the value
    returned or, when the call threw, the synthesized result with intent
    "error", tool "API Failure" and the error message as query. *)
Theorem C3_classifier_value_is_parsed_or_synthesized
        (env : Env) (userQuery : string) (w : World) :
  (forall v w',
      callGeminiOrchestrator env userQuery w = (Ret v, w') ->
      fetched w < fetched w'
      /\ exists status result jsonText,
          net env (fetched w' - 1) = Response status (BodyJson result)
          /\ response_ok status = true
          /\ candidate_text result = inr jsonText
          /\ ((truthy jsonText = true
               /\ exists text,
                   ToString jsonText = inr text /\ JSON_parse env text = ParseOk v)
              \/ (truthy jsonText = false /\ v = Orchestrator.lacked_content)))
  /\ (forall r i delay w0 status result jsonText text m,
         net env (fetched w0) = Response status (BodyJson result) ->
         response_ok status = true ->
         candidate_text result = inr jsonText ->
         truthy jsonText = true ->
         ToString jsonText = inr text ->
         JSON_parse env text = ParseError m ->
         classifier_loop env userQuery (S r) i delay w0
         = if (i <? 2)%nat && connectivity_message m then
             classifier_loop env userQuery r (S i) (delay * 2)
               (sleep delay (snd (fetch env (Orchestrator.payload userQuery) w0)))
           else
             (Thrown (if Str.is_empty m then "Unknown API error." else m),
              console_error Orchestrator.fatal_label
                (snd (fetch env (Orchestrator.payload userQuery) w0))))
  /\ (forall r w',
         Send.orchestrate env userQuery w = (Ret r, w') ->
         callGeminiOrchestrator env userQuery w = (Ret r, w')
         \/ exists m,
             callGeminiOrchestrator env userQuery w = (Throw m, w')
             /\ r = Orchestrator.result_literal "error" "API Failure" m)
  /\ Orchestrator.lacked_content
     = Orchestrator.result_literal "error" "System Error" "Failed to parse LLM response."
  /\ (forall tool m,
         prop "intent" (Orchestrator.result_literal "error" tool m) = JStr "error"
         /\ prop "tool_triggered" (Orchestrator.result_literal "error" tool m) = JStr tool
         /\ prop "query" (prop "arguments" (Orchestrator.result_literal "error" tool m))
            = JStr m).
Proof.
  split; [|split; [|split; [|split; [reflexivity|]]]].
  - intros v w' H.
    destruct (CallFacts.classifier_call_is_loop env userQuery w)
      as [w1 [(v1 & L & C)|(m & L & C)]]; rewrite C in H; [|discriminate H].
    inversion H; subst v1 w1. clear H C.
    unfold classifier_loop in L.
    destruct (loop_returned_last env Js MAX_RETRIES "Orchestrator"
                (Orchestrator.payload userQuery) (Orchestrator.on_ok env)
                Orchestrator.fatal_label Orchestrator.rethrow
                (fun result w1 => CallFacts.orchestrator_on_ok_frame env userQuery result w1)
                (CallFacts.orchestrator_on_ok_fetched env)
                _ _ _ _ _ _ L)
      as (Hlt & status & result & w0 & Hnet & Hok & Hon).
    split; [exact Hlt|].
    destruct (CallFacts.orchestrator_on_ok_returned _ _ _ _ _ Hon)
      as (jsonText & Hc & Hcases).
    exists status, result, jsonText. auto.
  - intros r i delay w0 status result jsonText text m Hnet Hok Hc Ht Hs Hp.
    rewrite (CallFacts.classifier_attempt_raised env userQuery r i delay w0 m);
      [reflexivity|].
    rewrite Hnet. now apply (raised_by_parse env status result jsonText text m).
  - intros r w' H.
    destruct (callGeminiOrchestrator env userQuery w) as [[v|m] w1] eqn:E.
    + rewrite (SendFacts.orchestrate_of_return _ _ _ _ _ E) in H.
      inversion H; subst. now left.
    + rewrite (SendFacts.orchestrate_of_throw _ _ _ _ _ E) in H.
      inversion H; subst. right. exists m. split; reflexivity.
  - intros tool m. repeat split.
Qed.

(** The reply [{intent: "weather_tool"}] is returned as parsed, from the
    response to the one request sent. *)
Lemma C3_witness :
  fetched (Sample.idle "hi") < 1
  /\ exists status result jsonText,
      net (Sample.answering Sample.weather CommitOk) (1 - 1)
      = Response status (BodyJson result)
      /\ response_ok status = true
      /\ candidate_text result = inr jsonText
      /\ ((truthy jsonText = true
           /\ exists text,
               ToString jsonText = inr text
               /\ JSON_parse (Sample.answering Sample.weather CommitOk) text
                  = ParseOk Sample.weather)
          \/ (truthy jsonText = false /\ Sample.weather = Orchestrator.lacked_content)).
Proof.
  apply (C3_classifier_value_is_parsed_or_synthesized
           (Sample.answering Sample.weather CommitOk) "hi" (Sample.idle "hi"))
    with (w' := snd (callGeminiOrchestrator (Sample.answering Sample.weather CommitOk)
                                            "hi" (Sample.idle "hi"))).
  reflexivity.
Defined.

(** C4 fails on the code at a classifier reply without [arguments], the
    input of C1 and C9.  The submission "hello" passes the guard and its
    classification has the intent 'general_chat'; line 329 throws on it,
    and [callGeminiResponseGenerator] is not invoked, where the claim has
    it invoked exactly once.  Likewise for a classification with the
    intent 'calendar_tool' and no [arguments]: line 329 throws, no mock
    description is composed, no batch is committed and the collection
    receives nothing. *)
Theorem C4_responder_not_invoked_when_arguments_missing :
  Send.rejected (Sample.idle "hello") (Str.trim (newMessage (Sample.idle "hello")))
  = false
  /\ fst (Send.orchestrate (Sample.answering Sample.no_arguments CommitOk) "hello"
                           (sending (Sample.idle "hello")))
     = Ret Sample.no_arguments
  /\ prop "intent" Sample.no_arguments = JStr "general_chat"
  /\ fst (handleSend (Sample.answering Sample.no_arguments CommitOk)
                     (Sample.idle "hello"))
     = Throw "Cannot read properties of undefined (reading 'query')"
  /\ responder_calls
       (trace (snd (handleSend (Sample.answering Sample.no_arguments CommitOk)
                               (Sample.idle "hello"))))
     = 0
  /\ prop "intent" Sample.calendar_without_arguments = JStr "calendar_tool"
  /\ fst (handleSend (Sample.answering Sample.calendar_without_arguments CommitOk)
                     (Sample.idle "Schedule lunch Friday"))
     = Throw "Cannot read properties of undefined (reading 'query')"
  /\ existsb is_commit
       (trace (snd (handleSend
                      (Sample.answering Sample.calendar_without_arguments CommitOk)
                      (Sample.idle "Schedule lunch Friday"))))
     = false
  /\ collection (snd (handleSend
                        (Sample.answering Sample.calendar_without_arguments CommitOk)
                        (Sample.idle "Schedule lunch Friday")))
     = [].
Proof. repeat split. Qed.

(** C5.  Grounding is requested exactly for the knowledge intent.  The
    request body of [callGeminiResponseGenerator] has a [tools] key, and
    then with the search tool as its value, if and only if the intent
    handed to the function is the string 'gemini_response' (the tag that
    the specification calls knowledge_response); for every other intent
    the body has no [tools] key.  Every request the function sends, the
    first one and the retries, has this body. *)
Theorem C5_grounding_iff_knowledge_intent
        (env : Env) (userQuery : string) (intent : Js) (w : World) :
  (tools (Responder.payload userQuery intent) = Some ["google_search"]
   <-> intent = JStr "gemini_response")
  /\ (tools (Responder.payload userQuery intent) = None
      <-> intent <> JStr "gemini_response")
  /\ exists evs,
      trace (snd (callGeminiResponseGenerator env userQuery intent w))
      = (trace w ++ EvCallResponder userQuery intent
               :: EvFetch (Responder.payload userQuery intent) :: evs)%list
      /\ forall rq, In rq (requests evs) -> rq = Responder.payload userQuery intent.
Proof.
  pose proof (Frame.is_string_eq "gemini_response" intent) as S.
  split; [|split].
  - unfold Responder.payload. simpl.
    destruct (is_string "gemini_response" intent); split; intros H;
      try reflexivity; try discriminate H.
    + now apply S.
    + apply S in H. discriminate H.
  - unfold Responder.payload. simpl.
    destruct (is_string "gemini_response" intent); split; intros H;
      try reflexivity; try discriminate H.
    + exfalso. apply H. now apply S.
    + intros Heq. apply S in Heq. discriminate Heq.
  - destruct (CallFacts.responder_frame env userQuery intent w) as [[evs [T F]] _].
    exists evs. split.
    + rewrite T. simpl. now rewrite <- !app_assoc.
    + now apply Frame.loop_requests.
Qed.

(** No [tools] key for the intent 'general_chat'. *)
Lemma C5_witness :
  tools (Responder.payload "hi" (JStr "general_chat")) = None.
Proof.
  apply (C5_grounding_iff_knowledge_intent
           Sample.silent "hi" (JStr "general_chat") (Sample.idle "hi")).
  discriminate.
Defined.

(** C6, as stated, fails on "deduplicated": the code keeps duplicates.
    With the body text T and two attributions that both have the title A,
    the responder returns T with the line "**Sources:** A, A", while the
    deduplicated list of references is the single A. *)
Lemma C6_counterexample :
  fst (callGeminiResponseGenerator (Sample.grounded_on [Sample.A_; Sample.A_]) "q"
                                   (JStr "gemini_response") (Sample.idle "q"))
  = Ret ("T" ++ Str.nl ++ Str.nl ++ "**Sources:** A, A")
  /\ Citations.spec_cited [Sample.A_; Sample.A_] = ["A"]
  /\ fst (callGeminiResponseGenerator (Sample.grounded_on [Sample.A_; Sample.A_]) "q"
                                      (JStr "gemini_response") (Sample.idle "q"))
     <> Ret ("T" ++ Citations.sources_line
                      (Citations.spec_cited [Sample.A_; Sample.A_])).
Proof.
  split; [reflexivity|]. split; [reflexivity|].
  intros H. vm_compute in H. discriminate H.
Qed.

(** C6, amended.  Take an OK response of the responder call, in whichever
    attempt it arrives, whose first candidate is [candidate] and whose body
    text is [text].  When the text is missing or empty, the call returns
    the fixed string "Gemini failed to generate a response (no text
    returned).".  Otherwise, the text being a string (or converting to
    one), when the grounding metadata carries the attributions [attrs]
    (objects [{ web: { title, uri } }]), the call returns the text
    followed by the line "**Sources:** " that lists, separated by ", ",
    the first three references in the order of the attributions, the
    reference of an attribution being its title or else its URI and an
    attribution with neither contributing none; duplicates are kept; with
    no reference at all the text is returned unmodified.  When there is no
    grounding metadata or it has no attributions, the text is returned
    unmodified.  What the loop returns is what the call returns. *)
Theorem C6_sources_line_first_three_references
        (env : Env) (userQuery : string) (intent : Js)
        (r i : nat) (delay : Z) (w : World)
        (status : N) (result text candidate : Js) :
  net env (fetched w) = Response status (BodyJson result) ->
  response_ok status = true ->
  candidate_text result = inr text ->
  first_candidate result = inr candidate ->
  (truthy text = false ->
   responder_loop env userQuery intent (S r) i delay w
   = (Returned Responder.no_text,
      snd (fetch env (Responder.payload userQuery intent) w)))
  /\ (truthy text = true ->
      forall body,
        ToString text = inr body ->
        (forall attrs,
            prop "groundingAttributions" (opt_prop "groundingMetadata" candidate)
            = JArr (map Citations.encode attrs) ->
            responder_loop env userQuery intent (S r) i delay w
            = (Returned (body ++ Citations.sources_line (Citations.cited attrs)),
               snd (fetch env (Responder.payload userQuery intent) w)))
        /\ (truthy (opt_prop "groundingMetadata" candidate)
            && truthy (prop "groundingAttributions"
                            (opt_prop "groundingMetadata" candidate)) = false ->
            responder_loop env userQuery intent (S r) i delay w
            = (Returned body,
               snd (fetch env (Responder.payload userQuery intent) w))))
  /\ (forall w0, exists w',
         (exists answer,
             responder_loop env userQuery intent MAX_RETRIES 0 1000
                            (emit (EvCallResponder userQuery intent) w0)
             = (Returned answer, w')
             /\ callGeminiResponseGenerator env userQuery intent w0 = (Ret answer, w'))
         \/ (exists m,
                responder_loop env userQuery intent MAX_RETRIES 0 1000
                               (emit (EvCallResponder userQuery intent) w0)
                = (Thrown m, w')
                /\ callGeminiResponseGenerator env userQuery intent w0 = (Throw m, w'))).
Proof.
  intros Hnet Hok Htext Hcand.
  assert (R : forall a,
             Responder.on_ok result
               (snd (fetch env (Responder.payload userQuery intent) w))
             = (Ret a, snd (fetch env (Responder.payload userQuery intent) w)) ->
             responder_loop env userQuery intent (S r) i delay w
             = (Returned a, snd (fetch env (Responder.payload userQuery intent) w))).
  { intros a Ha. unfold responder_loop.
    erewrite ok_response_returns; [reflexivity | exact Hnet | exact Hok | exact Ha]. }
  split; [|split].
  - intros Hfalsy. apply R.
    unfold Responder.on_ok. rewrite Htext, Hfalsy. reflexivity.
  - intros Htruthy body Hbody. split.
    + intros attrs Hattrs. apply R.
      unfold Responder.on_ok. rewrite Htext, Htruthy, Hcand.
      rewrite (CitationFacts.citations_of_encode _ _ Hattrs), Hbody. reflexivity.
    + intros Hnone. apply R.
      unfold Responder.on_ok. rewrite Htext, Htruthy, Hcand.
      unfold Responder.citations_of. rewrite Hnone, Hbody.
      now rewrite StrFacts.append_empty_r.
  - intros w0. apply CallFacts.responder_call_is_loop.
Qed.

(** The attributions A, http://b, C, D, on the response to the second
    request: three references are cited. *)
Lemma C6_witness :
  responder_loop
    (Sample.grounded_on [Sample.A_; Sample.b_; Sample.C_; Sample.D_]) "q"
    (JStr "gemini_response") 2 1 2000 (Sample.idle "q")
  = (Returned ("T" ++ Str.nl ++ Str.nl ++ "**Sources:** A, http://b, C"),
     snd (fetch (Sample.grounded_on [Sample.A_; Sample.b_; Sample.C_; Sample.D_])
                (Responder.payload "q" (JStr "gemini_response")) (Sample.idle "q"))).
Proof.
  refine (proj1 (proj1 (proj2 (C6_sources_line_first_three_references
           (Sample.grounded_on [Sample.A_; Sample.b_; Sample.C_; Sample.D_]) "q"
           (JStr "gemini_response") 1 1 2000%Z (Sample.idle "q") 200
           (Sample.reply (JStr "T")
              (Sample.grounding
                 (JArr (map Citations.encode
                            [Sample.A_; Sample.b_; Sample.C_; Sample.D_]))))
           (JStr "T")
           (JObj (("content", JObj [("parts", JArr [JObj [("text", JStr "T")]])])
                  :: Sample.grounding
                       (JArr (map Citations.encode
                                  [Sample.A_; Sample.b_; Sample.C_; Sample.D_]))))
           eq_refl eq_refl eq_refl eq_refl)) eq_refl "T" eq_refl)
           [Sample.A_; Sample.b_; Sample.C_; Sample.D_] eq_refl).
Defined.

(** Attributions written without the [web] level, [{ title: "A" }], have
    neither title nor URI where the code looks: nothing is cited. *)
Lemma attributions_without_web_cite_nothing :
  fst (callGeminiResponseGenerator
         (Sample.always
            (Response 200
               (BodyJson (Sample.reply (JStr "T")
                            (Sample.grounding (JArr [JObj [("title", JStr "A")]])))))
            (ParseError "unused"))
         "q" (JStr "gemini_response") (Sample.idle "q"))
  = Ret "T".
Proof. reflexivity. Qed.

(** C7.  A terminal status on the first attempt of the classifier call.
    When the first response has a failure status that is not 429 and is
    below 500 (400, say), [callGeminiOrchestrator] throws at once the error
    "Orchestrator API returned status <status>": it has sent exactly one
    request, has not waited, and has reported the error on the console. *)
Theorem C7_terminal_status_no_retry
        (env : Env) (userQuery : string) (w : World) (status : N) (body : BodyOutcome) :
  net env (fetched w) = Response status body ->
  response_ok status = false ->
  status <> 429%N ->
  (status < 500)%N ->
  let w' := snd (callGeminiOrchestrator env userQuery w) in
  fst (callGeminiOrchestrator env userQuery w)
  = Throw ("Orchestrator API returned status " ++ Str.of_N status)
  /\ trace w' = (trace w ++ [EvFetch (Orchestrator.payload userQuery);
                             EvConsoleError Orchestrator.fatal_label])%list
  /\ fetched w' = S (fetched w).
Proof.
  intros Hnet Hok H429 H500 w'.
  assert (Hretry : retryable_status status = false).
  { unfold retryable_status. apply orb_false_iff. split.
    - now apply N.eqb_neq.
    - apply N.leb_gt. exact H500. }
  pose proof (terminal_status_throws env Js MAX_RETRIES "Orchestrator"
                (Orchestrator.payload userQuery) (Orchestrator.on_ok env)
                Orchestrator.fatal_label Orchestrator.rethrow
                2 0 1000%Z w status body Hnet Hok Hretry
                (StrFacts.status_message_not_connectivity "Orchestrator" status
                   eq_refl eq_refl)) as Hloop.
  subst w'. unfold callGeminiOrchestrator, with_fallback.
  change (retry_loop env Js MAX_RETRIES "Orchestrator" (Orchestrator.payload userQuery)
            (Orchestrator.on_ok env) Orchestrator.fatal_label Orchestrator.rethrow w)
    with (loop env Js MAX_RETRIES "Orchestrator" (Orchestrator.payload userQuery)
            (Orchestrator.on_ok env) Orchestrator.fatal_label Orchestrator.rethrow
            3 0 1000%Z w).
  rewrite Hloop.
  repeat split.
  simpl. now rewrite <- app_assoc.
Qed.

(** Status 400 on the first attempt. *)
Lemma C7_witness :
  fst (callGeminiOrchestrator (Sample.status_only 400) "hi" (Sample.idle "hi"))
  = Throw ("Orchestrator API returned status " ++ Str.of_N 400)
  /\ trace (snd (callGeminiOrchestrator (Sample.status_only 400) "hi" (Sample.idle "hi")))
     = (trace (Sample.idle "hi") ++ [EvFetch (Orchestrator.payload "hi");
                                     EvConsoleError Orchestrator.fatal_label])%list
  /\ fetched (snd (callGeminiOrchestrator (Sample.status_only 400) "hi" (Sample.idle "hi")))
     = S (fetched (Sample.idle "hi")).
Proof.
  apply (C7_terminal_status_no_retry
           (Sample.status_only 400) "hi" (Sample.idle "hi") 400
           (BodyRejected "Unexpected end of JSON input")).
  - reflexivity.
  - reflexivity.
  - discriminate.
  - reflexivity.
Defined.

(** C8, as stated, fails for the intent "error": the text of the system
    message is then "Orchestration Failure: ..." and does not begin with
    the orchestration summary.  Every response being OK and without model
    text, the two messages written for the submission "hi" are the
    following. *)
Lemma C8_counterexample :
  map msg_text (collection (snd (handleSend Sample.silent (Sample.idle "hi"))))
  = ["hi"; "Orchestration Failure: System Error. Details: Failed to parse LLM response."]
  /\ map msg_type (collection (snd (handleSend Sample.silent (Sample.idle "hi"))))
     = [JStr "user_query"; JStr "error"]
  /\ String.prefix
       (Send.orchestrationSummary (JStr "error") (JStr "System Error")
                                  (JStr "Failed to parse LLM response."))
       "Orchestration Failure: System Error. Details: Failed to parse LLM response."
     = false
  /\ String.prefix
       "Intent Classified: "
       "Orchestration Failure: System Error. Details: Failed to parse LLM response."
     = false.
Proof. repeat split. Qed.

(** C8, amended.  Take a submission that passes the guard and whose
    classification gives line 329 an intent, a tool name and a summary
    that convert to strings.  The submission completes, and the text of
    its system message is the composed string [finalResponse] and nothing
    else.  When the intent is "error", that string is
    [Orchestration Failure: <tool>. Details: <summary>] and the summary
    line is absent.  Otherwise it is the orchestration summary
    [Intent Classified: **<intent>**. Tool: <tool>. Summary: "<summary>".]
    (the intent between two pairs of asterisks) followed by a continuation:
    for the intents 'general_chat' and 'gemini_response', the
    "--- AIos Response ---" header with the answer that
    [callGeminiResponseGenerator] returned for the submitted text and the
    intent, or, when that call threw, the "--- Response Generation Failed
    ---" header with the message of its error; for every other intent, the
    mock sentence naming the tool. *)
Theorem C8_system_text_is_summary_then_continuation
        (env : Env) (w w2 : World) (r intent tool q : Js) :
  Send.rejected w (Str.trim (newMessage w)) = false ->
  Send.orchestrate env (Str.trim (newMessage w)) (sending w) = (Ret r, w2) ->
  Send.destructure r w2 = (Ret (intent, tool, q), w2) ->
  Send.summarizable intent tool q = true ->
  exists finalResponse w3,
    handleSend env w
    = (Ret tt, persisted env (submitted_batch w finalResponse intent) w3)
    /\ map msg_text (submitted_batch w finalResponse intent)
       = [Str.trim (newMessage w); finalResponse]
    /\ (is_string "error" intent = true ->
        finalResponse
        = "Orchestration Failure: " ++ toStr tool ++ ". Details: " ++ toStr q)
    /\ (is_string "error" intent = false ->
        is_string "general_chat" intent || is_string "gemini_response" intent = true ->
        (forall answer w',
            callGeminiResponseGenerator env (Str.trim (newMessage w)) intent w2
            = (Ret answer, w') ->
            finalResponse
            = "Intent Classified: **" ++ toStr intent ++ "**. Tool: " ++ toStr tool
              ++ ". Summary: " ++ Str.dq ++ toStr q ++ Str.dq ++ "."
              ++ Str.nl ++ Str.nl ++ "--- AIos Response ---" ++ Str.nl ++ answer)
        /\ (forall m w',
               callGeminiResponseGenerator env (Str.trim (newMessage w)) intent w2
               = (Throw m, w') ->
               finalResponse
               = "Intent Classified: **" ++ toStr intent ++ "**. Tool: " ++ toStr tool
                 ++ ". Summary: " ++ Str.dq ++ toStr q ++ Str.dq ++ "."
                 ++ Str.nl ++ Str.nl ++ "--- Response Generation Failed ---"
                 ++ Str.nl ++ "Error: " ++ m))
    /\ (is_string "error" intent = false ->
        is_string "general_chat" intent || is_string "gemini_response" intent = false ->
        finalResponse
        = "Intent Classified: **" ++ toStr intent ++ "**. Tool: " ++ toStr tool
          ++ ". Summary: " ++ Str.dq ++ toStr q ++ Str.dq ++ "."
          ++ Str.nl ++ Str.nl
          ++ "**Tool Execution Mock:** The UI would now transition to the generated application form for "
          ++ toStr tool ++ ".").
Proof.
  intros Hguard Horch Hd Hs.
  destruct (SendFacts.handleSend_completes env w w2 r intent tool q Hguard Horch Hd Hs)
    as (fr & w3 & Hc & Hrun).
  exists fr, w3. split; [exact Hrun|]. split; [reflexivity|].
  assert (S : forall k,
             Send.orchestrationSummary intent tool q ++ k
             = "Intent Classified: **" ++ toStr intent ++ "**. Tool: " ++ toStr tool
               ++ ". Summary: " ++ Str.dq ++ toStr q ++ Str.dq ++ "." ++ k).
  { intros k. unfold Send.orchestrationSummary.
    repeat rewrite StrFacts.append_assoc. reflexivity. }
  split; [|split].
  - intros He. rewrite SendFacts.compose_error in Hc by assumption.
    now inversion Hc.
  - intros He Hchat.
    rewrite SendFacts.compose_chat in Hc by assumption.
    split.
    + intros answer w' Hcall. rewrite Hcall in Hc. inversion Hc. apply S.
    + intros m w' Hcall. rewrite Hcall in Hc. inversion Hc. apply S.
  - intros He Htool.
    rewrite SendFacts.compose_tool in Hc by assumption.
    inversion Hc. apply S.
Qed.

(** The text of the system message for the calendar task. *)
Lemma C8_witness :
  exists finalResponse w3,
    handleSend (Sample.answering Sample.lunch CommitOk)
               (Sample.idle "Schedule lunch Friday")
    = (Ret tt,
       persisted (Sample.answering Sample.lunch CommitOk)
         (submitted_batch (Sample.idle "Schedule lunch Friday") finalResponse
                          (JStr "calendar_tool"))
         w3)
    /\ finalResponse
       = "Intent Classified: **calendar_tool**. Tool: Calendar API. Summary: "
         ++ Str.dq ++ "lunch Friday" ++ Str.dq ++ "."
         ++ Str.nl ++ Str.nl
         ++ "**Tool Execution Mock:** The UI would now transition to the generated application form for Calendar API.".
Proof.
  destruct (C8_system_text_is_summary_then_continuation
              (Sample.answering Sample.lunch CommitOk)
              (Sample.idle "Schedule lunch Friday")
              (snd (Send.orchestrate (Sample.answering Sample.lunch CommitOk)
                                     "Schedule lunch Friday"
                                     (sending (Sample.idle "Schedule lunch Friday"))))
              Sample.lunch (JStr "calendar_tool") (JStr "Calendar API")
              (JStr "lunch Friday") eq_refl eq_refl eq_refl eq_refl)
    as (fr & w3 & Hs & _ & _ & _ & Hn).
  exists fr, w3. split; [exact Hs|]. exact (Hn eq_refl eq_refl).
Defined.

(** C9 fails on the code at a classifier reply without [arguments].  The
    submission "hello" passes the guard and sets the flag; line 329
    throws; the flag is still set afterwards, and a further call of
    [handleSend] is turned away by the guard and changes nothing. *)
Theorem C9_flag_stays_set_when_arguments_missing :
  Send.rejected (Sample.idle "hello") (Str.trim (newMessage (Sample.idle "hello")))
  = false
  /\ fst (handleSend (Sample.answering Sample.no_arguments CommitOk)
                     (Sample.idle "hello"))
     = Throw "Cannot read properties of undefined (reading 'query')"
  /\ isSending (snd (handleSend (Sample.answering Sample.no_arguments CommitOk)
                                (Sample.idle "hello")))
     = true
  /\ handleSend (Sample.answering Sample.no_arguments CommitOk)
       (snd (handleSend (Sample.answering Sample.no_arguments CommitOk)
                        (Sample.idle "hello")))
     = (Ret tt,
        snd (handleSend (Sample.answering Sample.no_arguments CommitOk)
                        (Sample.idle "hello"))).
Proof. repeat split. Qed.

(** C10.  The statement after the loop is unreachable in both call
    functions.  Whatever the network and the parser do, the [for] loop of
    [callGeminiOrchestrator] and that of [callGeminiResponseGenerator] are
    left by a [return] or a [throw] of their body, never through the loop
    condition, so that what either function gives is what its loop body
    returned or threw and the trailing "API Timeout" object and "timed
    out" string are never produced.  In particular, when all three
    attempts fail in a retryable way, both functions throw, and they do so
    after their third request. *)
Theorem C10_post_loop_fallback_unreachable
        (env : Env) (userQuery : string) (intent : Js) (w : World) :
  fst (Orchestrator.run_loop env userQuery w) <> Fallthrough
  /\ fst (Responder.run_loop env userQuery intent w) <> Fallthrough
  /\ ((exists a w1, Orchestrator.run_loop env userQuery w = (Returned a, w1)
                    /\ callGeminiOrchestrator env userQuery w = (Ret a, w1))
      \/ (exists m w1, Orchestrator.run_loop env userQuery w = (Thrown m, w1)
                       /\ callGeminiOrchestrator env userQuery w = (Throw m, w1)))
  /\ ((exists a w1, Responder.run_loop env userQuery intent
                                        (emit (EvCallResponder userQuery intent) w)
                      = (Returned a, w1)
                    /\ callGeminiResponseGenerator env userQuery intent w = (Ret a, w1))
      \/ (exists m w1, Responder.run_loop env userQuery intent
                                           (emit (EvCallResponder userQuery intent) w)
                         = (Thrown m, w1)
                       /\ callGeminiResponseGenerator env userQuery intent w
                          = (Throw m, w1)))
  /\ ((forall k, k < MAX_RETRIES ->
                 retryable_failure (net env (fetched w + k)) = true) ->
      (exists m w1, callGeminiOrchestrator env userQuery w = (Throw m, w1)
                    /\ fetched w1 = fetched w + MAX_RETRIES)
      /\ (exists m w1, callGeminiResponseGenerator env userQuery intent w = (Throw m, w1)
                       /\ fetched w1 = fetched w + MAX_RETRIES)).
Proof.
  assert (O : fst (Orchestrator.run_loop env userQuery w) <> Fallthrough).
  { apply loop_no_fallthrough; unfold MAX_RETRIES; lia. }
  repeat split.
  - exact O.
  - apply loop_no_fallthrough; unfold MAX_RETRIES; lia.
  - unfold callGeminiOrchestrator, with_fallback.
    fold (Orchestrator.run_loop env userQuery).
    destruct (Orchestrator.run_loop env userQuery w) as [[a|m|] w1]; simpl in O.
    + left. eauto.
    + right. eauto.
    + congruence.
  - assert (R : fst (Responder.run_loop env userQuery intent
                       (emit (EvCallResponder userQuery intent) w)) <> Fallthrough).
    { apply loop_no_fallthrough; unfold MAX_RETRIES; lia. }
    unfold callGeminiResponseGenerator, bind, lift, with_fallback.
    fold (Responder.run_loop env userQuery intent).
    destruct (Responder.run_loop env userQuery intent
                (emit (EvCallResponder userQuery intent) w)) as [[a|m|] w1];
      simpl in R.
    + left. eauto.
    + right. eauto.
    + congruence.
  - destruct (three_retryable_failures_throw env Js "Orchestrator"
                (Orchestrator.payload userQuery) (Orchestrator.on_ok env)
                Orchestrator.fatal_label Orchestrator.rethrow w H) as [m Hm].
    unfold callGeminiOrchestrator, with_fallback. rewrite Hm.
    eexists _, _. split; [reflexivity|]. simpl. unfold MAX_RETRIES. lia.
  - destruct (three_retryable_failures_throw env string "Response Generator"
                (Responder.payload userQuery intent) Responder.on_ok
                Responder.fatal_label Responder.rethrow
                (emit (EvCallResponder userQuery intent) w) H) as [m Hm].
    unfold callGeminiResponseGenerator, bind, lift, with_fallback. rewrite Hm.
    eexists _, _. split; [reflexivity|]. simpl. unfold MAX_RETRIES. lia.
Qed.

(** Three responses of status 503: both calls throw after three requests. *)
Lemma C10_witness :
  (exists m w1,
      callGeminiOrchestrator (Sample.status_only 503) "hi" (Sample.idle "hi")
      = (Throw m, w1)
      /\ fetched w1 = fetched (Sample.idle "hi") + MAX_RETRIES)
  /\ (exists m w1,
         callGeminiResponseGenerator (Sample.status_only 503) "hi" (JStr "general_chat")
                                     (Sample.idle "hi")
         = (Throw m, w1)
         /\ fetched w1 = fetched (Sample.idle "hi") + MAX_RETRIES).
Proof.
  apply (C10_post_loop_fallback_unreachable
           (Sample.status_only 503) "hi" (JStr "general_chat") (Sample.idle "hi")).
  intros k _. reflexivity.
Defined.

(** * Further properties of the code *)

(** ** The schedule of the retry loop *)

Section Schedule.

Variable env : Env.
Variable A : Type.
Variable maxRetries : nat.
Variable api : string.
Variable payload : Request.
Variable on_ok : Js -> M A.
Variable fatal_label : string.
Variable rethrow : string -> string.

Hypothesis on_ok_quiet : forall result w, quiet w (snd (on_ok result w)).

Lemma sleeps_app (t u : list Event) :
  sleeps (t ++ u) = (sleeps t ++ sleeps u)%list.
Proof.
  induction t as [|e t IH]; simpl; [reflexivity|].
  destruct e; simpl; rewrite IH; reflexivity.
Qed.

(** One pass through the loop body: one request; a wait of [delay], and
    the doubled delay, exactly when the pass ends in [continue]. *)
Lemma iteration_schedule (i : nat) (delay : Z) (w : World) :
  fetched (snd (iteration env A maxRetries api payload on_ok fatal_label rethrow
                          i delay w))
  = S (fetched w)
  /\ match fst (iteration env A maxRetries api payload on_ok fatal_label rethrow
                          i delay w) with
     | CContinue delay' =>
         delay' = (delay * 2)%Z
         /\ sleeps (trace (snd (iteration env A maxRetries api payload on_ok
                                          fatal_label rethrow i delay w)))
            = (sleeps (trace w) ++ [delay])%list
     | _ =>
         sleeps (trace (snd (iteration env A maxRetries api payload on_ok
                                       fatal_label rethrow i delay w)))
         = sleeps (trace w)
     end.
Proof.
  unfold iteration, try_block, Effect.fetch.
  destruct (net env (fetched w)) as [m|status body].
  - destruct ((i <? maxRetries - 1)%nat && connectivity_message m); simpl;
      rewrite !sleeps_app; simpl; rewrite ?app_nil_r; auto.
  - destruct (response_ok status).
    + destruct body as [m|result].
      * destruct ((i <? maxRetries - 1)%nat && connectivity_message m); simpl;
          rewrite !sleeps_app; simpl; rewrite ?app_nil_r; auto.
      * match goal with
        | |- context [on_ok result ?w1] =>
            destruct (on_ok_quiet result w1) as [Hf Hs];
            destruct (on_ok result w1) as [[a|m] w2]
        end; simpl in Hf, Hs.
        -- simpl. rewrite Hf, Hs, sleeps_app. simpl. rewrite app_nil_r. auto.
        -- destruct ((i <? maxRetries - 1)%nat && connectivity_message m); simpl;
             rewrite ?sleeps_app, Hf, Hs, ?sleeps_app; simpl; rewrite ?app_nil_r; auto.
    + destruct (retryable_status status).
      * destruct (i <? maxRetries - 1)%nat; simpl.
        -- rewrite !sleeps_app; simpl; rewrite ?app_nil_r; auto.
        -- rewrite !sleeps_app; simpl; rewrite ?app_nil_r; auto.
      * match goal with
        | |- context [if ?b then _ else _] => destruct b
        end; simpl; rewrite !sleeps_app; simpl; rewrite ?app_nil_r; auto.
Qed.

(** The whole loop: between one and [remaining] requests, and between
    them the waits of the backoff, one fewer than the requests. *)
Lemma loop_schedule (remaining i : nat) (delay : Z) (w : World) :
  remaining + i = maxRetries -> 0 < remaining ->
  exists n,
    1 <= n <= remaining
    /\ fetched (snd (loop env A maxRetries api payload on_ok fatal_label rethrow
                          remaining i delay w))
       = fetched w + n
    /\ sleeps (trace (snd (loop env A maxRetries api payload on_ok fatal_label rethrow
                                remaining i delay w)))
       = (sleeps (trace w) ++ backoff delay (n - 1))%list.
Proof.
  revert i delay w.
  induction remaining as [|r IH]; intros i delay w Hsum Hpos; [lia|].
  simpl.
  pose proof (iteration_schedule i delay w) as [Hf Hs].
  destruct (iteration env A maxRetries api payload on_ok fatal_label rethrow
                      i delay w) as [[a|delay'|m] w1] eqn:E; simpl in Hf, Hs.
  - exists 1. simpl. rewrite app_nil_r. repeat split; try lia. exact Hs.
  - destruct Hs as [-> Hs].
    apply continue_not_last in E. apply Nat.ltb_lt in E.
    destruct (IH (S i) (delay * 2)%Z w1) as (n & Hn & Hfn & Hsn); [lia|lia|].
    exists (S n). split; [lia|]. split; [lia|].
    rewrite Hsn, Hs, <- app_assoc. simpl.
    replace (n - 0) with (S (n - 1)) by lia. reflexivity.
  - exists 1. simpl. rewrite app_nil_r. repeat split; try lia. exact Hs.
Qed.

End Schedule.

Lemma schedule_of_three (w w' : World) :
  (exists n,
      1 <= n <= MAX_RETRIES
      /\ fetched w' = fetched w + n
      /\ sleeps (trace w') = (sleeps (trace w) ++ backoff 1000 (n - 1))%list) ->
  three_attempt_schedule w w'.
Proof.
  unfold MAX_RETRIES. intros (n & Hn & Hf & Hs).
  assert (C : n = 1 \/ n = 2 \/ n = 3) by lia.
  destruct C as [->|[->| ->]]; simpl in Hs.
  - left. rewrite app_nil_r in Hs. auto.
  - right. left. auto.
  - right. right. auto.
Qed.

Lemma orchestrator_on_ok_quiet (env : Env) (result : Js) (w : World) :
  quiet w (snd (Orchestrator.on_ok env result w)).
Proof.
  unfold Orchestrator.on_ok, quiet.
  destruct (candidate_text result) as [m|jsonText]; [split; reflexivity|].
  destruct (truthy jsonText).
  - destruct (ToString jsonText) as [m|text]; [split; reflexivity|].
    destruct (JSON_parse env text); split; reflexivity.
  - simpl. rewrite sleeps_app. simpl. rewrite app_nil_r. split; reflexivity.
Qed.

(** Each call keeps the schedule. *)
Lemma orchestrator_schedule (env : Env) (userQuery : string) (w : World) :
  three_attempt_schedule w (snd (callGeminiOrchestrator env userQuery w)).
Proof.
  apply schedule_of_three.
  unfold callGeminiOrchestrator. rewrite CallFacts.with_fallback_world.
  apply loop_schedule; [|unfold MAX_RETRIES; lia..].
  apply orchestrator_on_ok_quiet.
Qed.

Lemma responder_schedule (env : Env) (userQuery : string) (intent : Js) (w : World) :
  three_attempt_schedule w (snd (callGeminiResponseGenerator env userQuery intent w)).
Proof.
  apply schedule_of_three.
  unfold callGeminiResponseGenerator, bind, lift.
  rewrite CallFacts.with_fallback_world.
  destruct (loop_schedule env string MAX_RETRIES "Response Generator"
              (Responder.payload userQuery intent) Responder.on_ok
              Responder.fatal_label Responder.rethrow
              (fun result w0 =>
                 eq_ind_r (fun x => quiet w0 x) (conj eq_refl eq_refl)
                          (CallFacts.responder_on_ok_world result w0))
              MAX_RETRIES 0 1000%Z (emit (EvCallResponder userQuery intent) w)
              ltac:(lia) ltac:(unfold MAX_RETRIES; lia))
    as (n & Hn & Hf & Hs).
  exists n. split; [exact Hn|]. split; [exact Hf|].
  unfold retry_loop. rewrite Hs. simpl. rewrite sleeps_app. simpl.
  now rewrite app_nil_r.
Qed.

(** The same with the order of requests and waits. *)
Section Timeline.

Variable env : Env.
Variable A : Type.
Variable maxRetries : nat.
Variable api : string.
Variable payload : Request.
Variable on_ok : Js -> M A.
Variable fatal_label : string.
Variable rethrow : string -> string.

Hypothesis on_ok_silent :
  forall result w, timeline (trace (snd (on_ok result w))) = timeline (trace w).

Lemma timeline_app (t u : list Event) :
  timeline (t ++ u) = (timeline t ++ timeline u)%list.
Proof.
  induction t as [|e t IH]; simpl; [reflexivity|].
  destruct e; simpl; rewrite IH; reflexivity.
Qed.

(** One pass through the loop body: a request, and after it a wait of
    [delay] exactly when the pass ends in [continue]. *)
Lemma iteration_timeline (i : nat) (delay : Z) (w : World) :
  match fst (iteration env A maxRetries api payload on_ok fatal_label rethrow
                       i delay w) with
  | CContinue delay' =>
      delay' = (delay * 2)%Z
      /\ timeline (trace (snd (iteration env A maxRetries api payload on_ok
                                         fatal_label rethrow i delay w)))
         = (timeline (trace w) ++ [Sent; Waited delay])%list
  | _ =>
      timeline (trace (snd (iteration env A maxRetries api payload on_ok
                                      fatal_label rethrow i delay w)))
      = (timeline (trace w) ++ [Sent])%list
  end.
Proof.
  unfold iteration, try_block, Effect.fetch.
  destruct (net env (fetched w)) as [m|status body].
  - destruct ((i <? maxRetries - 1)%nat && connectivity_message m); simpl;
      rewrite !timeline_app; simpl; rewrite <- ?app_assoc; auto.
  - destruct (response_ok status).
    + destruct body as [m|result].
      * destruct ((i <? maxRetries - 1)%nat && connectivity_message m); simpl;
          rewrite !timeline_app; simpl; rewrite <- ?app_assoc; auto.
      * match goal with
        | |- context [on_ok result ?w1] =>
            pose proof (on_ok_silent result w1) as Hs;
            destruct (on_ok result w1) as [[a|m] w2]
        end; simpl in Hs.
        -- simpl. rewrite Hs, timeline_app. reflexivity.
        -- destruct ((i <? maxRetries - 1)%nat && connectivity_message m); simpl;
             rewrite ?timeline_app, Hs, ?timeline_app; simpl;
             rewrite <- ?app_assoc; auto.
    + destruct (retryable_status status).
      * destruct (i <? maxRetries - 1)%nat; simpl;
          rewrite !timeline_app; simpl; rewrite <- ?app_assoc; auto.
      * match goal with
        | |- context [if ?b then _ else _] => destruct b
        end; simpl; rewrite !timeline_app; simpl; rewrite <- ?app_assoc; auto.
Qed.

(** The whole loop: a request, then as many times a wait and a request
    as the loop retried, the waits doubling from [delay]. *)
Lemma loop_timeline (remaining i : nat) (delay : Z) (w : World) :
  remaining + i = maxRetries -> 0 < remaining ->
  exists n,
    n < remaining
    /\ timeline (trace (snd (loop env A maxRetries api payload on_ok fatal_label
                                   rethrow remaining i delay w)))
       = (timeline (trace w) ++ Sent :: retries delay n)%list.
Proof.
  revert i delay w.
  induction remaining as [|r IH]; intros i delay w Hsum Hpos; [lia|].
  simpl.
  pose proof (iteration_timeline i delay w) as Ht.
  destruct (iteration env A maxRetries api payload on_ok fatal_label rethrow
                      i delay w) as [[a|delay'|m] w1] eqn:E; simpl in Ht.
  - exists 0. split; [lia | exact Ht].
  - destruct Ht as [-> Ht].
    apply continue_not_last in E. apply Nat.ltb_lt in E.
    destruct (IH (S i) (delay * 2)%Z w1) as (n & Hn & Htn); [lia|lia|].
    exists (S n). split; [lia|].
    rewrite Htn, Ht, <- app_assoc. reflexivity.
  - exists 0. split; [lia | exact Ht].
Qed.

End Timeline.

Lemma timeline_of_three (n : nat) :
  n < MAX_RETRIES -> three_attempt_timeline (Sent :: retries 1000 n).
Proof.
  unfold MAX_RETRIES. intros Hn.
  assert (C : n = 0 \/ n = 1 \/ n = 2) by lia.
  destruct C as [->|[->| ->]].
  - left. reflexivity.
  - right. left. reflexivity.
  - right. right. reflexivity.
Qed.

Lemma orchestrator_on_ok_silent (env : Env) (result : Js) (w : World) :
  timeline (trace (snd (Orchestrator.on_ok env result w))) = timeline (trace w).
Proof.
  unfold Orchestrator.on_ok.
  destruct (candidate_text result) as [m|jsonText]; [reflexivity|].
  destruct (truthy jsonText).
  - destruct (ToString jsonText) as [m|text]; [reflexivity|].
    destruct (JSON_parse env text); reflexivity.
  - simpl. rewrite timeline_app. simpl. now rewrite app_nil_r.
Qed.

(** X1.  The backoff schedule.  Whatever the network does, what a call of
    [callGeminiOrchestrator] and a call of [callGeminiResponseGenerator]
    add to the record of requests and waits is, in this order: a request;
    or a request, a wait of 1000 ms and a second request; or these
    followed by a wait of 2000 ms and a third request.  So every wait
    stands between two requests of the call, and the call neither waits
    before its first request nor after its last. *)
Theorem X1_backoff_schedule
        (env : Env) (userQuery : string) (intent : Js) (w : World) :
  (exists evs,
      trace (snd (callGeminiOrchestrator env userQuery w)) = (trace w ++ evs)%list
      /\ three_attempt_timeline (timeline evs))
  /\ (exists evs,
         trace (snd (callGeminiResponseGenerator env userQuery intent w))
         = (trace w ++ evs)%list
         /\ three_attempt_timeline (timeline evs)).
Proof.
  split.
  - destruct (CallFacts.orchestrator_frame env userQuery w) as [[evs [T _]] _].
    exists evs. split; [exact T|].
    destruct (loop_timeline env Js MAX_RETRIES "Orchestrator"
                (Orchestrator.payload userQuery) (Orchestrator.on_ok env)
                Orchestrator.fatal_label Orchestrator.rethrow
                (orchestrator_on_ok_silent env)
                MAX_RETRIES 0 1000%Z w eq_refl ltac:(unfold MAX_RETRIES; lia))
      as (n & Hn & Ht).
    unfold callGeminiOrchestrator in T. rewrite CallFacts.with_fallback_world in T.
    unfold retry_loop in T. rewrite T, timeline_app in Ht.
    apply app_inv_head in Ht. rewrite Ht. now apply timeline_of_three.
  - destruct (loop_timeline env string MAX_RETRIES "Response Generator"
                (Responder.payload userQuery intent) Responder.on_ok
                Responder.fatal_label Responder.rethrow
                (fun result w0 =>
                   f_equal (fun x => timeline (trace x))
                           (CallFacts.responder_on_ok_world result w0))
                MAX_RETRIES 0 1000%Z (emit (EvCallResponder userQuery intent) w)
                eq_refl ltac:(unfold MAX_RETRIES; lia))
      as (n & Hn & Ht).
    destruct (loop_frame env string MAX_RETRIES "Response Generator"
                (Responder.payload userQuery intent) Responder.on_ok
                Responder.fatal_label Responder.rethrow
                (fun result w0 =>
                   eq_ind_r (fun x => extends_by _ w0 x) (Frame.refl _ w0)
                            (CallFacts.responder_on_ok_world result w0))
                MAX_RETRIES 0 1000%Z (emit (EvCallResponder userQuery intent) w))
      as [[evs [T _]] _].
    exists (EvCallResponder userQuery intent :: evs).
    unfold callGeminiResponseGenerator, bind, lift.
    rewrite CallFacts.with_fallback_world. unfold retry_loop.
    split.
    + rewrite T. simpl. now rewrite <- app_assoc.
    + rewrite T in Ht. simpl in Ht.
      rewrite !timeline_app in Ht. simpl in Ht.
      rewrite app_nil_r in Ht. apply app_inv_head in Ht.
      simpl. rewrite Ht. now apply timeline_of_three.
Qed.

(** ** Rejected requests *)

Section Rejection.

Variable env : Env.
Variable A : Type.
Variable maxRetries : nat.
Variable api : string.
Variable payload : Request.
Variable on_ok : Js -> M A.
Variable fatal_label : string.
Variable rethrow : string -> string.

(** A [fetch] that is rejected with a message that names no connectivity
    failure ends the loop in the iteration that meets it. *)
Lemma rejected_fetch_throws (r i : nat) (delay : Z) (w : World) (m : string) :
  net env (fetched w) = FetchRejected m ->
  connectivity_message m = false ->
  loop env A maxRetries api payload on_ok fatal_label rethrow (S r) i delay w
  = (Thrown (rethrow m), console_error fatal_label (snd (fetch env payload w))).
Proof.
  intros Hnet Hm. simpl. unfold iteration, try_block, Effect.fetch.
  rewrite Hnet, Hm, andb_false_r. reflexivity.
Qed.

(** So does a success status whose body is not JSON. *)
Lemma rejected_body_throws (r i : nat) (delay : Z) (w : World)
      (status : N) (m : string) :
  net env (fetched w) = Response status (BodyRejected m) ->
  response_ok status = true ->
  connectivity_message m = false ->
  loop env A maxRetries api payload on_ok fatal_label rethrow (S r) i delay w
  = (Thrown (rethrow m), console_error fatal_label (snd (fetch env payload w))).
Proof.
  intros Hnet Hok Hm. simpl. unfold iteration, try_block, Effect.fetch.
  rewrite Hnet, Hok, Hm, andb_false_r. reflexivity.
Qed.

End Rejection.

(** X2.  Failures of the request itself that are not retried.  When the
    first [fetch] is rejected, or its 2xx response has a body that is not
    JSON, with an error message that contains neither "Failed to fetch"
    nor "NetworkError", both calls throw at once, after that one request
    and without waiting: the classifier call throws the message itself
    ("Unknown API error." when the message is empty), the responder call
    throws "Response Generator failed: " followed by the message. *)
Theorem X2_other_request_errors_not_retried
        (env : Env) (userQuery : string) (intent : Js) (w : World) (m : string) :
  net env (fetched w) = FetchRejected m
  \/ (exists status,
         net env (fetched w) = Response status (BodyRejected m)
         /\ response_ok status = true) ->
  connectivity_message m = false ->
  callGeminiOrchestrator env userQuery w
  = (Throw (if Str.is_empty m then "Unknown API error." else m),
     console_error Orchestrator.fatal_label
       (snd (fetch env (Orchestrator.payload userQuery) w)))
  /\ callGeminiResponseGenerator env userQuery intent w
     = (Throw ("Response Generator failed: " ++ m),
        console_error Responder.fatal_label
          (snd (fetch env (Responder.payload userQuery intent)
                      (emit (EvCallResponder userQuery intent) w)))).
Proof.
  intros Hnet Hm. split.
  - unfold callGeminiOrchestrator, with_fallback, retry_loop, MAX_RETRIES.
    destruct Hnet as [Hnet|(status & Hnet & Hok)].
    + erewrite rejected_fetch_throws by eassumption. reflexivity.
    + erewrite rejected_body_throws by eassumption. reflexivity.
  - unfold callGeminiResponseGenerator, bind, lift, with_fallback, retry_loop,
      MAX_RETRIES.
    destruct Hnet as [Hnet|(status & Hnet & Hok)].
    + erewrite rejected_fetch_throws by (simpl; eassumption). reflexivity.
    + erewrite rejected_body_throws by (simpl; eassumption). reflexivity.
Qed.

Lemma X2_witness :
  callGeminiOrchestrator
    (Sample.always (FetchRejected "Load failed") (ParseError "unused")) "hi"
    (Sample.idle "hi")
  = (Throw "Load failed",
     console_error Orchestrator.fatal_label
       (snd (fetch (Sample.always (FetchRejected "Load failed") (ParseError "unused"))
                   (Orchestrator.payload "hi") (Sample.idle "hi")))).
Proof.
  apply (X2_other_request_errors_not_retried
           (Sample.always (FetchRejected "Load failed") (ParseError "unused"))
           "hi" (JStr "general_chat") (Sample.idle "hi") "Load failed").
  - left. reflexivity.
  - reflexivity.
Defined.

(** ** A broken attribution *)

Lemma map_pick_nullish (attrs : list Js) :
  existsb nullish attrs = true ->
  exists v,
    nullish v = true /\ In v attrs
    /\ Responder.map_pick attrs = inl (cannot_read v "web").
Proof.
  induction attrs as [|a attrs IH]; simpl; intros H; [discriminate H|].
  unfold Responder.pick at 1.
  destruct (nullish a) eqn:Na.
  - exists a. auto.
  - simpl in H. destruct (IH H) as (v & Nv & Iv & Hv).
    exists v. rewrite Hv. auto.
Qed.

(** X3.  One bad attribution costs the whole answer.  When an OK response
    of the responder has a body text and lists grounding attributions of
    which one is [null], the call does not return the text: reading [web]
    of that entry throws inside [map], the error is not retried, and the
    call throws "Response Generator failed: Cannot read properties of
    null (reading 'web')". *)
Theorem X3_null_attribution_discards_answer
        (env : Env) (userQuery : string) (intent : Js) (w : World)
        (status : N) (result text candidate : Js) (attrs : list Js) :
  net env (fetched w) = Response status (BodyJson result) ->
  response_ok status = true ->
  candidate_text result = inr text ->
  truthy text = true ->
  first_candidate result = inr candidate ->
  prop "groundingAttributions" (opt_prop "groundingMetadata" candidate) = JArr attrs ->
  existsb nullish attrs = true ->
  exists v,
    nullish v = true /\ In v attrs
    /\ callGeminiResponseGenerator env userQuery intent w
       = (Throw ("Response Generator failed: Cannot read properties of "
                 ++ toStr v ++ " (reading 'web')"),
          console_error Responder.fatal_label
            (snd (fetch env (Responder.payload userQuery intent)
                        (emit (EvCallResponder userQuery intent) w)))).
Proof.
  intros Hnet Hok Htext Htruthy Hcand Hattrs Hnull.
  destruct (map_pick_nullish attrs Hnull) as (v & Nv & Iv & Hv).
  exists v. split; [exact Nv|]. split; [exact Iv|].
  assert (Hgm : truthy (opt_prop "groundingMetadata" candidate) = true).
  { destruct (opt_prop "groundingMetadata" candidate); simpl in Hattrs;
      try discriminate Hattrs; reflexivity. }
  unfold callGeminiResponseGenerator, bind, lift, with_fallback, retry_loop,
    MAX_RETRIES.
  erewrite ok_response_throws with (m := cannot_read v "web");
    [reflexivity | exact Hnet | exact Hok | |].
  - unfold Responder.on_ok. rewrite Htext, Htruthy, Hcand.
    unfold Responder.citations_of. rewrite Hgm, Hattrs. simpl.
    rewrite Hv. reflexivity.
  - destruct v; try discriminate Nv; reflexivity.
Qed.

Lemma X3_witness :
  exists v,
    nullish v = true /\ In v [Citations.encode Sample.A_; JNull]
    /\ callGeminiResponseGenerator
         (Sample.always
            (Response 200
               (BodyJson (Sample.reply (JStr "T")
                            (Sample.grounding
                               (JArr [Citations.encode Sample.A_; JNull])))))
            (ParseError "unused"))
         "q" (JStr "gemini_response") (Sample.idle "q")
       = (Throw ("Response Generator failed: Cannot read properties of "
                 ++ toStr v ++ " (reading 'web')"),
          console_error Responder.fatal_label
            (snd (fetch
                    (Sample.always
                       (Response 200
                          (BodyJson (Sample.reply (JStr "T")
                                       (Sample.grounding
                                          (JArr [Citations.encode Sample.A_; JNull])))))
                       (ParseError "unused"))
                    (Responder.payload "q" (JStr "gemini_response"))
                    (emit (EvCallResponder "q" (JStr "gemini_response"))
                          (Sample.idle "q"))))).
Proof.
  apply (X3_null_attribution_discards_answer
           (Sample.always
              (Response 200
                 (BodyJson (Sample.reply (JStr "T")
                              (Sample.grounding
                                 (JArr [Citations.encode Sample.A_; JNull])))))
              (ParseError "unused"))
           "q" (JStr "gemini_response") (Sample.idle "q") 200
           (Sample.reply (JStr "T")
              (Sample.grounding (JArr [Citations.encode Sample.A_; JNull])))
           (JStr "T")
           (JObj (("content", JObj [("parts", JArr [JObj [("text", JStr "T")]])])
                  :: Sample.grounding (JArr [Citations.encode Sample.A_; JNull])))
           [Citations.encode Sample.A_; JNull]); reflexivity.
Defined.

(** ** Submissions *)

Lemma trim_start_spaces (s : string) :
  forallb Str.is_space (Str.chars s) = true -> Str.trim_start s = "".
Proof.
  induction s as [|c s IH]; simpl; intros H; [reflexivity|].
  apply andb_prop in H as [Hc Hs]. rewrite Hc. now apply IH.
Qed.

Lemma trim_spaces (s : string) :
  forallb Str.is_space (Str.chars s) = true -> Str.trim s = "".
Proof. intros H. unfold Str.trim. rewrite (trim_start_spaces s H). reflexivity. Qed.

(** X4.  The guard.  [handleSend] does nothing at all (no request, no
    write, no change of the component state, the input box included) when
    there is no database handle, when no user is signed in, when the input
    is empty or consists of white space only (spaces, no-break spaces,
    tabulators, line terminators), or when a submission is in flight. *)
Theorem X4_guard_turns_submission_away (env : Env) (w : World) :
  db w = false
  \/ userId w = None
  \/ userId w = Some ""
  \/ forallb Str.is_space (Str.chars (newMessage w)) = true
  \/ isSending w = true ->
  handleSend env w = (Ret tt, w).
Proof.
  intros H. unfold handleSend.
  assert (G : Send.rejected w (Str.trim (newMessage w)) = true).
  { unfold Send.rejected.
    destruct H as [H|[H|[H|[H|H]]]].
    - now rewrite H.
    - rewrite H. simpl. now rewrite orb_true_r.
    - rewrite H. simpl. now rewrite orb_true_r.
    - rewrite (trim_spaces _ H). simpl. now rewrite orb_true_r.
    - rewrite H. now rewrite !orb_true_r. }
  now rewrite G.
Qed.

Lemma X4_witness :
  handleSend Sample.silent (Sample.idle Sample.blank)
  = (Ret tt, Sample.idle Sample.blank).
Proof.
  apply (X4_guard_turns_submission_away Sample.silent (Sample.idle Sample.blank)).
  right. right. right. left. reflexivity.
Defined.

(** X5.  Intents the code does not know.  Take a submission that passes
    the guard and whose classification has, as intent, a string other than
    "error", "general_chat" and "gemini_response" (one of the three tool
    tags or any unlisted tag), and a tool name and a summary that convert
    to strings.  The submission is treated as a tool request: no responder
    call and no further request is made, the system message is the
    orchestration summary followed by the "Tool Execution Mock" sentence,
    and its type is the intent as the model gave it. *)
Theorem X5_unlisted_intent_is_mocked
        (env : Env) (w w2 : World) (r tool q : Js) (tag : string) :
  Send.rejected w (Str.trim (newMessage w)) = false ->
  Send.orchestrate env (Str.trim (newMessage w)) (sending w) = (Ret r, w2) ->
  Send.destructure r w2 = (Ret (JStr tag, tool, q), w2) ->
  converts tool = true -> converts q = true ->
  tag <> "error" -> tag <> "general_chat" -> tag <> "gemini_response" ->
  handleSend env w
  = (Ret tt,
     persisted env
       (submitted_batch w
          (Send.orchestrationSummary (JStr tag) tool q ++ Send.mock_continuation tool)
          (JStr tag))
       w2)
  /\ map msg_type
         (submitted_batch w
            (Send.orchestrationSummary (JStr tag) tool q ++ Send.mock_continuation tool)
            (JStr tag))
     = [JStr "user_query"; JStr tag].
Proof.
  intros Hguard Horch Hd Ct Cq He Hg Hr.
  assert (S : Send.summarizable (JStr tag) tool q = true).
  { unfold Send.summarizable. now rewrite Ct, Cq. }
  destruct (SendFacts.handleSend_completes env w w2 r (JStr tag) tool q
              Hguard Horch Hd S)
    as (fr & w3 & Hc & Hs).
  rewrite SendFacts.compose_tool in Hc.
  - inversion Hc; subst. split; [exact Hs | reflexivity].
  - exact S.
  - simpl. now apply String.eqb_neq.
  - simpl. apply orb_false_iff. split; now apply String.eqb_neq.
Qed.

Lemma X5_witness :
  handleSend (Sample.answering unlisted CommitOk) (Sample.idle "Will it rain?")
  = (Ret tt,
     persisted (Sample.answering unlisted CommitOk)
       (submitted_batch (Sample.idle "Will it rain?")
          (Send.orchestrationSummary (JStr "weather_tool") (JStr "Weather API")
                                     (JStr "rain tomorrow")
           ++ Send.mock_continuation (JStr "Weather API"))
          (JStr "weather_tool"))
       (snd (Send.orchestrate (Sample.answering unlisted CommitOk) "Will it rain?"
                              (sending (Sample.idle "Will it rain?")))))
  /\ map msg_type
         (submitted_batch (Sample.idle "Will it rain?")
            (Send.orchestrationSummary (JStr "weather_tool") (JStr "Weather API")
                                       (JStr "rain tomorrow")
             ++ Send.mock_continuation (JStr "Weather API"))
            (JStr "weather_tool"))
     = [JStr "user_query"; JStr "weather_tool"].
Proof.
  apply (X5_unlisted_intent_is_mocked
           (Sample.answering unlisted CommitOk) (Sample.idle "Will it rain?")
           (snd (Send.orchestrate (Sample.answering unlisted CommitOk) "Will it rain?"
                                  (sending (Sample.idle "Will it rain?"))))
           unlisted (JStr "Weather API") (JStr "rain tomorrow") "weather_tool");
    (reflexivity || discriminate).
Defined.

Lemma count_commits_app (t u : list Event) :
  count_commits (t ++ u) = count_commits t + count_commits u.
Proof. unfold count_commits. now rewrite filter_app, length_app. Qed.

Lemma responder_events_no_commit (userQuery : string) (intent : Js) (evs : list Event) :
  Forall (responder_event userQuery intent) evs -> count_commits evs = 0.
Proof.
  induction 1 as [|e evs He _ IH]; [reflexivity|].
  unfold count_commits in *. simpl.
  destruct He as [->|[->|[[ms ->]|[l ->]]]]; exact IH.
Qed.

Lemma loop_events_no_commit (payload : Request) (evs : list Event) :
  Forall (loop_event payload) evs -> count_commits evs = 0.
Proof.
  induction 1 as [|e evs He _ IH]; [reflexivity|].
  unfold count_commits in *. simpl.
  destruct He as [->|[[ms ->]|[l ->]]]; exact IH.
Qed.

Lemma persisted_commits (env : Env) (batch : list ChatRecord) (w : World) :
  count_commits (trace (persisted env batch w)) = count_commits (trace w) + 1.
Proof.
  unfold persisted, Send.settle.
  destruct (commit env); simpl; unfold count_commits;
    rewrite !filter_app, !length_app; simpl; lia.
Qed.

(** X6.  A completed submission.  Take a submission that passes the guard
    and whose classification is destructured at line 329 into values that
    convert to strings at line 333.  Then
    [handleSend] is fulfilled, has committed exactly one batch, has emptied
    the input box and has released the flag, whether the commit was
    accepted or rejected.  An accepted commit adds the user message and
    the system message to the collection, in this order, and leaves no
    error; a rejected commit adds nothing and sets the error to "Failed to
    send message: " followed by the reason. *)
Theorem X6_completed_submission_commits_once
        (env : Env) (w w2 : World) (r intent tool q : Js) :
  Send.rejected w (Str.trim (newMessage w)) = false ->
  Send.orchestrate env (Str.trim (newMessage w)) (sending w) = (Ret r, w2) ->
  Send.destructure r w2 = (Ret (intent, tool, q), w2) ->
  Send.summarizable intent tool q = true ->
  exists finalResponse,
    fst (handleSend env w) = Ret tt
    /\ count_commits (trace (snd (handleSend env w))) = count_commits (trace w) + 1
    /\ isSending (snd (handleSend env w)) = false
    /\ newMessage (snd (handleSend env w)) = ""
    /\ match commit env with
       | CommitOk =>
           collection (snd (handleSend env w))
           = (collection w ++ submitted_batch w finalResponse intent)%list
           /\ error (snd (handleSend env w)) = None
       | CommitRejected m =>
           collection (snd (handleSend env w)) = collection w
           /\ error (snd (handleSend env w)) = Some ("Failed to send message: " ++ m)
       end.
Proof.
  intros Hguard Horch Hd S.
  destruct (completed_submission_settles env w w2 r intent tool q Hguard Horch Hd S)
    as (fr & w3 & Hs & _ & _ & Hflag & Hbox & Hcol).
  exists fr. split; [now rewrite Hs|]. split; [|now repeat split].
  destruct (SendFacts.handleSend_completes env w w2 r intent tool q Hguard Horch Hd S)
    as (fr' & w3' & Hc & Hs').
  rewrite Hs'. simpl. rewrite persisted_commits. f_equal.
  assert (H2 : count_commits (trace w2) = count_commits (trace w)).
  { destruct (SendFacts.orchestrate_returns env (Str.trim (newMessage w)) (sending w))
      as [r' Hr'].
    rewrite Horch in Hr'. inversion Hr' as [[Er Ew]].
    destruct (CallFacts.orchestrator_frame env (Str.trim (newMessage w)) (sending w))
      as [[evs [T F]] _].
    rewrite T, count_commits_app, (loop_events_no_commit _ _ F).
    change (trace (sending w)) with (trace w). lia. }
  pose proof (SendFacts.compose_frame env (Str.trim (newMessage w)) intent tool q w2)
    as [[evs [T F]] _].
  rewrite Hc in T. simpl in T.
  rewrite T, count_commits_app, (responder_events_no_commit _ _ _ F). lia.
Qed.

Lemma X6_witness :
    fst (handleSend (Sample.answering Sample.lunch (CommitRejected "permission-denied"))
                    (Sample.idle "Schedule lunch Friday"))
    = Ret tt
    /\ count_commits
         (trace (snd (handleSend
                        (Sample.answering Sample.lunch (CommitRejected "permission-denied"))
                        (Sample.idle "Schedule lunch Friday"))))
       = count_commits (trace (Sample.idle "Schedule lunch Friday")) + 1
    /\ isSending
         (snd (handleSend
                 (Sample.answering Sample.lunch (CommitRejected "permission-denied"))
                 (Sample.idle "Schedule lunch Friday")))
       = false
    /\ newMessage
         (snd (handleSend
                 (Sample.answering Sample.lunch (CommitRejected "permission-denied"))
                 (Sample.idle "Schedule lunch Friday")))
       = ""
    /\ (collection
          (snd (handleSend
                  (Sample.answering Sample.lunch (CommitRejected "permission-denied"))
                  (Sample.idle "Schedule lunch Friday")))
        = collection (Sample.idle "Schedule lunch Friday")
        /\ error
             (snd (handleSend
                     (Sample.answering Sample.lunch (CommitRejected "permission-denied"))
                     (Sample.idle "Schedule lunch Friday")))
           = Some ("Failed to send message: " ++ "permission-denied")).
Proof.
  destruct (X6_completed_submission_commits_once
              (Sample.answering Sample.lunch (CommitRejected "permission-denied"))
              (Sample.idle "Schedule lunch Friday")
              (snd (Send.orchestrate
                      (Sample.answering Sample.lunch (CommitRejected "permission-denied"))
                      "Schedule lunch Friday"
                      (sending (Sample.idle "Schedule lunch Friday"))))
              Sample.lunch (JStr "calendar_tool") (JStr "Calendar API")
              (JStr "lunch Friday") eq_refl eq_refl eq_refl eq_refl)
    as (fr & H).
  exact H.
Defined.

(** ** What a submission sends *)

Lemma carries_loop_event (text : string) (payload : Request) (e : Event) :
  contents payload = text -> loop_event payload e -> carries text e.
Proof.
  intros Hp [->|[[ms ->]|[l ->]]] rq H; try discriminate H.
  inversion H. congruence.
Qed.

Lemma carries_responder_event (text : string) (intent : Js) (e : Event) :
  responder_event text intent e -> carries text e.
Proof.
  intros [->|H].
  - intros rq H. discriminate H.
  - eapply carries_loop_event; [|exact H]. reflexivity.
Qed.

Lemma carried_requests (text : string) (evs : list Event) :
  Forall (carries text) evs ->
  forall rq, In rq (requests evs) -> contents rq = text.
Proof.
  induction 1 as [|e evs He _ IH]; simpl; intros rq Hin; [contradiction|].
  destruct e; simpl in Hin; auto.
  destruct Hin as [<-|Hin]; auto.
Qed.

(** [trim] takes white space off both ends and nothing else. *)
Lemma rev_append (a b : string) : Str.rev (a ++ b) = Str.rev b ++ Str.rev a.
Proof.
  induction a as [|c a IH]; simpl.
  - now rewrite StrFacts.append_empty_r.
  - now rewrite IH, StrFacts.append_assoc.
Qed.

Lemma rev_involutive (s : string) : Str.rev (Str.rev s) = s.
Proof.
  induction s as [|c s IH]; simpl; [reflexivity|].
  now rewrite rev_append, IH.
Qed.

Lemma spaces_rev (s : string) :
  forallb Str.is_space (Str.chars s) = true ->
  forallb Str.is_space (Str.chars (Str.rev s)) = true.
Proof.
  induction s as [|c s IH]; simpl; intros H; [reflexivity|].
  apply andb_prop in H as [Hc Hs].
  rewrite StrFacts.chars_append, forallb_app, (IH Hs). simpl. now rewrite Hc.
Qed.

Lemma trim_start_split (s : string) :
  exists a,
    s = a ++ Str.trim_start s
    /\ forallb Str.is_space (Str.chars a) = true
    /\ forall c r, Str.trim_start s = String c r -> Str.is_space c = false.
Proof.
  induction s as [|c s (a & E & A & H)]; simpl.
  - exists "". repeat split. intros c r Hc. discriminate Hc.
  - destruct (Str.is_space c) eqn:C.
    + exists (String c a). simpl. rewrite C, A, <- E. auto.
    + exists "". simpl. repeat split.
      intros c' r' H'. inversion H'; subst. exact C.
Qed.

Lemma trim_split (s : string) :
  exists a b,
    s = a ++ Str.trim s ++ b
    /\ forallb Str.is_space (Str.chars a) = true
    /\ forallb Str.is_space (Str.chars b) = true
    /\ (forall c r, Str.trim s = String c r -> Str.is_space c = false)
    /\ (forall r c, Str.trim s = r ++ String c "" -> Str.is_space c = false).
Proof.
  destruct (trim_start_split s) as (a & Ea & Aa & Ha).
  destruct (trim_start_split (Str.rev (Str.trim_start s))) as (b & Eb & Ab & Hb).
  assert (Et : Str.trim_start s = Str.trim s ++ Str.rev b).
  { rewrite <- (rev_involutive (Str.trim_start s)). rewrite Eb at 1.
    rewrite rev_append. reflexivity. }
  exists a, (Str.rev b). split; [|split; [exact Aa|split; [now apply spaces_rev|split]]].
  - now rewrite <- Et.
  - intros c r Hc. rewrite Hc in Et. simpl in Et. exact (Ha _ _ Et).
  - intros r c Hc. apply (Hb c (Str.rev r)).
    unfold Str.trim in Hc.
    rewrite <- (rev_involutive (Str.trim_start (Str.rev (Str.trim_start s)))).
    rewrite Hc, rev_append. reflexivity.
Qed.

(** The trimmed text is empty exactly when there is nothing but white
    space. *)
Lemma trim_empty_iff (s : string) :
  Str.is_empty (Str.trim s) = forallb Str.is_space (Str.chars s).
Proof.
  destruct (forallb Str.is_space (Str.chars s)) eqn:A.
  - now rewrite (trim_spaces s A).
  - destruct (Str.trim s) as [|c t] eqn:T; [|reflexivity].
    destruct (trim_split s) as (a & b & E & Aa & Ab & _).
    rewrite T in E. simpl in E.
    rewrite E, StrFacts.chars_append, forallb_app, Aa, Ab in A. discriminate A.
Qed.

(** X7.  What a submission sends.  Every submission that passes the guard
    sends at least one request and at most six, and every request it sends
    carries as [contents] the trimmed text of the input box, whatever
    happens later in the submission.  The trimmed text is the input
    without the white space at its two ends: what was taken off on either
    side is white space only, and what is left neither begins nor ends
    with white space. *)
Theorem X7_submission_sends_the_trimmed_text (env : Env) (w : World) :
  Send.rejected w (Str.trim (newMessage w)) = false ->
  fetched w + 1 <= fetched (snd (handleSend env w)) <= fetched w + 6
  /\ (exists evs,
         trace (snd (handleSend env w)) = (trace w ++ evs)%list
         /\ forall rq, In rq (requests evs) -> contents rq = Str.trim (newMessage w))
  /\ exists before after,
      newMessage w = before ++ Str.trim (newMessage w) ++ after
      /\ forallb Str.is_space (Str.chars before) = true
      /\ forallb Str.is_space (Str.chars after) = true
      /\ (forall c r, Str.trim (newMessage w) = String c r -> Str.is_space c = false)
      /\ (forall r c, Str.trim (newMessage w) = r ++ String c "" ->
                      Str.is_space c = false).
Proof.
  intros Hguard.
  split; [|split; [|apply trim_split]].
  all: set (text := Str.trim (newMessage w)) in *.
  all: destruct (SendFacts.handleSend_run env w Hguard) as (r & w2 & Horch & Hcases).
  all: fold text in Horch, Hcases.
  all: destruct (SendFacts.orchestrate_returns env text (sending w)) as [r' Hr'].
  all: rewrite Horch in Hr'; inversion Hr' as [[Er Ew]]; clear Hr'.
  all: destruct (CallFacts.orchestrator_frame env text (sending w)) as [[evs1 [T1 F1]] _].
  all: rewrite <- Ew in T1; change (trace (sending w)) with (trace w) in T1.
  all: assert (N1 : fetched w + 1 <= fetched w2 <= fetched w + 3)
    by (pose proof (orchestrator_schedule env text (sending w)) as S;
        rewrite <- Ew in S; unfold three_attempt_schedule in S;
        change (fetched (sending w)) with (fetched w) in S;
        destruct S as [[S _]|[[S _]|[S _]]]; lia).
  all: assert (C1 : Forall (carries text) evs1)
    by (eapply Forall_impl; [|exact F1];
        intros e; apply carries_loop_event; reflexivity).
  all: destruct Hcases as [(m & Hd & Hs)
                     |[(intent & tool & q & Hd & Hconv & Hs)
                      |(intent & tool & q & fr & w3 & Hd & Hconv & Hc & Hs)]].
  1,2,4,5: rewrite Hs; simpl; try lia;
    exists evs1; (split; [exact T1|]); now apply carried_requests.
  all: pose proof (SendFacts.compose_frame env text intent tool q w2) as [[evs2 [T2 F2]] _].
  all: rewrite Hc in T2; simpl in T2.
  all: assert (N2 : fetched w2 <= fetched w3 <= fetched w2 + 3).
  1,3: destruct (is_string "error" intent) eqn:E;
    [rewrite SendFacts.compose_error in Hc by assumption; inversion Hc; lia|];
    destruct (is_string "general_chat" intent || is_string "gemini_response" intent)
             eqn:C;
    [rewrite SendFacts.compose_chat in Hc by assumption;
     pose proof (responder_schedule env text intent w2) as S;
     destruct (callGeminiResponseGenerator env text intent w2) as [[a|m] w1];
     inversion Hc; subst; simpl in S;
     destruct S as [[S _]|[[S _]|[S _]]]; lia
    |rewrite SendFacts.compose_tool in Hc by assumption; inversion Hc; lia].
  all: assert (C2 : Forall (carries text) evs2)
    by (eapply Forall_impl; [|exact F2];
        intros e; apply carries_responder_event).
  all: rewrite Hs; simpl.
  all: assert (P : exists tail,
               trace (persisted env (submitted_batch w fr intent) w3)
               = (trace w3 ++ tail)%list
               /\ Forall (carries text) tail
               /\ fetched (persisted env (submitted_batch w fr intent) w3) = fetched w3)
    by (unfold persisted, Send.settle; destruct (commit env) as [|m]; simpl;
        [eexists; split; [reflexivity|]; split; [|reflexivity];
         constructor; [|constructor]; intros rq H; discriminate H
        |eexists; split; [rewrite <- app_assoc; reflexivity|]; split; [|reflexivity];
         constructor; [|constructor; [|constructor]]; intros rq H; discriminate H]).
  all: destruct P as (tail & T3 & C3 & N3).
  - lia.
  - exists (evs1 ++ evs2 ++ tail)%list. split.
    + rewrite T3, T2, T1. now rewrite !app_assoc.
    + apply carried_requests. repeat (apply Forall_app; split); assumption.
Qed.

(** "hello" between no-break spaces, a tabulator and spaces: the requests
    carry "hello". *)
Lemma X7_witness :
  fetched (Sample.idle Sample.padded) + 1
  <= fetched (snd (handleSend (Sample.answering Sample.chat CommitOk)
                              (Sample.idle Sample.padded)))
  <= fetched (Sample.idle Sample.padded) + 6
  /\ (exists evs,
         trace (snd (handleSend (Sample.answering Sample.chat CommitOk)
                                (Sample.idle Sample.padded)))
         = (trace (Sample.idle Sample.padded) ++ evs)%list
         /\ forall rq, In rq (requests evs) -> contents rq = "hello")
  /\ exists before after,
      Sample.padded = before ++ "hello" ++ after
      /\ forallb Str.is_space (Str.chars before) = true
      /\ forallb Str.is_space (Str.chars after) = true
      /\ (forall c r, "hello" = String c r -> Str.is_space c = false)
      /\ (forall r c, "hello" = r ++ String c "" -> Str.is_space c = false).
Proof.
  apply (X7_submission_sends_the_trimmed_text
           (Sample.answering Sample.chat CommitOk) (Sample.idle Sample.padded)).
  reflexivity.
Defined.

(** ** Facts about the snapshot listener *)

Module SnapshotFacts.
Import Snapshot.

Lemma insert_permutation (a : Doc) (l : list Doc) :
  Permutation (insert a l) (a :: l).
Proof.
  induction l as [|b l IH]; simpl; [reflexivity|].
  destruct (comparator a b <=? 0)%Z; [reflexivity|].
  rewrite IH. apply perm_swap.
Qed.

Lemma sort_permutation (l : list Doc) : Permutation (sort l) l.
Proof.
  induction l as [|a l IH]; simpl; [reflexivity|].
  rewrite insert_permutation. now constructor.
Qed.

Lemma insert_sorted (a : Doc) (l : list Doc) :
  StronglySorted in_order l -> StronglySorted in_order (insert a l).
Proof.
  induction 1 as [|b l Hl IH Hb]; simpl.
  - constructor; constructor.
  - destruct (comparator a b <=? 0)%Z eqn:C.
    + apply Z.leb_le in C. unfold comparator in C.
      constructor; [constructor; assumption|].
      constructor; [unfold in_order; lia|].
      eapply Forall_impl; [|exact Hb].
      intros c Hc. unfold in_order in *. lia.
    + apply Z.leb_gt in C. unfold comparator in C.
      constructor; [exact IH|].
      rewrite (insert_permutation a l).
      constructor; [unfold in_order; lia | exact Hb].
Qed.

Lemma sort_sorted (l : list Doc) : StronglySorted in_order (sort l).
Proof.
  induction l as [|a l IH]; simpl; [constructor | now apply insert_sorted].
Qed.

(** Inserting [a] lets the documents of every second stand as they
    stood, [a] before those of its own second. *)
Lemma insert_same_second (k : Z) (a : Doc) (l : list Doc) :
  filter (fun d => (seconds_or_0 d =? k)%Z) (insert a l)
  = filter (fun d => (seconds_or_0 d =? k)%Z) (a :: l).
Proof.
  induction l as [|b l IH]; [reflexivity|].
  cbn [insert]. destruct (comparator a b <=? 0)%Z eqn:C; [reflexivity|].
  apply Z.leb_gt in C. unfold comparator in C.
  cbn [filter] in *. rewrite IH.
  destruct (seconds_or_0 a =? k)%Z eqn:Ea; [|reflexivity].
  destruct (seconds_or_0 b =? k)%Z eqn:Eb; [|reflexivity].
  apply Z.eqb_eq in Ea, Eb. lia.
Qed.

Lemma sort_same_second (k : Z) (l : list Doc) :
  filter (fun d => (seconds_or_0 d =? k)%Z) (sort l)
  = filter (fun d => (seconds_or_0 d =? k)%Z) l.
Proof.
  induction l as [|a l IH]; [reflexivity|].
  cbn [sort]. rewrite insert_same_second. cbn [filter]. now rewrite IH.
Qed.

Lemma before_in_filter (p : Doc -> bool) (a b : Doc) (l : list Doc) :
  p a = true -> p b = true -> before a b l -> before a b (filter p l).
Proof.
  intros Ha Hb (l1 & l2 & l3 & ->).
  exists (filter p l1), (filter p l2), (filter p l3).
  rewrite filter_app. cbn [filter]. rewrite Ha, filter_app. cbn [filter].
  now rewrite Hb.
Qed.

Lemma before_cons (x a b : Doc) (l : list Doc) :
  before a b l -> before a b (x :: l).
Proof. intros (l1 & l2 & l3 & ->). now exists (x :: l1), l2, l3. Qed.

Lemma before_of_filter (p : Doc -> bool) (a b : Doc) (l : list Doc) :
  before a b (filter p l) -> before a b l.
Proof.
  induction l as [|x l IH]; cbn [filter]; intros H.
  - destruct H as (l1 & l2 & l3 & H). destruct l1; discriminate H.
  - destruct (p x); [|apply before_cons; now apply IH].
    destruct H as (l1 & l2 & l3 & H).
    destruct l1 as [|y l1]; simpl in H; injection H as Hx Ht.
    + subst x.
      assert (Hin : In b l).
      { assert (I : In b (filter p l)).
        { rewrite Ht. apply in_or_app. right. now left. }
        apply filter_In in I. tauto. }
      apply in_split in Hin as (r1 & r2 & ->).
      now exists [], r1, r2.
    + apply before_cons. apply IH. now exists l1, l2, l3.
Qed.

Lemma sorted_before (a b : Doc) (l : list Doc) :
  StronglySorted in_order l -> before a b l -> in_order a b.
Proof.
  intros S (l1 & l2 & l3 & ->).
  induction l1 as [|x l1 IH]; simpl in S.
  - apply StronglySorted_inv in S as [_ F].
    rewrite Forall_forall in F. apply F. apply in_or_app. right. now left.
  - apply StronglySorted_inv in S as [S _]. now apply IH.
Qed.

Lemma two_members (a b : Doc) (l : list Doc) :
  In a l -> In b l -> a <> b -> before a b l \/ before b a l.
Proof.
  induction l as [|x l IH]; simpl; intros Ha Hb Hab; [contradiction|].
  destruct Ha as [->|Ha], Hb as [->|Hb].
  - congruence.
  - left. apply in_split in Hb as (r1 & r2 & ->). now exists [], r1, r2.
  - right. apply in_split in Ha as (r1 & r2 & ->). now exists [], r1, r2.
  - destruct (IH Ha Hb Hab); [left|right]; now apply before_cons.
Qed.

End SnapshotFacts.

(** X8.  The messages shown are the documents of the snapshot, each as
    often as the snapshot has it, in ascending order of
    [timestamp.seconds], a document without timestamp counting as second
    0. *)
Theorem X8_snapshot_sorted_by_seconds (docs : list Snapshot.Doc) :
  Permutation (Snapshot.onSnapshot docs) docs
  /\ StronglySorted
       (fun a b => (Snapshot.seconds_or_0 a <= Snapshot.seconds_or_0 b)%Z)
       (Snapshot.onSnapshot docs).
Proof.
  split.
  - apply SnapshotFacts.sort_permutation.
  - apply SnapshotFacts.sort_sorted.
Qed.

(** X9.  Documents of the same second keep the order of the snapshot: the
    sort looks at the seconds only and does not reorder documents whose
    seconds are equal (a document without timestamp counting as second
    0). *)
Theorem X9_same_second_keeps_snapshot_order
        (docs : list Snapshot.Doc) (a b : Snapshot.Doc) :
  Snapshot.seconds_or_0 a = Snapshot.seconds_or_0 b ->
  Snapshot.before a b docs ->
  Snapshot.before a b (Snapshot.onSnapshot docs).
Proof.
  intros Hk Hab.
  apply (SnapshotFacts.before_of_filter
           (fun d => (Snapshot.seconds_or_0 d =? Snapshot.seconds_or_0 a)%Z)).
  unfold Snapshot.onSnapshot. rewrite SnapshotFacts.sort_same_second.
  apply SnapshotFacts.before_in_filter; [apply Z.eqb_refl| |exact Hab].
  rewrite Hk. apply Z.eqb_refl.
Qed.

(** X10.  A document without timestamp is shown before every document
    whose seconds are positive, wherever the two stand in the snapshot: a
    missing timestamp sorts as second 0, to the top of the list and not to
    its end. *)
Theorem X10_pending_documents_come_first
        (docs : list Snapshot.Doc) (a b : Snapshot.Doc) (s : Z) :
  In a docs -> In b docs ->
  Snapshot.seconds a = None ->
  Snapshot.seconds b = Some s ->
  (0 < s)%Z ->
  Snapshot.before a b (Snapshot.onSnapshot docs).
Proof.
  intros Ha Hb Sa Sb Hs.
  pose proof (SnapshotFacts.sort_permutation docs) as P.
  assert (Ia : In a (Snapshot.sort docs)) by (eapply Permutation_in; [symmetry; exact P|exact Ha]).
  assert (Ib : In b (Snapshot.sort docs)) by (eapply Permutation_in; [symmetry; exact P|exact Hb]).
  assert (Hab : a <> b) by (intros ->; congruence).
  destruct (SnapshotFacts.two_members a b _ Ia Ib Hab) as [H|H]; [exact H|].
  exfalso.
  pose proof (SnapshotFacts.sorted_before b a _ (SnapshotFacts.sort_sorted docs) H) as O.
  unfold Snapshot.in_order, Snapshot.seconds_or_0 in O.
  rewrite Sa, Sb in O. lia.
Qed.

Lemma X9_witness :
  Snapshot.before SnapshotSample.first_of_200 SnapshotSample.second_of_200
    (Snapshot.onSnapshot
       [SnapshotSample.first_of_200; SnapshotSample.older;
        SnapshotSample.second_of_200]).
Proof.
  apply (X9_same_second_keeps_snapshot_order
           [SnapshotSample.first_of_200; SnapshotSample.older;
            SnapshotSample.second_of_200]
           SnapshotSample.first_of_200 SnapshotSample.second_of_200).
  - reflexivity.
  - exists [], [SnapshotSample.older], []. reflexivity.
Defined.

Lemma X10_witness :
  Snapshot.before SnapshotSample.pending SnapshotSample.older
    (Snapshot.onSnapshot [SnapshotSample.older; SnapshotSample.pending]).
Proof.
  apply (X10_pending_documents_come_first
           [SnapshotSample.older; SnapshotSample.pending]
           SnapshotSample.pending SnapshotSample.older 100%Z).
  - right. left. reflexivity.
  - left. reflexivity.
  - reflexivity.
  - reflexivity.
  - reflexivity.
Defined.

(** ** Facts about the ChatMessage component *)

Module BubbleFacts.
Import Bubble.

Lemma split_from_nonempty (sep : string) (s : string) (k : nat) (cur : string) :
  split_from sep k cur s <> [].
Proof.
  revert k cur. induction s as [|c s IH]; intros k cur; cbn [split_from]; [congruence|].
  destruct k; [|apply IH].
  destruct (String.prefix sep (String c s)); [congruence | apply IH].
Qed.

Lemma join_cons (sep x : string) (l : list string) :
  l <> [] -> Str.join sep (x :: l) = x ++ sep ++ Str.join sep l.
Proof. destruct l; [congruence | reflexivity]. Qed.

Lemma not_star (c : ascii) (s : string) :
  Ascii.eqb "*" c = false -> String.prefix "**" (String c s) = false.
Proof.
  intros H.
  change (String.prefix "**" (String c s))
    with (if ascii_dec "*" c then String.prefix "*" s else false).
  destruct (ascii_dec "*" c) as [E|_]; [|reflexivity].
  subst c. discriminate H.
Qed.

Lemma marker_step (rest cur : string) :
  split_from "**" 0 cur (String "*" (String "*" rest))
  = cur :: split_from "**" 0 "" rest.
Proof. simpl. destruct rest; reflexivity. Qed.

Lemma plain_step (c : ascii) (r cur : string) :
  String.prefix "**" (String c r) = false ->
  split_from "**" 0 cur (String c r)
  = split_from "**" 0 (cur ++ String c EmptyString) r.
Proof.
  intros H.
  change (split_from "**" 0 cur (String c r))
    with (if String.prefix "**" (String c r)
          then cur :: split_from "**" (String.length "**" - 1) "" r
          else split_from "**" 0 (cur ++ String c EmptyString) r).
  now rewrite H.
Qed.

(** A text without asterisk is one part. *)
Lemma split_plain (a cur : string) :
  no_star a -> split_from "**" 0 cur a = [cur ++ a].
Proof.
  revert cur. induction a as [|c a IH]; intros cur H.
  - simpl. now rewrite StrFacts.append_empty_r.
  - unfold no_star in H. cbn [Str.chars existsb] in H.
    apply orb_false_elim in H as [Hc Ha].
    rewrite plain_step by exact (not_star c a Hc).
    rewrite IH by exact Ha. now rewrite StrFacts.append_assoc.
Qed.

(** A part without asterisk ends at the marker that follows it. *)
Lemma split_marker (a rest cur : string) :
  no_star a ->
  split_from "**" 0 cur (a ++ "**" ++ rest)
  = (cur ++ a) :: split_from "**" 0 "" rest.
Proof.
  revert cur. induction a as [|c a IH]; intros cur H.
  - cbn [String.append]. rewrite StrFacts.append_empty_r.
    change ("**" ++ rest) with (String "*" (String "*" rest)).
    apply marker_step.
  - unfold no_star in H. cbn [Str.chars existsb] in H.
    apply orb_false_elim in H as [Hc Ha].
    cbn [String.append]. rewrite plain_step by exact (not_star c _ Hc).
    rewrite IH by exact Ha. now rewrite StrFacts.append_assoc.
Qed.

(** Joining the parts with the marker gives the text back. *)
Lemma join_split_from (n : nat) :
  forall (s cur : string),
    String.length s <= n ->
    Str.join "**" (split_from "**" 0 cur s) = cur ++ s.
Proof.
  induction n as [|n IH]; intros s cur Hn.
  - destruct s; [|simpl in Hn; lia]. simpl. now rewrite StrFacts.append_empty_r.
  - destruct s as [|c r]; [simpl; now rewrite StrFacts.append_empty_r|].
    simpl in Hn.
    destruct (Ascii.eqb "*" c) eqn:Ec.
    + apply Ascii.eqb_eq in Ec. subst c.
      destruct r as [|d r']; [reflexivity|].
      destruct (Ascii.eqb "*" d) eqn:Ed.
      * apply Ascii.eqb_eq in Ed. subst d.
        rewrite marker_step.
        rewrite join_cons by apply split_from_nonempty.
        rewrite IH by (simpl in Hn; lia). reflexivity.
      * assert (P : String.prefix "**" (String "*" (String d r')) = false).
        { change (String.prefix "**" (String "*" (String d r')))
            with (if ascii_dec "*" "*"
                  then (if ascii_dec "*" d then String.prefix "" r' else false)
                  else false).
          destruct (ascii_dec "*" "*") as [_|N]; [|congruence].
          destruct (ascii_dec "*" d) as [E|_]; [|reflexivity].
          subst d. discriminate Ed. }
        rewrite plain_step by exact P.
        rewrite IH by (simpl in *; lia). now rewrite StrFacts.append_assoc.
    + rewrite plain_step by exact (not_star c r Ec).
      rewrite IH by lia. now rewrite StrFacts.append_assoc.
Qed.

Lemma join_split (s : string) : Str.join "**" (split "**" s) = s.
Proof. unfold split. now rewrite (join_split_from (String.length s)). Qed.

Lemma texts_of_pieces (l : list string) (k : nat) :
  map snd (map (fun p : nat * string => (Nat.odd (fst p), snd p))
               (combine (seq k (List.length l)) l))
  = l.
Proof.
  revert k. induction l as [|x l IH]; intros k; simpl; [reflexivity|].
  now rewrite IH.
Qed.

Lemma flags_of_pieces (l : list string) (k n : nat) (piece : Piece) :
  nth_error (map (fun p : nat * string => (Nat.odd (fst p), snd p))
                 (combine (seq k (List.length l)) l)) n = Some piece ->
  fst piece = Nat.odd (k + n).
Proof.
  revert k n. induction l as [|x l IH]; intros k n H; simpl in H.
  - destruct n; discriminate H.
  - destruct n as [|n]; simpl in H.
    + inversion H. simpl. now rewrite Nat.add_0_r.
    + apply IH in H. rewrite H. f_equal. lia.
Qed.

Lemma no_star_append (a b : string) :
  no_star a -> no_star b -> no_star (a ++ b).
Proof.
  unfold no_star. intros Ha Hb.
  now rewrite StrFacts.chars_append, existsb_app, Ha, Hb.
Qed.

End BubbleFacts.

(** X11.  The bubble shows all of the text but the markers.  The pieces
    of [renderedText], joined again with "**" between them, are the text
    of the message; the piece at an odd index, and no other, is set in
    bold. *)
Theorem X11_rendering_keeps_the_text (text : string) :
  Str.join "**" (map snd (Bubble.renderedText text)) = text
  /\ forall n piece,
      nth_error (Bubble.renderedText text) n = Some piece ->
      fst piece = Nat.odd n.
Proof.
  unfold Bubble.renderedText. split.
  - rewrite BubbleFacts.texts_of_pieces. apply BubbleFacts.join_split.
  - intros n piece H. now apply BubbleFacts.flags_of_pieces in H.
Qed.

Lemma X11_witness :
  fst (true, "b") = Nat.odd 1.
Proof.
  apply (proj2 (X11_rendering_keeps_the_text "a**b**c") 1 (true, "b")).
  reflexivity.
Defined.

(** X12.  How a system message is set.  When the intent, the tool name
    and the summary of a classification contain no asterisk, the message
    written for a tool intent is shown in five pieces: "Intent Classified:
    " plain, the intent in bold, the rest of the summary line plain, the
    label "Tool Execution Mock:" in bold, and the sentence about the form
    plain.  The message written for the intent "error" is shown as one
    plain piece. *)
Theorem X12_markers_set_intent_and_label_in_bold (intent tool q : Js) :
  Bubble.no_star (toStr intent) ->
  Bubble.no_star (toStr tool) ->
  Bubble.no_star (toStr q) ->
  Bubble.renderedText
    (Send.orchestrationSummary intent tool q ++ Send.mock_continuation tool)
  = [ (false, "Intent Classified: ");
      (true, toStr intent);
      (false, ". Tool: " ++ toStr tool ++ ". Summary: " ++ Str.dq ++ toStr q
              ++ Str.dq ++ "." ++ Str.nl ++ Str.nl);
      (true, "Tool Execution Mock:");
      (false, " The UI would now transition to the generated application form for "
              ++ toStr tool ++ ".") ]
  /\ Bubble.renderedText
       ("Orchestration Failure: " ++ toStr tool ++ ". Details: " ++ toStr q)
     = [ (false, "Orchestration Failure: " ++ toStr tool ++ ". Details: " ++ toStr q) ].
Proof.
  intros Hi Ht Hq.
  assert (L : forall s : string, Bubble.no_star s -> forall t, Bubble.no_star t ->
                                 Bubble.no_star (s ++ t))
    by (intros; now apply BubbleFacts.no_star_append).
  split.
  - assert (E : Send.orchestrationSummary intent tool q ++ Send.mock_continuation tool
                = "Intent Classified: " ++ "**"
                  ++ toStr intent ++ "**"
                  ++ (". Tool: " ++ toStr tool ++ ". Summary: " ++ Str.dq ++ toStr q
                      ++ Str.dq ++ "." ++ Str.nl ++ Str.nl) ++ "**"
                  ++ "Tool Execution Mock:" ++ "**"
                  ++ " The UI would now transition to the generated application form for "
                  ++ toStr tool ++ ".").
    { unfold Send.orchestrationSummary, Send.mock_continuation.
      repeat rewrite StrFacts.append_assoc. reflexivity. }
    unfold Bubble.renderedText, Bubble.split. rewrite E.
    rewrite BubbleFacts.split_marker by reflexivity.
    rewrite BubbleFacts.split_marker by exact Hi.
    rewrite BubbleFacts.split_marker
      by (repeat (apply L; [try reflexivity; assumption|]); reflexivity).
    rewrite BubbleFacts.split_marker by reflexivity.
    rewrite BubbleFacts.split_plain
      by (repeat (apply L; [try reflexivity; assumption|]); reflexivity).
    reflexivity.
  - unfold Bubble.renderedText, Bubble.split.
    rewrite BubbleFacts.split_plain
      by (repeat (apply L; [try reflexivity; assumption|]); try reflexivity; assumption).
    reflexivity.
Qed.

Lemma X12_witness :
  Bubble.renderedText
    (Send.orchestrationSummary (JStr "calendar_tool") (JStr "Calendar API")
                               (JStr "lunch Friday")
     ++ Send.mock_continuation (JStr "Calendar API"))
  = [ (false, "Intent Classified: ");
      (true, toStr (JStr "calendar_tool"));
      (false, ". Tool: " ++ toStr (JStr "Calendar API") ++ ". Summary: " ++ Str.dq
              ++ toStr (JStr "lunch Friday") ++ Str.dq ++ "." ++ Str.nl ++ Str.nl);
      (true, "Tool Execution Mock:");
      (false, " The UI would now transition to the generated application form for "
              ++ toStr (JStr "Calendar API") ++ ".") ].
Proof.
  apply (X12_markers_set_intent_and_label_in_bold
           (JStr "calendar_tool") (JStr "Calendar API") (JStr "lunch Friday"));
    reflexivity.
Defined.

(** X13.  Badge and header of the two documents of a submission.  The
    user message never shows the INTENT badge; its header is "You" for
    its author and, for anyone else, "User ID: " followed by the first
    eight characters of the author's user id (never "Guest").  The system
    message has the header "AIos Core (gNode)" for everyone, and it shows
    the badge exactly when the intent is a truthy value other than the
    strings "general_chat" and "user_query", the intent "error"
    included. *)
Theorem X13_badge_and_header_of_a_submission
        (w : World) (finalResponse : string) (intent : Js) (uid : string)
        (isCurrentUser : bool) :
  Send.rejected w (Str.trim (newMessage w)) = false ->
  userId w = Some uid ->
  exists user system,
    submitted_batch w finalResponse intent = [user; system]
    /\ Bubble.badge user = false
    /\ Bubble.headerText user true = "You"
    /\ Bubble.headerText user false = "User ID: " ++ substring 0 8 uid
    /\ Bubble.headerText system isCurrentUser = "AIos Core (gNode)"
    /\ (Bubble.badge system = true
        <-> truthy intent = true
            /\ intent <> JStr "general_chat" /\ intent <> JStr "user_query").
Proof.
  intros Hguard Huid.
  unfold submitted_batch. rewrite Huid.
  eexists _, _. split; [reflexivity|].
  assert (Hne : Str.is_empty uid = false).
  { unfold Send.rejected in Hguard. rewrite Huid in Hguard.
    destruct (Str.is_empty uid); [|reflexivity].
    rewrite orb_true_r in Hguard. discriminate Hguard. }
  split; [reflexivity|]. split; [reflexivity|]. split.
  - unfold Bubble.headerText. simpl.
    destruct uid as [|c u]; [discriminate Hne | reflexivity].
  - split; [reflexivity|].
    unfold Bubble.badge, Bubble.isIntent, Bubble.isSystem, Bubble.and. simpl.
    pose proof (Frame.is_string_eq "general_chat" intent) as G.
    pose proof (Frame.is_string_eq "user_query" intent) as U.
    destruct (truthy intent) eqn:T; simpl.
    + destruct (is_string "general_chat" intent) eqn:Eg; simpl.
      * split; [intros D; discriminate D|]. intros (_ & N & _). exfalso. apply N. now apply G.
      * destruct (is_string "user_query" intent) eqn:Eu; simpl.
        -- split; [intros D; discriminate D|]. intros (_ & _ & N). exfalso. apply N. now apply U.
        -- split; [|reflexivity]. intros _. repeat split.
           ++ intros H. apply G in H. discriminate H.
           ++ intros H. apply U in H. discriminate H.
    + rewrite T. cbv iota. rewrite T.
      split; [intros D; discriminate D|]. intros (H & _). discriminate H.
Qed.

Lemma X13_witness :
  exists user system,
    submitted_batch (Sample.idle "hello") "text" (JStr "error") = [user; system]
    /\ Bubble.badge user = false
    /\ Bubble.headerText user true = "You"
    /\ Bubble.headerText user false = "User ID: " ++ substring 0 8 "user-0123456789"
    /\ Bubble.headerText system false = "AIos Core (gNode)"
    /\ (Bubble.badge system = true
        <-> truthy (JStr "error") = true
            /\ JStr "error" <> JStr "general_chat"
            /\ JStr "error" <> JStr "user_query").
Proof.
  apply (X13_badge_and_header_of_a_submission
           (Sample.idle "hello") "text" (JStr "error") "user-0123456789" false);
    reflexivity.
Defined.

(** X14.  Authentication always ends the waiting, but not always with a
    user.  After the callback of [onAuthStateChanged] and the handlers of
    the sign-in promise have run, [isAuthReady] is true in every case.
    The user id is the id of the user reported, or else of the anonymous
    user signed in.  When no user is reported and the anonymous sign-in is
    rejected, the user id stays what it was and the error is set; if it
    was [null], [handleSend] turns away everything typed afterwards,
    sending and writing nothing and leaving the input as it is. *)
Theorem X14_auth_ready_but_maybe_no_user
        (user : option string) (signIn : Auth.SignInOutcome) (s : Auth.State) :
  Auth.isAuthReady (Auth.onAuthStateChanged user signIn s) = true
  /\ (forall uid,
         user = Some uid \/ (user = None /\ signIn = Auth.SignedIn uid) ->
         userId (Auth.world (Auth.onAuthStateChanged user signIn s)) = Some uid)
  /\ (forall m,
         user = None -> signIn = Auth.SignInRejected m ->
         userId (Auth.world (Auth.onAuthStateChanged user signIn s))
         = userId (Auth.world s)
         /\ error (Auth.world (Auth.onAuthStateChanged user signIn s))
            = Some "Failed to authenticate anonymously. Check console for details."
         /\ (userId (Auth.world s) = None ->
             forall env typed,
               handleSend env
                 (setNewMessage typed
                    (Auth.world (Auth.onAuthStateChanged user signIn s)))
               = (Ret tt,
                  setNewMessage typed
                    (Auth.world (Auth.onAuthStateChanged user signIn s))))).
Proof.
  split; [|split].
  - destruct user; [reflexivity|]. destruct signIn; reflexivity.
  - intros uid [->|[-> ->]]; reflexivity.
  - intros m -> ->. simpl. repeat split.
    intros Hnone env typed.
    unfold handleSend, Send.rejected. simpl. rewrite Hnone.
    now rewrite orb_true_r.
Qed.

Lemma X14_witness :
  userId (Auth.world
            (Auth.onAuthStateChanged None (Auth.SignInRejected "auth/network-request-failed")
               (Auth.mkState (Sample.idle "") false)))
  = userId (Auth.world (Auth.mkState (Sample.idle "") false))
  /\ error (Auth.world
              (Auth.onAuthStateChanged None
                 (Auth.SignInRejected "auth/network-request-failed")
                 (Auth.mkState (Sample.idle "") false)))
     = Some "Failed to authenticate anonymously. Check console for details.".
Proof.
  destruct (X14_auth_ready_but_maybe_no_user
              None (Auth.SignInRejected "auth/network-request-failed")
              (Auth.mkState (Sample.idle "") false))
    as (_ & _ & H).
  destruct (H "auth/network-request-failed" eq_refl eq_refl) as (H1 & H2 & _).
  split; [exact H1 | exact H2].
Defined.

(** ** Facts about the GenUI shell *)

Module GenUIFacts.
Import GenUI.

Lemma prefix_empty (s : string) : String.prefix "" s = true.
Proof. destruct s; reflexivity. Qed.

(** The backtick has no other case. *)
Lemma lower_backtick (c : ascii) :
  Ascii.eqb "`" c = false -> Ascii.eqb (lower "`") (lower c) = false.
Proof.
  destruct c as [[] [] [] [] [] [] [] []]; intros H;
    try reflexivity; discriminate H.
Qed.

Lemma prefix_ci_append (p o rest : string) :
  prefix_ci p o = true -> prefix_ci p (o ++ rest) = true.
Proof.
  revert o. induction p as [|a p IH]; intros o H; [reflexivity|].
  destruct o as [|b o]; [discriminate H|].
  simpl in *. apply andb_prop in H as [Hab Hp].
  now rewrite Hab, IH.
Qed.

Lemma drop_append (o rest : string) :
  drop (String.length o) (o ++ rest) = rest.
Proof.
  induction o as [|b o IH]; simpl; [|exact IH].
  destruct rest; reflexivity.
Qed.

(** What stands before the first opening, when it has no backtick. *)
Lemma after_opening_found (pre o rest : string) :
  no_backtick pre ->
  prefix_ci opening o = true ->
  String.length o = String.length opening ->
  after_opening (pre ++ o ++ rest) = Some rest.
Proof.
  intros Hpre Ho Hlen.
  induction pre as [|c pre IH].
  - cbn [String.append].
    assert (E : forall s, after_opening s
                          = if prefix_ci opening s
                            then Some (drop (String.length opening) s)
                            else match s with
                                 | EmptyString => None
                                 | String _ r => after_opening r
                                 end)
      by (intros s; destruct s; reflexivity).
    rewrite E, (prefix_ci_append _ _ _ Ho), <- Hlen. now rewrite drop_append.
  - unfold no_backtick in Hpre. cbn [Str.chars existsb] in Hpre.
    apply orb_false_elim in Hpre as [Hc Hpre].
    cbn [String.append].
    change (after_opening (String c (pre ++ o ++ rest)))
      with (if prefix_ci opening (String c (pre ++ o ++ rest))
            then Some (drop (String.length opening) (String c (pre ++ o ++ rest)))
            else after_opening (pre ++ o ++ rest)).
    assert (P : prefix_ci opening (String c (pre ++ o ++ rest)) = false).
    { change (prefix_ci opening (String c (pre ++ o ++ rest)))
        with (Ascii.eqb (lower "`") (lower c)
              && prefix_ci ("``html" ++ Str.nl) (pre ++ o ++ rest)).
      now rewrite (lower_backtick c Hc). }
    rewrite P. now apply IH.
Qed.

Lemma after_opening_none (s : string) :
  no_backtick s -> after_opening s = None.
Proof.
  induction s as [|c s IH]; intros H; [reflexivity|].
  unfold no_backtick in H. cbn [Str.chars existsb] in H.
  apply orb_false_elim in H as [Hc Hs].
  change (after_opening (String c s))
    with (if prefix_ci opening (String c s)
          then Some (drop (String.length opening) (String c s))
          else after_opening s).
  assert (P : prefix_ci opening (String c s) = false).
  { change (prefix_ci opening (String c s))
      with (Ascii.eqb (lower "`") (lower c) && prefix_ci ("``html" ++ Str.nl) s).
    now rewrite (lower_backtick c Hc). }
  rewrite P. now apply IH.
Qed.

Lemma before_closing_step (c : ascii) (r : string) :
  before_closing (String c r)
  = if String.prefix closing (String c r) then Some EmptyString
    else match before_closing r with
         | Some h => Some (String c h)
         | None => None
         end.
Proof. reflexivity. Qed.

Lemma prefix_closing_backtick (c : ascii) (r : string) :
  Ascii.eqb "`" c = false -> String.prefix closing (String c r) = false.
Proof.
  intros H.
  change (String.prefix closing (String c r))
    with (if ascii_dec "`" c then String.prefix "``" r else false).
  destruct (ascii_dec "`" c) as [E|_]; [|reflexivity].
  subst c. discriminate H.
Qed.

(** What stands before the first closing, when it has no backtick. *)
Lemma before_closing_found (html post : string) :
  no_backtick html ->
  before_closing (html ++ closing ++ post) = Some html.
Proof.
  intros H. induction html as [|c html IH].
  - cbn [String.append]. unfold closing. simpl. now rewrite prefix_empty.
  - unfold no_backtick in H. cbn [Str.chars existsb] in H.
    apply orb_false_elim in H as [Hc Hh].
    cbn [String.append]. rewrite before_closing_step.
    rewrite (prefix_closing_backtick c _ Hc), IH by exact Hh. reflexivity.
Qed.

Lemma prefix_cut (p t : string) :
  String.prefix p t = true -> exists post, t = p ++ post.
Proof.
  revert t. induction p as [|a p IH]; intros t H; [now exists t|].
  destruct t as [|b t]; [discriminate H|].
  cbn [String.prefix] in H.
  destruct (ascii_dec a b) as [->|_]; [|discriminate H].
  destruct (IH t H) as [post ->]. now exists post.
Qed.

(** The text before the first closing is followed by the closing. *)
Lemma before_closing_cut (s h : string) :
  before_closing s = Some h -> exists post, s = h ++ closing ++ post.
Proof.
  revert h. induction s as [|c s IH]; intros h H.
  - discriminate H.
  - rewrite before_closing_step in H.
    destruct (String.prefix closing (String c s)) eqn:P.
    + inversion H; subst h.
      destruct (prefix_cut _ _ P) as [post E]. now exists post.
    + destruct (before_closing s) as [h'|] eqn:B; [|discriminate H].
      inversion H; subst h. destruct (IH h' eq_refl) as [post ->].
      now exists post.
Qed.

Lemma after_opening_cut (s rest : string) :
  after_opening s = Some rest -> exists pre, s = pre ++ rest.
Proof.
  induction s as [|c s IH]; intros H.
  - discriminate H.
  - change (after_opening (String c s))
      with (if prefix_ci opening (String c s)
            then Some (drop (String.length opening) (String c s))
            else after_opening s) in H.
    destruct (prefix_ci opening (String c s)) eqn:P.
    + assert (E : drop (String.length opening) (String c s) = rest) by congruence.
      rewrite <- E. clear.
      assert (D : forall n t, exists pre, t = pre ++ drop n t).
      { clear. induction n as [|n IH]; intros t.
        - exists "". destruct t; reflexivity.
        - destruct t as [|x t]; [now exists ""|].
          destruct (IH t) as [pre E]. exists (String x pre). simpl.
          now rewrite <- E. }
      apply D.
    + destruct (IH H) as [pre ->]. now exists (String c pre).
Qed.

(** The text before the first closing contains no closing. *)
Lemma before_closing_clean (s h : string) :
  before_closing s = Some h -> Str.includes h closing = false.
Proof.
  revert h. induction s as [|c s IH]; intros h H.
  - discriminate H.
  - rewrite before_closing_step in H.
    destruct (String.prefix closing (String c s)) eqn:P.
    + inversion H. reflexivity.
    + destruct (before_closing s) as [h'|] eqn:B; [|discriminate H].
      inversion H; subst h.
      cbn [Str.includes]. rewrite (IH h' eq_refl).
      destruct (String.prefix closing (String c h')) eqn:Q; [|reflexivity].
      exfalso.
      destruct (before_closing_cut s h' B) as [post E].
      rewrite E in P.
      change (String.prefix closing (String c (h' ++ closing ++ post)))
        with (if ascii_dec "`" c
              then String.prefix "``" (h' ++ closing ++ post) else false) in P.
      change (String.prefix closing (String c h'))
        with (if ascii_dec "`" c then String.prefix "``" h' else false) in Q.
      destruct (ascii_dec "`" c); [|discriminate Q].
      destruct h' as [|c1 h']; [discriminate Q|].
      cbn [String.append] in P.
      change (String.prefix "``" (String c1 h'))
        with (if ascii_dec "`" c1 then String.prefix "`" h' else false) in Q.
      change (String.prefix "``" (String c1 (h' ++ closing ++ post)))
        with (if ascii_dec "`" c1
              then String.prefix "`" (h' ++ closing ++ post) else false) in P.
      destruct (ascii_dec "`" c1); [|discriminate Q].
      destruct h' as [|c2 h']; [discriminate Q|].
      cbn [String.append] in P.
      change (String.prefix "`" (String c2 h'))
        with (if ascii_dec "`" c2 then String.prefix "" h' else false) in Q.
      change (String.prefix "`" (String c2 (h' ++ closing ++ post)))
        with (if ascii_dec "`" c2
              then String.prefix "" (h' ++ closing ++ post) else false) in P.
      destruct (ascii_dec "`" c2); [|discriminate Q].
      rewrite prefix_empty in P. discriminate P.
Qed.

End GenUIFacts.

Lemma or_string (text : string) : or (JStr text) (JStr "") = JStr text.
Proof. destruct text; reflexivity. Qed.

(** What [invokeAI] returns for a response that is JSON without [error]
    and whose first candidate has the string [text] as text. *)
Lemma invokeAI_of_text (env : GenUI.Env) (userQuery : string) (sh : GenUI.Shell)
      (status : N) (result : Js) (text : string) :
  Str.is_empty (GenUI.API_KEY env) = false ->
  GenUI.response env = Response status (BodyJson result) ->
  nullish result = false ->
  truthy (prop "error" result) = false ->
  candidate_text result = inr (JStr text) ->
  fst (GenUI.invokeAI env userQuery sh)
  = Ret (match GenUI.match_html text with Some html => html | None => text end).
Proof.
  intros Hkey Hresp Hnn Herr Htext.
  unfold GenUI.invokeAI, GenUI.try_block.
  rewrite Hkey, Hresp, Hnn, Herr, Htext, or_string.
  destruct (GenUI.match_html text); reflexivity.
Qed.

(** X15.  The code block is taken out of the reply.  When the model
    reply has, after a text without backtick, an opening fence (three
    backticks, "html" in any case, a line feed), then code without
    backtick, then three backticks, [invokeAI] returns exactly the code,
    whatever follows the closing fence. *)
Theorem X15_fenced_code_is_extracted
        (env : GenUI.Env) (userQuery : string) (sh : GenUI.Shell)
        (status : N) (result : Js) (pre fence html post : string) :
  Str.is_empty (GenUI.API_KEY env) = false ->
  GenUI.response env = Response status (BodyJson result) ->
  nullish result = false ->
  truthy (prop "error" result) = false ->
  candidate_text result
  = inr (JStr (pre ++ fence ++ html ++ GenUI.closing ++ post)) ->
  GenUI.no_backtick pre ->
  GenUI.prefix_ci GenUI.opening fence = true ->
  String.length fence = String.length GenUI.opening ->
  GenUI.no_backtick html ->
  fst (GenUI.invokeAI env userQuery sh) = Ret html.
Proof.
  intros Hkey Hresp Hnn Herr Htext Hpre Hfence Hlen Hhtml.
  rewrite (invokeAI_of_text env userQuery sh status result _ Hkey Hresp Hnn Herr Htext).
  unfold GenUI.match_html.
  rewrite (GenUIFacts.after_opening_found pre fence _ Hpre Hfence Hlen).
  now rewrite (GenUIFacts.before_closing_found html post Hhtml).
Qed.

Lemma X15_witness :
  fst (GenUI.invokeAI
         (ShellSample.replying
            (Response 200 (BodyJson (Sample.reply (JStr ShellSample.fenced) []))))
         "a card" (ShellSample.fresh "a card"))
  = Ret ShellSample.card.
Proof.
  apply (X15_fenced_code_is_extracted
           (ShellSample.replying
              (Response 200 (BodyJson (Sample.reply (JStr ShellSample.fenced) []))))
           "a card" (ShellSample.fresh "a card") 200
           (Sample.reply (JStr ShellSample.fenced) [])
           ("Here you go:" ++ Str.nl) ("```HTML" ++ Str.nl) ShellSample.card
           (Str.nl ++ "Enjoy.")); reflexivity.
Defined.

(** X16.  A reply without code block comes back as it is.  When the text
    of the model reply contains no backtick, [invokeAI] returns that text
    unchanged; when the reply has no text at all ([undefined], [null], an
    empty string), it returns the empty string. *)
Theorem X16_plain_reply_is_returned_unchanged
        (env : GenUI.Env) (userQuery : string) (sh : GenUI.Shell)
        (status : N) (result chained : Js) :
  Str.is_empty (GenUI.API_KEY env) = false ->
  GenUI.response env = Response status (BodyJson result) ->
  nullish result = false ->
  truthy (prop "error" result) = false ->
  candidate_text result = inr chained ->
  (forall text,
      chained = JStr text -> GenUI.no_backtick text ->
      fst (GenUI.invokeAI env userQuery sh) = Ret text)
  /\ (truthy chained = false ->
      fst (GenUI.invokeAI env userQuery sh) = Ret "").
Proof.
  intros Hkey Hresp Hnn Herr Hchain. split.
  - intros text -> Hplain.
    rewrite (invokeAI_of_text env userQuery sh status result _ Hkey Hresp Hnn Herr Hchain).
    unfold GenUI.match_html. now rewrite (GenUIFacts.after_opening_none text Hplain).
  - intros Hfalsy.
    unfold GenUI.invokeAI, GenUI.try_block.
    rewrite Hkey, Hresp, Hnn, Herr, Hchain. unfold or. rewrite Hfalsy. reflexivity.
Qed.

Lemma X16_witness :
  fst (GenUI.invokeAI
         (ShellSample.replying
            (Response 200 (BodyJson (Sample.reply (JStr "I cannot build that.") []))))
         "a card" (ShellSample.fresh "a card"))
  = Ret "I cannot build that.".
Proof.
  apply (X16_plain_reply_is_returned_unchanged
           (ShellSample.replying
              (Response 200 (BodyJson (Sample.reply (JStr "I cannot build that.") []))))
           "a card" (ShellSample.fresh "a card") 200
           (Sample.reply (JStr "I cannot build that.") [])
           (JStr "I cannot build that.")); reflexivity.
Defined.

(** X17.  What [invokeAI] makes of a reply text.  For a JSON response
    without [error] whose reply text is a string, [invokeAI] returns
    either the whole text or a part of it that stood right before three
    backticks; in the second case what it returns contains no three
    backticks. *)
Theorem X17_extracted_code_has_no_fence
        (env : GenUI.Env) (userQuery : string) (sh : GenUI.Shell)
        (status : N) (result : Js) (text : string) :
  Str.is_empty (GenUI.API_KEY env) = false ->
  GenUI.response env = Response status (BodyJson result) ->
  nullish result = false ->
  truthy (prop "error" result) = false ->
  candidate_text result = inr (JStr text) ->
  exists out,
    fst (GenUI.invokeAI env userQuery sh) = Ret out
    /\ (out = text
        \/ (Str.includes out GenUI.closing = false
            /\ exists pre post, text = pre ++ out ++ GenUI.closing ++ post)).
Proof.
  intros Hkey Hresp Hnn Herr Htext.
  rewrite (invokeAI_of_text env userQuery sh status result _ Hkey Hresp Hnn Herr Htext).
  unfold GenUI.match_html.
  destruct (GenUI.after_opening text) as [rest|] eqn:A; [|eauto].
  destruct (GenUI.before_closing rest) as [html|] eqn:B; [|eauto].
  exists html. split; [reflexivity|]. right. split.
  - exact (GenUIFacts.before_closing_clean rest html B).
  - destruct (GenUIFacts.after_opening_cut text rest A) as [pre ->].
    destruct (GenUIFacts.before_closing_cut rest html B) as [post ->].
    now exists pre, post.
Qed.

Lemma X17_witness :
  exists out,
    fst (GenUI.invokeAI
           (ShellSample.replying
              (Response 200 (BodyJson (Sample.reply (JStr ShellSample.fenced) []))))
           "a card" (ShellSample.fresh "a card"))
    = Ret out
    /\ (out = ShellSample.fenced
        \/ (Str.includes out GenUI.closing = false
            /\ exists pre post,
                ShellSample.fenced = pre ++ out ++ GenUI.closing ++ post)).
Proof.
  apply (X17_extracted_code_has_no_fence
           (ShellSample.replying
              (Response 200 (BodyJson (Sample.reply (JStr ShellSample.fenced) []))))
           "a card" (ShellSample.fresh "a card") 200
           (Sample.reply (JStr ShellSample.fenced) []) ShellSample.fenced);
    reflexivity.
Defined.

(** [invokeAI] is always fulfilled. *)
Lemma invokeAI_returns (env : GenUI.Env) (userQuery : string) (sh : GenUI.Shell) :
  exists aiResponse,
    GenUI.invokeAI env userQuery sh
    = (Ret aiResponse,
       GenUI.mkShell (GenUI.messages sh) (GenUI.input sh) (GenUI.loading sh)
                     (GenUI.activeUI sh)
                     (if Str.is_empty (GenUI.API_KEY env) then GenUI.sent sh
                      else (GenUI.sent sh ++ [GenUI.payload userQuery])%list)
                     (GenUI.dispatched sh) (GenUI.reported sh) (GenUI.clock sh)).
Proof.
  unfold GenUI.invokeAI.
  destruct (Str.is_empty (GenUI.API_KEY env)).
  - destruct sh. eauto.
  - destruct (GenUI.try_block env); eauto.
Qed.

(** X18.  A submission of the shell always settles.  [handleSubmit] does
    nothing when the input is empty or consists of white space only
    (spaces, no-break spaces, tabulators, line terminators) or when a
    request is loading.  Otherwise it empties the input, appends to the log the user
    message, whose text is the input as typed (not trimmed), and after it
    one message of the sender "aios-core", and ends with [loading] false
    and without a console report, whatever the network does.  It sends
    one request, carrying the input as typed, or none when the API key is
    empty.  The answer becomes the active interface exactly when its type
    is "code"; otherwise the active interface stays what it was. *)
Theorem X18_shell_submission_settles (env : GenUI.Env) (sh : GenUI.Shell) :
  (forallb Str.is_space (Str.chars (GenUI.input sh)) = true
   \/ GenUI.loading sh = true ->
   GenUI.handleSubmit env sh = sh)
  /\ (forallb Str.is_space (Str.chars (GenUI.input sh)) = false ->
      GenUI.loading sh = false ->
      exists aiResponse,
        GenUI.messages (GenUI.handleSubmit env sh)
        = (GenUI.messages sh
             ++ [ GenUI.mkMsg (Str.of_Z (GenUI.Date_now env (GenUI.clock sh)))
                              (GenUI.input sh) "user" "text";
                  GenUI.mkMsg
                    (Str.of_Z (GenUI.Date_now env (S (GenUI.clock sh)) + 1))
                    aiResponse "aios-core" (GenUI.type_of aiResponse) ])%list
        /\ GenUI.input (GenUI.handleSubmit env sh) = ""
        /\ GenUI.loading (GenUI.handleSubmit env sh) = false
        /\ GenUI.reported (GenUI.handleSubmit env sh) = GenUI.reported sh
        /\ GenUI.sent (GenUI.handleSubmit env sh)
           = (if Str.is_empty (GenUI.API_KEY env) then GenUI.sent sh
              else (GenUI.sent sh ++ [GenUI.payload (GenUI.input sh)])%list)
        /\ GenUI.activeUI (GenUI.handleSubmit env sh)
           = (if String.eqb (GenUI.type_of aiResponse) "code"
              then Some (GenUI.mkMsg
                           (Str.of_Z (GenUI.Date_now env (S (GenUI.clock sh)) + 1))
                           aiResponse "aios-core" (GenUI.type_of aiResponse))
              else GenUI.activeUI sh)).
Proof.
  split.
  - intros H. unfold GenUI.handleSubmit. rewrite trim_empty_iff.
    destruct H as [-> | ->]; [reflexivity | now rewrite orb_true_r].
  - intros Hin Hload. unfold GenUI.handleSubmit.
    rewrite trim_empty_iff, Hin, Hload. cbn [orb].
    match goal with
    | |- context [GenUI.invokeAI env ?q ?s] =>
        destruct (invokeAI_returns env q s) as [aiResponse ->]
    end.
    exists aiResponse. cbn.
    rewrite <- app_assoc. repeat split.
Qed.

Lemma X18_witness :
  exists aiResponse,
    GenUI.messages
      (GenUI.handleSubmit (ShellSample.replying (FetchRejected "Failed to fetch"))
                          (ShellSample.fresh " a card "))
    = (GenUI.messages (ShellSample.fresh " a card ")
         ++ [ GenUI.mkMsg
                (Str.of_Z (GenUI.Date_now
                             (ShellSample.replying (FetchRejected "Failed to fetch"))
                             (GenUI.clock (ShellSample.fresh " a card "))))
                (GenUI.input (ShellSample.fresh " a card ")) "user" "text";
              GenUI.mkMsg
                (Str.of_Z (GenUI.Date_now
                             (ShellSample.replying (FetchRejected "Failed to fetch"))
                             (S (GenUI.clock (ShellSample.fresh " a card "))) + 1))
                aiResponse "aios-core" (GenUI.type_of aiResponse) ])%list
    /\ GenUI.loading
         (GenUI.handleSubmit (ShellSample.replying (FetchRejected "Failed to fetch"))
                             (ShellSample.fresh " a card "))
       = false.
Proof.
  destruct (proj2 (X18_shell_submission_settles
                     (ShellSample.replying (FetchRejected "Failed to fetch"))
                     (ShellSample.fresh " a card ")) eq_refl eq_refl)
    as (aiResponse & Hm & _ & Hl & _).
  exists aiResponse. split; [exact Hm | exact Hl].
Defined.

(** An input of spaces, no-break spaces, a tabulator and a line feed is
    turned away. *)
Lemma blank_input_is_turned_away :
  GenUI.handleSubmit (ShellSample.replying (FetchRejected "Failed to fetch"))
                     (ShellSample.fresh Sample.blank)
  = ShellSample.fresh Sample.blank.
Proof. reflexivity. Qed.

Lemma includes_append_l (p s sub : string) :
  Str.includes s sub = true -> Str.includes (p ++ s) sub = true.
Proof.
  intros H. induction p as [|c p IH]; [exact H|].
  cbn [String.append Str.includes]. rewrite IH.
  destruct (String.prefix sub (String c (p ++ s))); reflexivity.
Qed.

(** X19.  An error that looks like markup is opened as an interface.
    When the request of an accepted submission (an input with a character
    that is not white space, no request loading, an API key) fails
    ([fetch] rejected, or a body that is not JSON) with a message that
    contains the character "<", the answer "Error: " followed by the message is given the type
    "code" and is made the active interface. *)
Theorem X19_error_with_markup_becomes_interface
        (env : GenUI.Env) (sh : GenUI.Shell) (m : string) :
  forallb Str.is_space (Str.chars (GenUI.input sh)) = false ->
  GenUI.loading sh = false ->
  Str.is_empty (GenUI.API_KEY env) = false ->
  GenUI.response env = FetchRejected m
  \/ (exists status, GenUI.response env = Response status (BodyRejected m)) ->
  Str.includes m "<" = true ->
  GenUI.activeUI (GenUI.handleSubmit env sh)
  = Some (GenUI.mkMsg (Str.of_Z (GenUI.Date_now env (S (GenUI.clock sh)) + 1))
                      ("Error: " ++ m) "aios-core" "code").
Proof.
  intros Hin Hload Hkey Hresp Hm.
  assert (T : GenUI.try_block env = Throw m).
  { unfold GenUI.try_block. destruct Hresp as [->|[status ->]]; reflexivity. }
  assert (C : GenUI.type_of ("Error: " ++ m) = "code").
  { unfold GenUI.type_of. now rewrite (includes_append_l "Error: " m "<" Hm). }
  unfold GenUI.handleSubmit. rewrite trim_empty_iff, Hin, Hload. cbn [orb].
  unfold GenUI.invokeAI. rewrite Hkey, T. cbn.
  change (String "E" (String "r" (String "r" (String "o" (String "r"
            (String ":" (String " " m)))))))
    with ("Error: " ++ m).
  rewrite C. reflexivity.
Qed.

Lemma X19_witness :
  GenUI.activeUI
    (GenUI.handleSubmit
       (ShellSample.replying
          (Response 502 (BodyRejected "Unexpected token '<', is not valid JSON")))
       (ShellSample.fresh "a card"))
  = Some (GenUI.mkMsg
            (Str.of_Z (GenUI.Date_now
                         (ShellSample.replying
                            (Response 502
                               (BodyRejected "Unexpected token '<', is not valid JSON")))
                         (S (GenUI.clock (ShellSample.fresh "a card"))) + 1))
            ("Error: " ++ "Unexpected token '<', is not valid JSON")
            "aios-core" "code").
Proof.
  apply (X19_error_with_markup_becomes_interface
           (ShellSample.replying
              (Response 502 (BodyRejected "Unexpected token '<', is not valid JSON")))
           (ShellSample.fresh "a card")
           "Unexpected token '<', is not valid JSON").
  - reflexivity.
  - reflexivity.
  - reflexivity.
  - right. exists 502%N. reflexivity.
  - reflexivity.
Defined.

(** ** Which submissions reach the responder *)

Lemma classifier_stage_calls (env : Env) (text : string) (w w2 : World) (r : Js) :
  Send.orchestrate env text (sending w) = (Ret r, w2) ->
  responder_calls (trace w2) = responder_calls (trace w)
  /\ count_commits (trace w2) = count_commits (trace w)
  /\ same_app_state (sending w) w2.
Proof.
  intros Horch.
  destruct (SendFacts.orchestrate_returns env text (sending w)) as [r' Hr'].
  rewrite Horch in Hr'. inversion Hr' as [[Er Ew]].
  destruct (CallFacts.orchestrator_frame env text (sending w)) as [[evs [T F]] [St _]].
  rewrite T, Frame.responder_calls_app, (Frame.loop_events_no_call _ _ F).
  rewrite count_commits_app, (loop_events_no_commit _ _ F).
  change (trace (sending w)) with (trace w).
  split; [lia|]. split; [lia | exact St].
Qed.

(** X20.  Which submissions reach the responder.  Take a submission that
    passes the guard.  When line 329 gives an intent, a tool name and a
    summary that convert to strings, [callGeminiResponseGenerator] is
    invoked exactly once if the intent is 'general_chat' or
    'gemini_response', and not at all for any other intent.  When line 329
    or line 333 throws, it is not invoked, whatever the intent. *)
Theorem X20_responder_invoked_once_for_chat_intents
        (env : Env) (w w2 : World) (r : Js) :
  Send.rejected w (Str.trim (newMessage w)) = false ->
  Send.orchestrate env (Str.trim (newMessage w)) (sending w) = (Ret r, w2) ->
  (forall intent tool q,
      Send.destructure r w2 = (Ret (intent, tool, q), w2) ->
      Send.summarizable intent tool q = true ->
      intent = JStr "general_chat" \/ intent = JStr "gemini_response" ->
      responder_calls (trace (snd (handleSend env w))) = responder_calls (trace w) + 1)
  /\ (forall intent tool q,
         Send.destructure r w2 = (Ret (intent, tool, q), w2) ->
         Send.summarizable intent tool q = true ->
         intent <> JStr "general_chat" ->
         intent <> JStr "gemini_response" ->
         responder_calls (trace (snd (handleSend env w))) = responder_calls (trace w))
  /\ (forall intent tool q,
         Send.destructure r w2 = (Ret (intent, tool, q), w2) ->
         Send.summarizable intent tool q = false ->
         responder_calls (trace (snd (handleSend env w))) = responder_calls (trace w))
  /\ (forall m,
         Send.destructure r w2 = (Throw m, w2) ->
         responder_calls (trace (snd (handleSend env w))) = responder_calls (trace w)).
Proof.
  intros Hguard Horch.
  destruct (classifier_stage_calls env _ w w2 r Horch) as (Hw2 & _ & _).
  split; [|split; [|split]].
  - intros intent tool q Hd S Hchat.
    destruct (SendFacts.handleSend_completes env w w2 r intent tool q Hguard Horch Hd S)
      as (fr & w3 & Hc & Hs).
    rewrite SendFacts.compose_chat in Hc
      by (try exact S; destruct Hchat as [->| ->]; reflexivity).
    rewrite Hs. simpl. rewrite Frame.persisted_calls, <- Hw2.
    pose proof (CallFacts.responder_counts_once env (Str.trim (newMessage w)) intent w2)
      as Honce.
    destruct (callGeminiResponseGenerator env (Str.trim (newMessage w)) intent w2)
      as [[a|m] w1]; inversion Hc; subst; exact Honce.
  - intros intent tool q Hd S Hg Hr.
    destruct (SendFacts.handleSend_completes env w w2 r intent tool q Hguard Horch Hd S)
      as (fr & w3 & Hc & Hs).
    assert (C : is_string "general_chat" intent || is_string "gemini_response" intent
                = false).
    { apply orb_false_iff. split.
      - destruct (is_string "general_chat" intent) eqn:E; [|reflexivity].
        apply Frame.is_string_eq in E. contradiction.
      - destruct (is_string "gemini_response" intent) eqn:E; [|reflexivity].
        apply Frame.is_string_eq in E. contradiction. }
    rewrite Hs. simpl. rewrite Frame.persisted_calls, <- Hw2.
    destruct (is_string "error" intent) eqn:E.
    + rewrite SendFacts.compose_error in Hc by assumption. now inversion Hc.
    + rewrite SendFacts.compose_tool in Hc by assumption. now inversion Hc.
  - intros intent tool q Hd S.
    now rewrite (SendFacts.handleSend_unconverted env w w2 r intent tool q
                   Hguard Horch Hd S).
  - intros m Hd.
    now rewrite (SendFacts.handleSend_crashes env w w2 r m Hguard Horch Hd).
Qed.

(** 'hello', classified as conversation: one invocation. *)
Lemma X20_witness :
  responder_calls
    (trace (snd (handleSend (Sample.answering Sample.chat CommitOk)
                            (Sample.idle "hello"))))
  = responder_calls (trace (Sample.idle "hello")) + 1.
Proof.
  refine (proj1 (X20_responder_invoked_once_for_chat_intents
             (Sample.answering Sample.chat CommitOk)
             (Sample.idle "hello")
             (snd (Send.orchestrate (Sample.answering Sample.chat CommitOk)
                                    "hello" (sending (Sample.idle "hello"))))
             Sample.chat eq_refl eq_refl)
            (JStr "general_chat") (JStr "Gemini Responder") (JStr "hello")
            eq_refl eq_refl (or_introl eq_refl)).
Defined.

(** ** Values that do not convert to strings *)

(** X21.  A classification that does not convert.  When the intent, the
    tool name or the summary of a classification is an object with an own
    key [toString] (or an array holding one), the template of line 333
    throws a TypeError outside every [try]: [handleSend] is rejected with
    "Cannot convert object to primitive value", the responder is not
    invoked, no batch is committed, the collection and the input box are
    as before, and the flag is still set, so that the guard turns away
    whatever is submitted next. *)
Theorem X21_unconvertible_classification_ends_submission
        (env : Env) (w w2 : World) (r intent tool q : Js) :
  Send.rejected w (Str.trim (newMessage w)) = false ->
  Send.orchestrate env (Str.trim (newMessage w)) (sending w) = (Ret r, w2) ->
  Send.destructure r w2 = (Ret (intent, tool, q), w2) ->
  converts intent = false \/ converts tool = false \/ converts q = false ->
  handleSend env w = (Throw "Cannot convert object to primitive value", w2)
  /\ responder_calls (trace w2) = responder_calls (trace w)
  /\ count_commits (trace w2) = count_commits (trace w)
  /\ collection w2 = collection w
  /\ newMessage w2 = newMessage w
  /\ isSending w2 = true
  /\ forall text, Send.rejected w2 text = true.
Proof.
  intros Hguard Horch Hd Hconv.
  assert (S : Send.summarizable intent tool q = false).
  { unfold Send.summarizable.
    destruct Hconv as [->|[->| ->]]; now rewrite ?andb_false_r. }
  destruct (classifier_stage_calls env _ w w2 r Horch) as (Hcalls & Hcommits & St).
  destruct St as (A2 & _ & _ & N2 & _ & S2). simpl in *.
  split; [exact (SendFacts.handleSend_unconverted env w w2 r intent tool q
                   Hguard Horch Hd S)|].
  repeat split; try assumption.
  intros text. unfold Send.rejected. rewrite S2. now rewrite !orb_true_r.
Qed.

(** The tool name [{"toString": 1}]. *)
Lemma X21_witness :
  handleSend (Sample.answering tool_object CommitOk)
             (Sample.idle "Schedule lunch Friday")
  = (Throw "Cannot convert object to primitive value",
     snd (Send.orchestrate (Sample.answering tool_object CommitOk)
                           "Schedule lunch Friday"
                           (sending (Sample.idle "Schedule lunch Friday"))))
  /\ isSending (snd (Send.orchestrate (Sample.answering tool_object CommitOk)
                                      "Schedule lunch Friday"
                                      (sending (Sample.idle "Schedule lunch Friday"))))
     = true.
Proof.
  destruct (X21_unconvertible_classification_ends_submission
              (Sample.answering tool_object CommitOk)
              (Sample.idle "Schedule lunch Friday")
              (snd (Send.orchestrate (Sample.answering tool_object CommitOk)
                                     "Schedule lunch Friday"
                                     (sending (Sample.idle "Schedule lunch Friday"))))
              tool_object (JStr "calendar_tool") shadowing (JStr "lunch Friday")
              eq_refl eq_refl eq_refl (or_intror (or_introl eq_refl)))
    as (Hs & _ & _ & _ & _ & Hflag & _).
  split; [exact Hs | exact Hflag].
Defined.

(** X22.  A model text that does not convert.  When an OK response
    carries as model text a value that is truthy and does not convert to
    a string, each call throws in the attempt that receives it, without
    retrying: the classifier call the TypeError of [JSON.parse(jsonText)],
    the responder call (its citations being computed without error) the
    TypeError of [text + citations] behind "Response Generator failed: ". *)
Theorem X22_unconvertible_text_is_thrown
        (env : Env) (userQuery : string) (intent : Js)
        (r i : nat) (delay : Z) (w : World) (status : N) (result text : Js) :
  net env (fetched w) = Response status (BodyJson result) ->
  response_ok status = true ->
  candidate_text result = inr text ->
  truthy text = true ->
  converts text = false ->
  classifier_loop env userQuery (S r) i delay w
  = (Thrown "Cannot convert object to primitive value",
     console_error Orchestrator.fatal_label
       (snd (fetch env (Orchestrator.payload userQuery) w)))
  /\ (forall candidate citations,
         first_candidate result = inr candidate ->
         Responder.citations_of (opt_prop "groundingMetadata" candidate)
         = inr citations ->
         responder_loop env userQuery intent (S r) i delay w
         = (Thrown "Response Generator failed: Cannot convert object to primitive value",
            console_error Responder.fatal_label
              (snd (fetch env (Responder.payload userQuery intent) w)))).
Proof.
  intros Hnet Hok Htext Htruthy Hconv.
  assert (Hs : ToString text = inl cannot_convert).
  { unfold ToString. now rewrite Hconv. }
  split.
  - rewrite (CallFacts.classifier_attempt_raised env userQuery r i delay w
               cannot_convert).
    + now rewrite andb_false_r.
    + rewrite Hnet. now apply (raised_by_conversion env status result text).
  - intros candidate citations Hcand Hcit.
    unfold responder_loop.
    rewrite (ok_response_raises env string MAX_RETRIES "Response Generator"
               (Responder.payload userQuery intent) Responder.on_ok
               Responder.fatal_label Responder.rethrow
               r i delay w status result cannot_convert
               (snd (fetch env (Responder.payload userQuery intent) w)) Hnet Hok).
    + now rewrite andb_false_r.
    + unfold Responder.on_ok. now rewrite Htext, Htruthy, Hcand, Hcit, Hs.
Qed.

(** The model text [{"toString": 1}]. *)
Lemma X22_witness :
  classifier_loop
    (Sample.always (Response 200 (BodyJson (Sample.reply shadowing [])))
                   (ParseError "unused"))
    "hi" 3 0 1000 (Sample.idle "hi")
  = (Thrown "Cannot convert object to primitive value",
     console_error Orchestrator.fatal_label
       (snd (fetch (Sample.always (Response 200 (BodyJson (Sample.reply shadowing [])))
                                  (ParseError "unused"))
                   (Orchestrator.payload "hi") (Sample.idle "hi")))).
Proof.
  refine (proj1 (X22_unconvertible_text_is_thrown
                   (Sample.always (Response 200 (BodyJson (Sample.reply shadowing [])))
                                  (ParseError "unused"))
                   "hi" (JStr "general_chat") 2 0 1000%Z (Sample.idle "hi") 200
                   (Sample.reply shadowing []) shadowing
                   eq_refl eq_refl eq_refl eq_refl eq_refl)).
Defined.

(** ** Classifications that line 329 cannot take apart *)

(** X23.  A classification without arguments.  When the value the
    classifier stage yields is [null], or has no [arguments] (the key is
    missing or holds [null]), the destructuring of line 329 throws a
    TypeError outside every [try]: [handleSend] is rejected, the responder
    is not invoked, no batch is committed, the collection and the input box
    are as before, and the flag is still set, so that the guard turns away
    whatever is submitted next. *)
Theorem X23_classification_without_arguments_ends_submission
        (env : Env) (w w2 : World) (r : Js) :
  Send.rejected w (Str.trim (newMessage w)) = false ->
  Send.orchestrate env (Str.trim (newMessage w)) (sending w) = (Ret r, w2) ->
  nullish r = true \/ nullish (prop "arguments" r) = true ->
  (exists m, handleSend env w = (Throw m, w2))
  /\ (r <> JNull -> r <> JUndef ->
      handleSend env w
      = (Throw ("Cannot read properties of " ++ toStr (prop "arguments" r)
                ++ " (reading 'query')"), w2))
  /\ responder_calls (trace w2) = responder_calls (trace w)
  /\ count_commits (trace w2) = count_commits (trace w)
  /\ collection w2 = collection w
  /\ newMessage w2 = newMessage w
  /\ isSending w2 = true
  /\ forall text, Send.rejected w2 text = true.
Proof.
  intros Hguard Horch Hnull.
  destruct (classifier_stage_calls env _ w w2 r Horch) as (Hcalls & Hcommits & St).
  assert (Hd : exists m, Send.destructure r w2 = (Throw m, w2)
                         /\ (r <> JNull -> r <> JUndef ->
                             m = "Cannot read properties of "
                                 ++ toStr (prop "arguments" r) ++ " (reading 'query')")).
  { unfold Send.destructure.
    destruct (nullish r) eqn:Nr.
    - eexists. split; [reflexivity|].
      intros H1 H2. destruct r; simpl in Nr; congruence.
    - destruct Hnull as [H|H]; [discriminate H|]. rewrite H.
      eexists. split; [reflexivity|]. reflexivity. }
  destruct Hd as (m & Hd & Hm).
  pose proof (crashed_submission_stuck env w w2 r m Hguard Horch Hd)
    as (Hs & Hflag & Hcol & Hbox & Hrej).
  split; [exists m; exact Hs|].
  split; [intros H1 H2; rewrite Hs, (Hm H1 H2); reflexivity|].
  repeat split; assumption.
Qed.

(** A reply with an intent and a tool name and nothing else. *)
Lemma X23_witness :
  handleSend (Sample.answering Sample.calendar_without_arguments CommitOk)
             (Sample.idle "Schedule lunch Friday")
  = (Throw ("Cannot read properties of "
            ++ toStr (prop "arguments" Sample.calendar_without_arguments)
            ++ " (reading 'query')"),
     snd (Send.orchestrate
            (Sample.answering Sample.calendar_without_arguments CommitOk)
            "Schedule lunch Friday"
            (sending (Sample.idle "Schedule lunch Friday")))).
Proof.
  refine (proj1 (proj2 (X23_classification_without_arguments_ends_submission
            (Sample.answering Sample.calendar_without_arguments CommitOk)
            (Sample.idle "Schedule lunch Friday")
            (snd (Send.orchestrate
                    (Sample.answering Sample.calendar_without_arguments CommitOk)
                    "Schedule lunch Friday"
                    (sending (Sample.idle "Schedule lunch Friday"))))
            Sample.calendar_without_arguments eq_refl eq_refl (or_intror eq_refl)))
            _ _); discriminate.
Defined.
